(** * instructlab.schema: taxonomy qna.yaml parsing

    A shallow embedding of [src/instructlab/schema/__init__.py] and
    [src/instructlab/schema/taxonomy.py].

    Python objects that the module mutates (the [Taxonomy] entry, the parser's
    [yq_available] flag, the [lru_cache] of [_load_schema]) are threaded
    explicitly.  Everything the module reaches outside itself (the file
    system, the YAML decoder, the yamllint and yq executables, the JSON
    Schema engine) is a field of the record [World]; what the module sends to
    the outside (standard output, log records, subprocess invocations, schema
    file reads) is recorded, in order, in a trace of [event]s.

    Strings are sequences of ASCII characters; a Python [int] is a [Z]; a
    value that is only formatted into a message ([line], [col], the
    [message_args]) is given by its [str()] rendering.  The path given to
    [parse] is the resolved absolute path.  One parser object is followed;
    other parser objects appear as callers of the cache that they share
    with it. *)

From Stdlib Require Import ZArith List String Ascii Bool Arith Lia.
From Stdlib Require Import DecimalString SpecFloat Permutation Sorted.
Import ListNotations.

Set Warnings "-register-all".
Open Scope list_scope.
Open Scope string_scope.

(** ** Python built-ins used by the module *)

Module Py.

(** [str.isspace] on one ASCII character: TAB..CR, FS..US and SPACE. *)
Definition is_space (c : ascii) : bool :=
  let n := nat_of_ascii c in
  (Nat.leb 9 n && Nat.leb n 13) || (Nat.leb 28 n && Nat.leb n 32).

Definition is_digit (c : ascii) : bool :=
  let n := nat_of_ascii c in Nat.leb 48 n && Nat.leb n 57.

Definition digit_value (c : ascii) : Z := Z.of_nat (nat_of_ascii c - 48).

Fixpoint all_digits (s : string) : bool :=
  match s with
  | EmptyString => true
  | String c r => is_digit c && all_digits r
  end.

(** [s.isdigit()]: non-empty and made of decimal digits only. *)
Definition isdigit (s : string) : bool :=
  match s with
  | EmptyString => false
  | String _ _ => all_digits s
  end.

(** White space for the C library, which is what [int] skips: TAB..CR and
    SPACE. *)
Definition is_c_space (c : ascii) : bool :=
  let n := nat_of_ascii c in
  (Nat.leb 9 n && Nat.leb n 13) || Nat.eqb n 32.

Fixpoint lstrip_with (space : ascii -> bool) (s : string) : string :=
  match s with
  | EmptyString => EmptyString
  | String c r => if space c then lstrip_with space r else s
  end.

Fixpoint rstrip_with (space : ascii -> bool) (s : string) : string :=
  match s with
  | EmptyString => EmptyString
  | String c r =>
      match rstrip_with space r with
      | EmptyString => if space c then EmptyString else String c EmptyString
      | r' => String c r'
      end
  end.

(** [s.lstrip()] and [s.strip()] for a [str] *)
Definition lstrip (s : string) : string := lstrip_with is_space s.

Definition strip (s : string) : string := rstrip_with is_space (lstrip_with is_space s).

(** Value of a run of decimal digits, most significant first. *)
Fixpoint digits_value (acc : Z) (s : string) : Z :=
  match s with
  | EmptyString => acc
  | String c r => digits_value (10 * acc + digit_value c) r
  end.

(** The digit part of a decimal integer literal: one or more digits, single
    underscores allowed between two digits.  [after_digit] tells whether
    the previous character was a digit. *)
Fixpoint int_digits (after_digit : bool) (acc : Z) (s : string) : option Z :=
  match s with
  | EmptyString => if after_digit then Some acc else None
  | String c r =>
      if is_digit c then int_digits true (10 * acc + digit_value c) r
      else if Ascii.eqb c "_" && after_digit then int_digits false acc r
      else None
  end.

(** [sys.int_max_str_digits] as the interpreter starts with it: [int] raises
    [ValueError] for a literal that has more digits. *)
Definition int_max_str_digits : nat := 4300.

Fixpoint count_digits (s : string) : nat :=
  match s with
  | EmptyString => 0
  | String c r => (if is_digit c then 1 else 0) + count_digits r
  end.

(** A decimal integer literal as [int] reads it (base 10): white space around
    it is skipped, one sign is accepted, and the digits, leading zeros
    included, are at most [int_max_str_digits]; [None] stands for
    [ValueError]. *)
Definition int_literal (space : ascii -> bool) (s : string) : option Z :=
  if Nat.ltb int_max_str_digits (count_digits s) then None
  else
    match rstrip_with space (lstrip_with space s) with
    | String c r =>
        if Ascii.eqb c "-" then option_map Z.opp (int_digits false 0 r)
        else if Ascii.eqb c "+" then int_digits false 0 r
        else int_digits false 0 (String c r)
    | EmptyString => None
    end.

(** [int(s)] for a [str], and for a [bytes].  For a [str] of ASCII characters
    [int] skips the white space of the C library, as it does for [bytes]:
    the separators FS, GS, RS and US, which [str.isspace] and [str.strip]
    count as white space, are not skipped, and make the literal invalid. *)
Definition int_of_str (s : string) : option Z := int_literal is_c_space s.

Definition int_of_bytes (s : string) : option Z := int_literal is_c_space s.

(** [str(n)] for an [int]. *)
Definition str_of_int (z : Z) : string := NilZero.string_of_int (Z.to_int z).

Fixpoint drop (n : nat) (s : string) : string :=
  match n, s with
  | O, _ => s
  | S _, EmptyString => EmptyString
  | S n', String _ r => drop n' r
  end.

(** [s[-n:]] for [n > 0]: the last [n] characters, all of [s] when it is
    shorter. *)
Definition last_chars (n : nat) (s : string) : string :=
  drop (String.length s - n) s.

(** [s[1:]] *)
Definition tail (s : string) : string := drop 1 s.

(** Whether [%s] and [%%] are the only directives of [message], as in the
    messages of the module. *)
Fixpoint plain_format (message : string) : bool :=
  match message with
  | EmptyString => true
  | String c r =>
      if Ascii.eqb c "%" then
        match r with
        | String d r' => (Ascii.eqb d "s" || Ascii.eqb d "%") && plain_format r'
        | EmptyString => false
        end
      else plain_format r
  end.

(** [message % args] with [args] a tuple, for a message whose only
    directives are [%s], which consumes one argument (given here by its
    [str()] rendering), and [%%].  [None] stands for the [TypeError] that the
    operator raises for too few arguments and for arguments left over.
    (What the operator does with other directives is not computed here: see
    [Taxonomy.interpolate].) *)
Fixpoint percent_format (message : string) (args : list string) : option string :=
  match message with
  | EmptyString => match args with [] => Some EmptyString | _ :: _ => None end
  | String c r =>
      if Ascii.eqb c "%" then
        match r with
        | String d r' =>
            if Ascii.eqb d "s" then
              match args with
              | a :: args' => option_map (append a) (percent_format r' args')
              | [] => None
              end
            else if Ascii.eqb d "%" then
              option_map (String "%") (percent_format r' args)
            else None
        | EmptyString => None
        end
      else option_map (String c) (percent_format r args)
  end.

(** [sep.join(parts)] *)
Fixpoint join (sep : string) (parts : list string) : string :=
  match parts with
  | [] => EmptyString
  | [p] => p
  | p :: rest => p ++ sep ++ join sep rest
  end.

(** [x in xs] for a list of strings. *)
Definition mem (x : string) (xs : list string) : bool :=
  existsb (String.eqb x) xs.

(** ASCII [s.upper()]. *)
Definition upper_char (c : ascii) : ascii :=
  let n := nat_of_ascii c in
  if Nat.leb 97 n && Nat.leb n 122 then ascii_of_nat (n - 32) else c.

Fixpoint upper (s : string) : string :=
  match s with
  | EmptyString => EmptyString
  | String c r => String (upper_char c) (upper r)
  end.

End Py.

(** ** Data model *)

(** What [yaml.safe_load] can return.  A mapping keeps its items in document
    order; its keys are scalars. *)
Inductive yaml : Type :=
| YNull
| YBool (b : bool)
| YInt (z : Z)
| YFloat (f : spec_float)
| YStr (s : string)
| YBytes (b : string)
| YTimestamp (text : string)
| YSeq (items : list yaml)
| YSet (items : list yaml)
| YMap (items : list (yaml * yaml)).

(** A parsed JSON document (the contents of a schema file). *)
Inductive json : Type :=
| JNull
| JBool (b : bool)
| JNumber (z : Z)
| JString (s : string)
| JArray (items : list json)
| JObject (members : list (string * json)).

(** A Python [int] object: [bool] is a subclass of [int]. *)
Inductive pyint : Type :=
| PInt (z : Z)
| PBool (b : bool).

Definition int_value (n : pyint) : Z :=
  match n with
  | PInt z => z
  | PBool b => if b then 1%Z else 0%Z
  end.

(** [str(n)], which is also what an f-string shows. *)
Definition pyint_str (n : pyint) : string :=
  match n with
  | PInt z => Py.str_of_int z
  | PBool b => if b then "True" else "False"
  end.

(** Truth value of a decoded document, as tested by [not parsed]. *)
Definition truthy (v : yaml) : bool :=
  match v with
  | YNull => false
  | YBool b => b
  | YInt z => negb (Z.eqb z 0)
  | YFloat f => match f with S754_zero _ => false | _ => true end
  | YStr s => match s with EmptyString => false | _ => true end
  | YBytes b => match b with EmptyString => false | _ => true end
  | YTimestamp _ => true
  | YSeq items => match items with [] => false | _ => true end
  | YSet items => match items with [] => false | _ => true end
  | YMap items => match items with [] => false | _ => true end
  end.

(** [d.get(key)] for a [str] key: the value bound to the key equal to it. *)
Fixpoint dict_get (key : string) (d : list (yaml * yaml)) : option yaml :=
  match d with
  | [] => None
  | (YStr k, v) :: rest => if String.eqb k key then Some v else dict_get key rest
  | _ :: rest => dict_get key rest
  end.

(** [key in d] *)
Definition dict_has (key : string) (d : list (yaml * yaml)) : bool :=
  match dict_get key d with Some _ => true | None => false end.

Inductive exn : Type :=
| TaxonomyReadingException
| NoSuchResource (ref : string)
| ValueError
| TypeError
| OverflowError
| IndexError
| KeyError
| OSError
| YAMLError
| EngineError.   (* raised by the JSON Schema engine *)

Inductive result (A : Type) : Type :=
| Ok (a : A)
| Raise (e : exn).
Arguments Ok {A} a.
Arguments Raise {A} e.

(** [int(v)] for a decoded YAML value. *)
Definition py_int (v : yaml) : result Z :=
  match v with
  | YInt z => Ok z
  | YBool b => Ok (if b then 1%Z else 0%Z)
  | YStr s =>
      match Py.int_of_str s with Some z => Ok z | None => Raise ValueError end
  | YBytes s =>
      match Py.int_of_bytes s with Some z => Ok z | None => Raise ValueError end
  | YFloat f =>
      match f with
      | S754_zero _ => Ok 0%Z
      | S754_finite s m e =>
          let magnitude := Z.shiftl (Zpos m) e in
          Ok (if s then (- magnitude)%Z else magnitude)
      | S754_nan => Raise ValueError
      | S754_infinity _ => Raise OverflowError
      end
  | YNull | YTimestamp _ | YSeq _ | YSet _ | YMap _ => Raise TypeError
  end.

Inductive TaxonomyMessageFormat : Type := AUTO | STANDARD | GITHUB | LOGGING.

Inductive severity : Type := Error | Warning.

(** What the module sends to the outside. *)
Inductive event : Type :=
| Print (text : string)                                 (* [print] *)
| Log (level : severity) (fmt : string) (args : list string)  (* [logger] *)
| RunYamllint (config content : string)   (* [_yamllint] starts the command *)
| RunYq (expression content : string)     (* the loop of [_schema_validate] starts [yq] *)
| ReadSchema (path : string).             (* the body of [_load_schema] runs *)

(** One [ValidationError] of the JSON Schema engine; [validator_value] is
    given by its [str()] rendering. *)
Record ValidationError : Type := {
  json_path : string;
  validator : string;
  validator_value : string;
  message : string
}.

(** What [validator.iter_errors] does, step by step: it yields an error, asks
    the registry to retrieve a referenced schema, or raises. *)
Inductive engine_step : Type :=
| Yield (e : ValidationError)
| Retrieve (ref : string)
| EngineRaise.

Inductive yq_result : Type :=
| YqOutput (out : string)
| YqSubprocessError
| YqFileNotFound.

(** A path is the list of its [parts]; an absolute path starts with ["/"]. *)
Definition Path : Type := list string.

Definition path_str (p : Path) : string :=
  match p with
  | [] => "."
  | first :: rest =>
      if String.eqb first "/" then "/" ++ Py.join "/" rest else Py.join "/" p
  end.

Definition path_name (p : Path) : string :=
  match p with
  | [] => EmptyString
  | [first] => if String.eqb first "/" then EmptyString else first
  | _ => last p EmptyString
  end.

Fixpoint strip_prefix (prefix p : Path) : option Path :=
  match prefix, p with
  | [], _ => Some p
  | a :: prefix', b :: p' => if String.eqb a b then strip_prefix prefix' p' else None
  | _ :: _, [] => None
  end.

(** The longest name that an entry of a directory can have. *)
Definition NAME_MAX : nat := 255.

(** The collaborators of the module.  Of the exceptions that starting a
    subprocess can raise, the record has those that the module handles
    ([FileNotFoundError] for yamllint; [SubprocessError] and
    [FileNotFoundError] for yq); a run that raises another one
    ([PermissionError], say) is not described by a world. *)
Record World : Type := {
  cwd : Path;                                         (* [Path.cwd()] *)
  environ : list string;                              (* names set in [os.environ] *)
  isfile : Path -> bool;                              (* [os.path.isfile] *)
  read_text : Path -> option string;                  (* [open] and [read]; [None]: raised *)
  safe_load : string -> option yaml;                  (* [yaml.safe_load]; [None]: raised *)
  run_yamllint : string -> string -> option (list string);
      (* output lines of [yamllint -f parsable -d config -]; [None]: [FileNotFoundError] *)
  run_yq : string -> string -> yq_result;             (* [yq expression] on the content *)
  schema_entries : list string;                       (* names under [schema_base()] *)
  entries_are_names :
    forallb (fun name => Nat.leb (String.length name) NAME_MAX) schema_entries = true;
      (* no name is longer than [NAME_MAX] *)
  read_schema : string -> option json;
      (* [read_text], [json.loads] and [Resource.from_contents]; [None]: one of them raised *)
  iter_errors : json -> string -> list (yaml * yaml) -> list engine_step;
      (* the validator for a schema, with references retrieved below a version base *)
  str_NoSuchResource : string -> string;               (* [str(e)] for [NoSuchResource(ref)] *)
  percent : string -> list string -> result string
      (* [message % message_args] for a message with a directive other than [%s] and
         [%%] ([%r], [%d], [%5s], ...): the result depends on the arguments themselves,
         of which the model keeps the [str()] renderings, and is the one for the
         arguments at hand *)
}.

Definition nonempty (s : string) : bool :=
  match s with EmptyString => false | String _ _ => true end.

(** The double quote character, for the messages that contain it. *)
Definition dquote : string := String (ascii_of_nat 34) EmptyString.

(** ** [instructlab/schema/__init__.py] *)

Module Schema.

(** The filter of [schema_versions]:
    [v.name[0] == "v" and v.name[1:].isdigit()].  (A directory entry has a
    non-empty name.) *)
Definition is_version (name : string) : bool :=
  match name with
  | String c _ => Ascii.eqb c "v" && Py.isdigit (Py.tail name)
  | EmptyString => false
  end.

(** The sort key [int(k.name[1:])].  (The name of a directory entry has at
    most [NAME_MAX] characters, fewer than the digits that [int] accepts.) *)
Definition version_key (name : string) : option Z :=
  Py.int_of_str (Py.tail name).

(** [sorted] first computes the key of every element. *)
Fixpoint with_keys (names : list string) : result (list (Z * string)) :=
  match names with
  | [] => Ok []
  | name :: rest =>
      match version_key name with
      | None => Raise ValueError
      | Some k =>
          match with_keys rest with
          | Ok keyed => Ok ((k, name) :: keyed)
          | Raise e => Raise e
          end
      end
  end.

(** [sorted] is stable: an element goes before the first one whose key is
    not smaller. *)
Fixpoint insert_by_key (x : Z * string) (l : list (Z * string)) : list (Z * string) :=
  match l with
  | [] => [x]
  | y :: l' => if (fst x <=? fst y)%Z then x :: l else y :: insert_by_key x l'
  end.

Fixpoint sort_by_key (l : list (Z * string)) : list (Z * string) :=
  match l with
  | [] => []
  | x :: l' => insert_by_key x (sort_by_key l')
  end.

(** [schema_versions()]: the entries are given by their names. *)
Definition schema_versions (w : World) : result (list string) :=
  match with_keys (filter is_version (schema_entries w)) with
  | Ok keyed => Ok (map snd (sort_by_key keyed))
  | Raise e => Raise e
  end.

End Schema.

(** ** [taxonomy.py]: class [Taxonomy] *)

Module Taxonomy.

Record t : Type := {
  path : Path;
  rel_path : Path;
  message_format : TaxonomyMessageFormat;
  errors : nat;
  warnings : nat;
  parsed : list (yaml * yaml);
  version : pyint
}.

(** [Taxonomy.__init__]; [abs_path] is already resolved. *)
Definition init (w : World) (path abs_path : Path)
    (message_format : TaxonomyMessageFormat) : t :=
  let rel_path :=
    match strip_prefix (cwd w) abs_path with
    | Some rel => rel
    | None => abs_path
    end in
  let message_format :=
    match message_format with
    | AUTO =>
        if Py.mem "GITHUB_ACTIONS" (environ w) && Py.mem "GITHUB_WORKFLOW" (environ w)
        then GITHUB else STANDARD
    | _ => message_format
    end in
  {| path := path; rel_path := rel_path; message_format := message_format;
     errors := 0; warnings := 0; parsed := []; version := PInt 0 |}.

Definition add_error (self : t) : t :=
  {| path := path self; rel_path := rel_path self;
     message_format := message_format self;
     errors := S (errors self); warnings := warnings self;
     parsed := parsed self; version := version self |}.

Definition add_warning (self : t) : t :=
  {| path := path self; rel_path := rel_path self;
     message_format := message_format self;
     errors := errors self; warnings := S (warnings self);
     parsed := parsed self; version := version self |}.

(** [taxonomy.version = version; taxonomy.parsed = parsed] *)
Definition set_parsed (self : t) (version : pyint) (parsed : list (yaml * yaml)) : t :=
  {| path := path self; rel_path := rel_path self;
     message_format := message_format self;
     errors := errors self; warnings := warnings self;
     parsed := parsed; version := version |}.

(** [if message_args: message = message % message_args].  The operator is
    computed for the messages whose directives are [%s] and [%%]; for any
    other message the world says what it does. *)
Definition interpolate (w : World) (message : string) (message_args : list string)
    : result string :=
  match message_args with
  | [] => Ok message
  | _ :: _ =>
      if Py.plain_format message then
        match Py.percent_format message message_args with
        | Some text => Ok text
        | None => Raise TypeError
        end
      else percent w message message_args
  end.

(** [Taxonomy.error].  [line], [col] and the [message_args] are given by
    their [str()] renderings (the defaults of [line] and [col] are ["1"]).
    The result is the entry as the call leaves it, with the event emitted
    when the call returns [self], or the exception when it raises. *)
Definition error (w : World) (self : t) (message : string) (message_args : list string)
    (line col yaml_path : string) : result event * t :=
  let self := add_error self in
  let rel := path_str (rel_path self) in
  match message_format self with
  | GITHUB =>
      match interpolate w message message_args with
      | Ok message =>
          (Ok (Print
             (if nonempty yaml_path
              then "::error file=" ++ rel ++ ",line=" ++ line ++ ",col=" ++ col ++ "::"
                   ++ line ++ ":" ++ col ++ " [" ++ yaml_path ++ "] " ++ message
              else "::error file=" ++ rel ++ ",line=" ++ line ++ ",col=" ++ col ++ "::"
                   ++ line ++ ":" ++ col ++ " " ++ message)), self)
      | Raise e => (Raise e, self)
      end
  | LOGGING =>
      if nonempty yaml_path
      then (Ok (Log Error ("%s:%s:%s [%s] " ++ message)
                  ([rel; line; col; yaml_path] ++ message_args)%list), self)
      else (Ok (Log Error ("%s:%s:%s " ++ message)
                  ([rel; line; col] ++ message_args)%list), self)
  | STANDARD | AUTO =>
      match interpolate w message message_args with
      | Ok message =>
          (Ok (Print
             (if nonempty yaml_path
              then "ERROR: " ++ rel ++ ":" ++ line ++ ":" ++ col
                   ++ " [" ++ yaml_path ++ "] " ++ message
              else "ERROR: " ++ rel ++ ":" ++ line ++ ":" ++ col ++ " " ++ message)), self)
      | Raise e => (Raise e, self)
      end
  end.

(** [Taxonomy.warning] *)
Definition warning (w : World) (self : t) (message : string) (message_args : list string)
    (line col yaml_path : string) : result event * t :=
  let self := add_warning self in
  let rel := path_str (rel_path self) in
  match message_format self with
  | GITHUB =>
      match interpolate w message message_args with
      | Ok message =>
          (Ok (Print
             (if nonempty yaml_path
              then "::warning file=" ++ rel ++ ",line=" ++ line ++ ",col=" ++ col ++ "::"
                   ++ line ++ ":" ++ col ++ " [" ++ yaml_path ++ "] " ++ message
              else "::warning file=" ++ rel ++ ",line=" ++ line ++ ",col=" ++ col ++ "::"
                   ++ line ++ ":" ++ col ++ " " ++ message)), self)
      | Raise e => (Raise e, self)
      end
  | LOGGING =>
      if nonempty yaml_path
      then (Ok (Log Warning ("%s:%s:%s [%s] " ++ message)
                  ([rel; line; col; yaml_path] ++ message_args)%list), self)
      else (Ok (Log Warning ("%s:%s:%s " ++ message)
                  ([rel; line; col] ++ message_args)%list), self)
  | STANDARD | AUTO =>
      match interpolate w message message_args with
      | Ok message =>
          (Ok (Print
             (if nonempty yaml_path
              then "WARN: " ++ rel ++ ":" ++ line ++ ":" ++ col
                   ++ " [" ++ yaml_path ++ "] " ++ message
              else "WARN: " ++ rel ++ ":" ++ line ++ ":" ++ col ++ " " ++ message)), self)
      | Raise e => (Raise e, self)
      end
  end.

End Taxonomy.

(** ** [taxonomy.py]: class [TaxonomyParser] *)

Definition DEFAULT_TAXONOMY_FOLDERS : list string := ["compositional_skills"; "knowledge"].

Definition DEFAULT_YAMLLINT_CONFIG : string :=
  "{extends: relaxed, rules: {line-length: {max: 120}}}".

(** A [referencing.Resource]: [rid] is the identity of the object, so that two
    resources with the same contents can still be told apart. *)
Record Resource : Type := {
  rid : nat;
  contents : json
}.

Module TaxonomyParser.

(** The attributes set by [__init__] that are never assigned again. *)
Record t : Type := {
  taxonomy_folders : list string;
  schema_version : Z;
  yamllint_config : string;
  yamllint_strict : bool;
  message_format : TaxonomyMessageFormat
}.

(** [lru_cache] is applied to the function [_load_schema] when the class is
    created: there is one cache for all parser objects, and a key is the
    pair of the object that is called and the path.  [Self] is the parser
    object whose calls are followed here, [Other n] another parser object. *)
Inductive caller : Type :=
| Self
| Other (n : nat).

Definition key : Type := (caller * string)%type.

Definition caller_eqb (a b : caller) : bool :=
  match a, b with
  | Self, Self => true
  | Other n, Other m => Nat.eqb n m
  | _, _ => false
  end.

Definition key_eqb (a b : key) : bool :=
  caller_eqb (fst a) (fst b) && String.eqb (snd a) (snd b).

(** What changes while a parser is used: the [lru_cache] of [_load_schema]
    (most recently used first), which the parser shares with every other
    parser object, the number of resources created so far, the
    [yq_available] attribute of the parser, and the trace of events. *)
Record state : Type := {
  cache : list (key * Resource);
  created : nat;
  yq_available : bool;
  trace : list event
}.

Definition initial_state : state :=
  {| cache := []; created := 0; yq_available := true; trace := [] |}.

Definition record (e : event) (st : state) : state :=
  {| cache := cache st; created := created st;
     yq_available := yq_available st; trace := (trace st ++ [e])%list |}.

Definition set_yq_available (b : bool) (st : state) : state :=
  {| cache := cache st; created := created st;
     yq_available := b; trace := trace st |}.

Definition set_cache (c : list (key * Resource)) (n : nat) (st : state) : state :=
  {| cache := c; created := n;
     yq_available := yq_available st; trace := trace st |}.

(** [TaxonomyMessageFormat[name]] *)
Definition format_of_name (name : string) : result TaxonomyMessageFormat :=
  if String.eqb name "AUTO" then Ok AUTO
  else if String.eqb name "STANDARD" then Ok STANDARD
  else if String.eqb name "GITHUB" then Ok GITHUB
  else if String.eqb name "LOGGING" then Ok LOGGING
  else Raise KeyError.

(** [TaxonomyParser.__init__] *)
Definition init (w : World)
    (taxonomy_folders : option (list string))
    (schema_version : option Z)
    (yamllint_config : option string)
    (yamllint_strict : bool)
    (message_format : option (TaxonomyMessageFormat + string)) : result t :=
  let taxonomy_folders :=
    match taxonomy_folders with
    | None => DEFAULT_TAXONOMY_FOLDERS
    | Some folders => folders
    end in
  let schema_version : result Z :=
    match schema_version with
    | Some v => Ok v
    | None =>
        match Schema.schema_versions w with
        | Raise e => Raise e
        | Ok [] => Raise TaxonomyReadingException
        | Ok versions =>
            match Py.int_of_str (Py.tail (last versions EmptyString)) with
            | Some v => Ok v
            | None => Raise ValueError
            end
        end
    end in
  match schema_version with
  | Raise e => Raise e
  | Ok schema_version =>
      let yamllint_config :=
        match yamllint_config with
        | None => DEFAULT_YAMLLINT_CONFIG
        | Some config => config
        end in
      let message_format : result TaxonomyMessageFormat :=
        match message_format with
        | None => Ok AUTO
        | Some (inr name) => format_of_name (Py.upper name)
        | Some (inl f) => Ok f
        end in
      match message_format with
      | Raise e => Raise e
      | Ok message_format =>
          Ok {| taxonomy_folders := taxonomy_folders;
                schema_version := schema_version;
                yamllint_config := yamllint_config;
                yamllint_strict := yamllint_strict;
                message_format := message_format |}
      end
  end.

(** *** [_yamllint] *)

(** Splits [s] at the first [c]. *)
Fixpoint split_at (c : ascii) (s : string) : option (string * string) :=
  match s with
  | EmptyString => None
  | String a r =>
      if Ascii.eqb a c then Some (EmptyString, r)
      else match split_at c r with
           | Some (before, after) => Some (String a before, after)
           | None => None
           end
  end.

(** One or more characters other than [c], then [c]. *)
Definition field (c : ascii) (s : string) : option (string * string) :=
  match split_at c s with
  | Some (before, after) => if nonempty before then Some (before, after) else None
  | None => None
  end.

(** [.*]: up to the end of the line. *)
Fixpoint rest_of_line (s : string) : string :=
  match s with
  | EmptyString => EmptyString
  | String a r => if Ascii.eqb a (ascii_of_nat 10) then EmptyString else String a (rest_of_line r)
  end.

(** [pattern.match(line)] for the pattern of [_yamllint]: a non-empty field
    without colon and a colon; the groups [line] and [col], each a non-empty
    field without colon followed by a colon; white space; the group
    [severity], non-empty and without closing bracket, between brackets;
    white space; the group [message], the rest of the line. *)
Definition pattern_match (line : string) : option (string * string * string * string) :=
  match field ":" line with
  | None => None
  | Some (_, after_file) =>
  match field ":" after_file with
  | None => None
  | Some (line, after_line) =>
  match field ":" after_line with
  | None => None
  | Some (col, after_col) =>
  match Py.lstrip after_col with
  | EmptyString => None
  | String bracket after_bracket =>
      if Ascii.eqb bracket "[" then
        match field "]" after_bracket with
        | None => None
        | Some (severity, after_severity) =>
            Some (line, col, severity, rest_of_line (Py.lstrip after_severity))
        end
      else None
  end end end end.

(** The loop of [_yamllint] over the output lines. *)
Fixpoint lint_lines (w : World) (self : t) (lines : list string) (taxonomy : Taxonomy.t)
    (st : state) : result unit * Taxonomy.t * state :=
  match lines with
  | [] => (Ok tt, taxonomy, st)
  | line :: rest =>
      match pattern_match line with
      | None => lint_lines w self rest taxonomy st
      | Some (line, col, severity, message) =>
          let reported :=
            if yamllint_strict self || String.eqb severity "error"
            then Taxonomy.error w taxonomy message [] line col EmptyString
            else Taxonomy.warning w taxonomy message [] line col EmptyString in
          match reported with
          | (Ok e, taxonomy) => lint_lines w self rest taxonomy (record e st)
          | (Raise e, taxonomy) => (Raise e, taxonomy, st)
          end
      end
  end.

Definition _yamllint (w : World) (self : t) (content : string)
    (taxonomy : Taxonomy.t) (st : state) : result unit * Taxonomy.t * state :=
  let st := record (RunYamllint (yamllint_config self) content) st in
  match run_yamllint w (yamllint_config self) content with
  | None =>
      (Ok tt, taxonomy, record (Log Warning "could not run yamllint command" []) st)
  | Some lines => lint_lines w self lines taxonomy st
  end.

(** *** [_load_schema] and [_retrieve] *)

(** [lru_cache] without arguments keeps the 128 most recently used results,
    whichever object they belong to. *)
Definition maxsize : nat := 128.

Fixpoint cache_find (k : key) (c : list (key * Resource)) : option Resource :=
  match c with
  | [] => None
  | (k', r) :: rest => if key_eqb k' k then Some r else cache_find k rest
  end.

Fixpoint cache_remove (k : key) (c : list (key * Resource)) : list (key * Resource) :=
  match c with
  | [] => []
  | (k', r) :: rest =>
      if key_eqb k' k then cache_remove k rest else (k', r) :: cache_remove k rest
  end.

(** [who._load_schema(path)] under [lru_cache]: a hit returns the cached
    resource and makes it the most recent one; a miss runs the body, and
    caches its result when it returns (an exception is not cached). *)
Definition load_schema_as (w : World) (who : caller) (path : string) (st : state)
    : result Resource * state :=
  match cache_find (who, path) (cache st) with
  | Some resource =>
      (Ok resource,
       set_cache (((who, path), resource) :: cache_remove (who, path) (cache st))
         (created st) st)
  | None =>
      let st := record (ReadSchema path) st in
      match read_schema w path with
      | Some contents =>
          let resource := {| rid := created st; contents := contents |} in
          (Ok resource,
           set_cache (firstn maxsize (((who, path), resource) :: cache st))
             (S (created st)) st)
      | None => (Raise (NoSuchResource path), st)
      end
  end.

(** [self._load_schema(path)] *)
Definition _load_schema (w : World) (path : string) (st : state)
    : result Resource * state :=
  load_schema_as w Self path st.

(** Several calls of [_load_schema], one after the other, each on the parser
    object that is named with the path. *)
Fixpoint load_each (w : World) (calls : list key) (st : state)
    : list (result Resource) * state :=
  match calls with
  | [] => ([], st)
  | (who, path) :: rest =>
      let '(r, st) := load_schema_as w who path st in
      let '(rs, st) := load_each w rest st in
      (r :: rs, st)
  end.

(** [Path(version_base, schema).as_posix()], for a plain file name. *)
Definition _retrieve (w : World) (version_base schema : string) (st : state)
    : result Resource * state :=
  let path := version_base ++ "/" ++ schema in
  _load_schema w path st.

(** *** [_schema_validate] *)

(** The body of the loop over [validator.iter_errors(taxonomy.parsed)]. *)
Definition report_validation_error (w : World) (self : t) (content : string)
    (validation_error : ValidationError) (taxonomy : Taxonomy.t) (st : state)
    : result unit * Taxonomy.t * state :=
  let yaml_path := Py.tail (json_path validation_error) in
  let yaml_path := if nonempty yaml_path then yaml_path else "." in
  let '(line, st) :=
    if yq_available st then
      let yq_expression := yaml_path ++ " | line" in
      let st := record (RunYq yq_expression content) st in
      match run_yq w yq_expression content with
      | YqOutput out => (if nonempty out then Py.strip out else "1", st)
      | YqSubprocessError =>
          ("1", record (Log Warning "could not run yq command" []) st)
      | YqFileNotFound =>
          ("1", record (Log Warning "could not run yq command" [])
                  (set_yq_available false st))
      end
    else ("1", st) in
  let reported :=
    if String.eqb (validator validation_error) "minItems" then
      Taxonomy.error w taxonomy "Value must have at least %s items"
        [validator_value validation_error] line "1" yaml_path
    else
      Taxonomy.error w taxonomy (Py.last_chars 200 (message validation_error)) []
        line "1" yaml_path in
  match reported with
  | (Ok e, taxonomy) => (Ok tt, taxonomy, record e st)
  | (Raise e, taxonomy) => (Raise e, taxonomy, st)
  end.

(** The loop itself, driven by what the engine does: a reference that
    cannot be retrieved makes the engine raise an error of its own. *)
Fixpoint validation_loop (w : World) (self : t) (version_base content : string)
    (steps : list engine_step) (taxonomy : Taxonomy.t) (st : state)
    : result unit * Taxonomy.t * state :=
  match steps with
  | [] => (Ok tt, taxonomy, st)
  | Yield validation_error :: rest =>
      match report_validation_error w self content validation_error taxonomy st with
      | (Ok _, taxonomy, st) => validation_loop w self version_base content rest taxonomy st
      | raised => raised
      end
  | Retrieve ref :: rest =>
      match _retrieve w version_base ref st with
      | (Ok _, st) => validation_loop w self version_base content rest taxonomy st
      | (Raise _, st) => (Raise EngineError, taxonomy, st)
      end
  | EngineRaise :: _ => (Raise EngineError, taxonomy, st)
  end.

(** The schema name chosen by [_schema_validate], [first] being
    [taxonomy.path.parts[0]]. *)
Definition schema_name (self : t) (taxonomy : Taxonomy.t) (first : string) : string :=
  if Py.mem first (taxonomy_folders self) then first
  else if dict_has "document" (Taxonomy.parsed taxonomy) then "knowledge"
  else "compositional_skills".

Definition _schema_validate (w : World) (self : t) (content : string)
    (taxonomy : Taxonomy.t) (st : state) : result unit * Taxonomy.t * state :=
  let version_base := "v" ++ pyint_str (Taxonomy.version taxonomy) in
  match Taxonomy.path taxonomy with
  | [] => (Raise IndexError, taxonomy, st)
  | first :: _ =>
      let schema_name := schema_name self taxonomy first in
      let attempt :=
        match _retrieve w version_base (schema_name ++ ".json") st with
        | (Ok schema_resource, st) =>
            validation_loop w self version_base content
              (iter_errors w (contents schema_resource) version_base
                 (Taxonomy.parsed taxonomy))
              taxonomy st
        | (Raise e, st) => (Raise e, taxonomy, st)
        end in
      match attempt with
      | (Raise (NoSuchResource ref), taxonomy, st) =>
          match Taxonomy.error w taxonomy "Cannot load schema file %s. %s"
                  [ref; str_NoSuchResource w ref] "1" "1" EmptyString with
          | (Ok e, taxonomy) => (Ok tt, taxonomy, record e st)
          | (Raise e, taxonomy) => (Raise e, taxonomy, st)
          end
      | other => other
      end
  end.

(** *** [parse] *)

(** The loop that looks for a taxonomy folder from the end of the path:
    [parts[i:]] for the last [i] with [parts[i]] in the folders. *)
Fixpoint find_folder (folders : list string) (parts : Path) : option Path :=
  match parts with
  | [] => None
  | part :: rest =>
      match find_folder folders rest with
      | Some p => Some p
      | None => if Py.mem part folders then Some parts else None
      end
  end.

(** The version that [parse] gives to the document (the assignments to
    [version] before [taxonomy.version = version]). *)
Definition resolve_version (self : t) (parsed : list (yaml * yaml)) : result pyint :=
  if (schema_version self <? 1)%Z then
    let parsed_version :=
      match dict_get "version" parsed with
      | Some v => v
      | None => YInt 1
      end in
    match parsed_version with
    | YInt z => Ok (PInt z)
    | YBool b => Ok (PBool b)
    | _ =>
        match py_int parsed_version with
        | Ok z => Ok (PInt z)
        | Raise ValueError => Ok (PInt 1)
        | Raise e => Raise e
        end
    end
  else Ok (PInt (schema_version self)).

(** The end of [parse], once [version] and [parsed] are set: lint, then
    schema validation. *)
Definition lint_and_validate (w : World) (self : t) (content : string)
    (taxonomy : Taxonomy.t) (st : state) : result Taxonomy.t * state :=
  let linted :=
    if (int_value (Taxonomy.version taxonomy) >? 1)%Z
    then _yamllint w self content taxonomy st
    else (Ok tt, taxonomy, st) in
  match linted with
  | (Raise e, _, st) => (Raise e, st)
  | (Ok _, taxonomy, st) =>
      match _schema_validate w self content taxonomy st with
      | (Raise e, _, st) => (Raise e, st)
      | (Ok _, taxonomy, st) => (Ok taxonomy, st)
      end
  end.

(** [return taxonomy.error(...)] and [return taxonomy.warning(...)] *)
Definition returning (reported : result event * Taxonomy.t) (st : state)
    : result Taxonomy.t * state :=
  match reported with
  | (Ok e, taxonomy) => (Ok taxonomy, record e st)
  | (Raise e, _) => (Raise e, st)
  end.

(** [except Exception as e: raise TaxonomyReadingException from e] *)
Definition wrapped (outcome : result Taxonomy.t * state) : result Taxonomy.t * state :=
  match outcome with
  | (Raise _, st) => (Raise TaxonomyReadingException, st)
  | returned => returned
  end.

(** The entry that [parse] creates before it looks at the file. *)
Definition new_taxonomy (w : World) (self : t) (abs_path : Path) : Taxonomy.t :=
  match find_folder (taxonomy_folders self) abs_path with
  | Some p => Taxonomy.init w p abs_path (message_format self)
  | None => Taxonomy.init w abs_path abs_path (message_format self)
  end.

(** [TaxonomyParser.parse]; [abs_path] is [Path(path).resolve()]. *)
Definition parse (w : World) (self : t) (abs_path : Path) (st : state)
    : result Taxonomy.t * state :=
  let taxonomy := new_taxonomy w self abs_path in
  if negb (isfile w abs_path) then
    returning
      (Taxonomy.error w taxonomy
         ("The file " ++ dquote ++ "%s" ++ dquote ++ " does not exist or is not a file")
         [path_str abs_path] "1" "1" EmptyString) st
  else if negb (String.eqb (path_name abs_path) "qna.yaml") then
    returning
      (Taxonomy.error w taxonomy
         ("Taxonomy file must be named " ++ dquote ++ "qna.yaml" ++ dquote ++ "; "
          ++ dquote ++ "%s" ++ dquote ++ " is not a valid name")
         [path_name abs_path] "1" "1" EmptyString) st
  else
    wrapped
      match read_text w abs_path with
      | None => (Raise OSError, st)
      | Some content =>
          match safe_load w content with
          | None => (Raise YAMLError, st)
          | Some parsed =>
              if negb (truthy parsed) then
                returning
                  (Taxonomy.warning w taxonomy "The file is empty" [] "1" "1" EmptyString) st
              else
                match parsed with
                | YMap parsed =>
                    match resolve_version self parsed with
                    | Raise e => (Raise e, st)
                    | Ok version =>
                        lint_and_validate w self content
                          (Taxonomy.set_parsed taxonomy version parsed) st
                    end
                | _ =>
                    returning
                      (Taxonomy.error w taxonomy
                         "The file is not valid. The top-level element is not an object with key-value pairs."
                         [] "1" "1" EmptyString) st
                end
          end
      end.

End TaxonomyParser.

(** ** A small world to run the definitions in *)

Module Example.

Definition qna (folder : string) : Path :=
  ["/"; "work"; "taxonomy"; "compositional_skills"; folder; "qna.yaml"].

(** File contents stand for themselves: the decoder below knows them. *)
Definition files : list (string * yaml) :=
  [ ("empty", YNull);
    ("empty_seq", YSeq []);
    ("empty_map", YMap []);
    ("seq", YSeq [YStr "a"; YStr "b"]);
    ("no_version", YMap [(YStr "created_by", YStr "me")]);
    ("version_0", YMap [(YStr "version", YInt 0); (YStr "created_by", YStr "me")]);
    ("version_1", YMap [(YStr "version", YInt 1); (YStr "created_by", YStr "me")]);
    ("version_2", YMap [(YStr "version", YInt 2); (YStr "created_by", YStr "me")]);
    ("version_str", YMap [(YStr "version", YStr " 2 "); (YStr "created_by", YStr "me")]);
    ("version_bad", YMap [(YStr "version", YStr "two"); (YStr "created_by", YStr "me")]);
    ("version_seq", YMap [(YStr "version", YSeq [YInt 1]); (YStr "created_by", YStr "me")]);
    ("version_null", YMap [(YStr "version", YNull); (YStr "created_by", YStr "me")]);
    ("version_9", YMap [(YStr "version", YInt 9); (YStr "created_by", YStr "me")]) ].

Fixpoint lookup {A : Type} (key : string) (table : list (string * A)) : option A :=
  match table with
  | [] => None
  | (k, v) :: rest => if String.eqb k key then Some v else lookup key rest
  end.

Definition folder_of (p : Path) : option string :=
  match p with
  | [_; _; _; _; folder; name] =>
      if String.eqb name "qna.yaml" || String.eqb name "qna.yml" then Some folder else None
  | _ => None
  end.

Definition exists_file (p : Path) : bool :=
  match folder_of p with
  | Some folder => match lookup folder files with Some _ => true | None => false end
  | None => false
  end.

Definition too_few : ValidationError :=
  {| json_path := "$.seed_examples"; validator := "minItems";
     validator_value := "5";
     message := "[{'question': 'q', 'answer': 'a'}] is too short" |}.

Definition missing_version : ValidationError :=
  {| json_path := "$"; validator := "required";
     validator_value := "['created_by', 'seed_examples', 'version']";
     message := "'version' is a required property" |}.

Definition schema_file (path : string) : option json :=
  if String.eqb path "v1/compositional_skills.json" then Some (JObject [("title", JString "skill v1")])
  else if String.eqb path "v2/compositional_skills.json" then Some (JObject [("title", JString "skill v2")])
  else if String.eqb path "v2/version.json" then Some (JObject [("const", JNumber 2)])
  else None.

Definition world : World :=
  {| cwd := ["/"; "work"];
     environ := ["HOME"; "PATH"];
     isfile := exists_file;
     read_text := folder_of;
     safe_load := fun content => lookup content files;
     run_yamllint := fun _ _ =>
       Some ["stdin:3:121: [warning] line too long (130 > 120 characters) (line-length)";
             "stdin:7:1: [error] syntax error: mapping values are not allowed here";
             "not a finding"];
     run_yq := fun _ _ => YqOutput (String "4" (String (ascii_of_nat 10) EmptyString));
     schema_entries := ["v10"; "taxonomy.py"; "v2"; "v"; "v1"; "v2x"; "__init__.py"; "v3"];
     entries_are_names := eq_refl;
     read_schema := schema_file;
     iter_errors := fun schema _ _ =>
       match schema with
       | JObject [("title", JString "skill v2")] =>
           [Retrieve "version.json"; Yield missing_version; Yield too_few]
       | _ => []
       end;
     str_NoSuchResource := fun ref => "'" ++ ref ++ "'";
     percent := fun message args =>
       (* ['%r' % ('x',)]; no other such call is made in this world *)
       match args with
       | [a] => if String.eqb message "%r" && String.eqb a "x"
                then Ok "'x'" else Raise ValueError
       | _ => Raise ValueError
       end |}.

(** A world in which every schema file exists, and 128 file names. *)
Definition library : World :=
  {| cwd := cwd world; environ := environ world; isfile := isfile world;
     read_text := read_text world; safe_load := safe_load world;
     run_yamllint := run_yamllint world; run_yq := run_yq world;
     schema_entries := schema_entries world;
     entries_are_names := eq_refl;
     read_schema := fun path => Some (JString path);
     iter_errors := iter_errors world;
     str_NoSuchResource := str_NoSuchResource world;
     percent := percent world |}.

Definition many_schemas : list string :=
  map (fun n => "v1/" ++ Py.str_of_int (Z.of_nat n) ++ ".json") (seq 0 128).

(** [TaxonomyParser(schema_version=..., message_format=...)] *)
Definition parser (schema_version : Z) (f : TaxonomyMessageFormat) : TaxonomyParser.t :=
  {| TaxonomyParser.taxonomy_folders := DEFAULT_TAXONOMY_FOLDERS;
     TaxonomyParser.schema_version := schema_version;
     TaxonomyParser.yamllint_config := DEFAULT_YAMLLINT_CONFIG;
     TaxonomyParser.yamllint_strict := false;
     TaxonomyParser.message_format := f |}.

End Example.

(** * Notions used in the statements *)

(** The number of a version directory: the value of the digits after ["v"]. *)
Definition version_number (name : string) : Z := Py.digits_value 0 (Py.tail name).

Definition key_le (x y : Z * string) : Prop := (fst x <= fst y)%Z.

(** Two states of an entry that differ in the counters only. *)
Definition same_document (a b : Taxonomy.t) : Prop :=
  Taxonomy.path b = Taxonomy.path a
  /\ Taxonomy.rel_path b = Taxonomy.rel_path a
  /\ Taxonomy.message_format b = Taxonomy.message_format a
  /\ Taxonomy.parsed b = Taxonomy.parsed a
  /\ Taxonomy.version b = Taxonomy.version a.

(** The runs of yamllint in a trace: configuration and content of each. *)
Definition lint_runs (tr : list event) : list (string * string) :=
  flat_map (fun e => match e with RunYamllint config content => [(config, content)] | _ => [] end) tr.

(** The events by which [error] and [warning] report. *)
Definition is_report (e : event) : Prop :=
  match e with
  | Print _ | Log _ _ _ => True
  | _ => False
  end.

(** The findings in the output of yamllint that [_yamllint] reports as errors,
    and those it reports as warnings. *)
Definition lint_errors (self : TaxonomyParser.t) (lines : list string) : nat :=
  List.length (filter (fun l =>
    match TaxonomyParser.pattern_match l with
    | Some (_, _, severity, _) =>
        TaxonomyParser.yamllint_strict self || String.eqb severity "error"
    | None => false
    end) lines).

Definition lint_warnings (self : TaxonomyParser.t) (lines : list string) : nat :=
  List.length (filter (fun l =>
    match TaxonomyParser.pattern_match l with
    | Some (_, _, severity, _) =>
        negb (TaxonomyParser.yamllint_strict self || String.eqb severity "error")
    | None => false
    end) lines).

(** What schema validation can change: the error counter, which never goes
    down, the cache, and the trace, to which it adds no run of yamllint. *)
Definition validation_frame (taxonomy : Taxonomy.t) (st : TaxonomyParser.state)
    (taxonomy' : Taxonomy.t) (st' : TaxonomyParser.state) : Prop :=
  same_document taxonomy taxonomy'
  /\ Taxonomy.warnings taxonomy' = Taxonomy.warnings taxonomy
  /\ Taxonomy.errors taxonomy <= Taxonomy.errors taxonomy'
  /\ lint_runs (TaxonomyParser.trace st') = lint_runs (TaxonomyParser.trace st).

(** The number of times yamllint runs and what it is given, for a document
    that gets as far as the lint stage with the version [version]. *)
Definition lint_stage_runs (self : TaxonomyParser.t) (content : string) (version : pyint)
    : list (string * string) :=
  if (int_value version >? 1)%Z then [(TaxonomyParser.yamllint_config self, content)] else [].

(** The document resolves to [version]: version resolution returns it, [parse]
    goes on to lint and validate the document under it, and the entry that
    [parse] returns carries it. *)
Definition resolves_to (w : World) (self : TaxonomyParser.t) (abs_path : Path)
    (st : TaxonomyParser.state) (content : string) (parsed : list (yaml * yaml))
    (version : pyint) : Prop :=
  TaxonomyParser.resolve_version self parsed = Ok version
  /\ TaxonomyParser.parse w self abs_path st =
     TaxonomyParser.wrapped
       (TaxonomyParser.lint_and_validate w self content
          (Taxonomy.set_parsed (TaxonomyParser.new_taxonomy w self abs_path) version parsed)
          st)
  /\ forall taxonomy st',
       TaxonomyParser.parse w self abs_path st = (Ok taxonomy, st') ->
       Taxonomy.version taxonomy = version.

(** The conditions under which [parse] returns before it sets [parsed] and
    [version], in the order in which it tests them. *)
Inductive early_exit (w : World) (abs_path : Path) : Prop :=
| NotAFile :
    isfile w abs_path = false -> early_exit w abs_path
| WrongName :
    path_name abs_path <> "qna.yaml" -> early_exit w abs_path
| EmptyDocument (content : string) (v : yaml) :
    read_text w abs_path = Some content -> safe_load w content = Some v ->
    truthy v = false -> early_exit w abs_path
| NotAMapping (content : string) (v : yaml) :
    read_text w abs_path = Some content -> safe_load w content = Some v ->
    (forall items, v <> YMap items) -> early_exit w abs_path.

(** The schema document selected for an entry: version and schema name. *)
Definition schema_path (self : TaxonomyParser.t) (taxonomy : Taxonomy.t) : string :=
  "v" ++ pyint_str (Taxonomy.version taxonomy) ++ "/"
  ++ TaxonomyParser.schema_name self taxonomy (hd EmptyString (Taxonomy.path taxonomy))
  ++ ".json".

(** The document is not in the cache and reading it fails, so that
    [_load_schema] raises [NoSuchResource]. *)
Definition cannot_load (w : World) (path : string) (st : TaxonomyParser.state) : Prop :=
  TaxonomyParser.cache_find (TaxonomyParser.Self, path) (TaxonomyParser.cache st) = None
  /\ read_schema w path = None.

(** The path that the loop of [_schema_validate] reports for a violation. *)
Definition violation_path (e : ValidationError) : string :=
  if nonempty (Py.tail (json_path e)) then Py.tail (json_path e) else ".".

(** The event by which an entry reports the error [text] at [line], column 1
    and a non-empty YAML path; in the LOGGING format the event is the format
    string and the arguments handed to the logger. *)
Definition error_event (taxonomy : Taxonomy.t) (line yaml_path text : string)
    (message : string) (message_args : list string) : event :=
  let rel := path_str (Taxonomy.rel_path taxonomy) in
  match Taxonomy.message_format taxonomy with
  | GITHUB =>
      Print ("::error file=" ++ rel ++ ",line=" ++ line ++ ",col=" ++ "1" ++ "::"
             ++ line ++ ":" ++ "1" ++ " [" ++ yaml_path ++ "] " ++ text)
  | LOGGING =>
      Log Error ("%s:%s:%s [%s] " ++ message) ([rel; line; "1"; yaml_path] ++ message_args)%list
  | STANDARD | AUTO =>
      Print ("ERROR: " ++ rel ++ ":" ++ line ++ ":" ++ "1" ++ " [" ++ yaml_path ++ "] " ++ text)
  end.

Definition keys (c : list (TaxonomyParser.key * Resource)) : list TaxonomyParser.key :=
  map fst c.

(** The key [k] is cached with the resource [r], behind entries whose keys
    are distinct and taken from [others]. *)
Definition cached_behind (k : TaxonomyParser.key) (r : Resource)
    (others : list TaxonomyParser.key) (st : TaxonomyParser.state) : Prop :=
  exists before after,
    TaxonomyParser.cache st = (before ++ (k, r) :: after)%list
    /\ NoDup (keys before)
    /\ incl (keys before) others
    /\ ~ In k (keys before).

(** The calls of [_load_schema] on the followed parser for some paths. *)
Definition own_calls (paths : list string) : list TaxonomyParser.key :=
  map (pair TaxonomyParser.Self) paths.

(** The number of output lines of yamllint that the pattern of [_yamllint]
    matches, and the severity that it finds in a line. *)
Definition lint_matches (lines : list string) : nat :=
  List.length (filter (fun l =>
    match TaxonomyParser.pattern_match l with Some _ => true | None => false end) lines).

Definition severity_of (line : string) : option string :=
  match TaxonomyParser.pattern_match line with
  | Some (_, _, severity, _) => Some severity
  | None => None
  end.

Definition is_error_line (line : string) : bool :=
  match severity_of line with Some severity => String.eqb severity "error" | None => false end.

Definition is_other_line (line : string) : bool :=
  match severity_of line with Some severity => negb (String.eqb severity "error") | None => false end.

(** [c in s] for a character. *)
Fixpoint has_char (c : ascii) (s : string) : bool :=
  match s with
  | EmptyString => false
  | String a r => Ascii.eqb a c || has_char c r
  end.

Definition newline : ascii := ascii_of_nat 10.

(** The number of errors that the engine yields. *)
Definition yields (steps : list engine_step) : nat :=
  List.length (filter (fun step => match step with Yield _ => true | _ => false end) steps).

(** A step of the engine that lets validation go on: it does not raise, and
    the file of a schema that it retrieves can be read. *)
Definition step_ok (w : World) (version_base : string) (step : engine_step) : bool :=
  match step with
  | Yield _ => true
  | Retrieve ref =>
      match read_schema w (version_base ++ "/" ++ ref) with Some _ => true | None => false end
  | EngineRaise => false
  end.

(** The contents that [_load_schema] finds for a path: those of the cached
    resource, or else those of the file. *)
Definition schema_document (w : World) (path : string) (st : TaxonomyParser.state)
    : option json :=
  match TaxonomyParser.cache_find (TaxonomyParser.Self, path) (TaxonomyParser.cache st) with
  | Some resource => Some (contents resource)
  | None => read_schema w path
  end.

(** The findings of the lint stage for a version: none at or below version 1. *)
Definition lint_stage_lines (w : World) (self : TaxonomyParser.t) (content : string)
    (version : pyint) : list string :=
  if (int_value version >? 1)%Z then
    match run_yamllint w (TaxonomyParser.yamllint_config self) content with
    | Some lines => lines
    | None => []
    end
  else [].

(** The trace [tr'] continues the trace [tr] with events that satisfy [P]. *)
Definition adds (P : event -> Prop) (tr tr' : list event) : Prop :=
  exists added, tr' = (tr ++ added)%list /\ Forall P added.

(** What [parse] may put on the trace besides the reports on the entry: the
    events of [yq], and those of the other tools. *)
Definition is_yq_event (e : event) : Prop :=
  (exists expression content, e = RunYq expression content)
  \/ e = Log Warning "could not run yq command" [].

Definition is_tool_event (e : event) : Prop :=
  is_yq_event e
  \/ (exists config content, e = RunYamllint config content)
  \/ e = Log Warning "could not run yamllint command" []
  \/ (exists path, e = ReadSchema path).

(** An event of a parse in the LOGGING format: nothing is printed. *)
Definition logging_event (e : event) : Prop :=
  match e with
  | Print _ => False
  | _ => True
  end.

(** An event of a parse that prints lines starting with one of two
    prefixes: the only records that go to the logger are the warnings about
    a tool that could not be run. *)
Definition printing_event (error_prefix warning_prefix : string) (e : event) : Prop :=
  match e with
  | Print text =>
      String.prefix error_prefix text = true \/ String.prefix warning_prefix text = true
  | Log _ _ _ => is_tool_event e
  | _ => True
  end.

(** A world in which [yaml.safe_load] raises on every content, and one that
    lists the entries under the schema base in the opposite order. *)
Definition undecodable : World :=
  {| cwd := cwd Example.world; environ := environ Example.world;
     isfile := isfile Example.world; read_text := read_text Example.world;
     safe_load := fun _ => None;
     run_yamllint := run_yamllint Example.world; run_yq := run_yq Example.world;
     schema_entries := schema_entries Example.world;
     entries_are_names := eq_refl;
     read_schema := read_schema Example.world;
     iter_errors := iter_errors Example.world;
     str_NoSuchResource := str_NoSuchResource Example.world;
     percent := percent Example.world |}.

Definition relisted : World :=
  {| cwd := cwd Example.world; environ := environ Example.world;
     isfile := isfile Example.world; read_text := read_text Example.world;
     safe_load := safe_load Example.world;
     run_yamllint := run_yamllint Example.world; run_yq := run_yq Example.world;
     schema_entries := rev (schema_entries Example.world);
     entries_are_names := eq_refl;
     read_schema := read_schema Example.world;
     iter_errors := iter_errors Example.world;
     str_NoSuchResource := str_NoSuchResource Example.world;
     percent := percent Example.world |}.


Definition fallback_schema (parsed : list (yaml * yaml)) : string :=
  if dict_has "document" parsed then "knowledge" else "compositional_skills".

(** The entries under the schema base that [schema_versions] keeps. *)
Definition version_entries (w : World) : list string :=
  filter Schema.is_version (schema_entries w).

(** An entry and a parser state at the start of a stage of [parse]: the
    entry reports in the format [format] and under the path [rel], and [yq]
    is still tried only if [allow_yq] holds. *)
Definition ready (rel : Path) (format : TaxonomyMessageFormat) (allow_yq : bool)
    (taxonomy : Taxonomy.t) (st : TaxonomyParser.state) : Prop :=
  Taxonomy.rel_path taxonomy = rel
  /\ Taxonomy.message_format taxonomy = format
  /\ (TaxonomyParser.yq_available st = true -> allow_yq = true).

(** What a stage of [parse] does to the trace and to [yq_available], the
    events that it adds being described by [P]. *)
Definition stage (P : event -> Prop) (rel : Path) (format : TaxonomyMessageFormat)
    (st : TaxonomyParser.state) (taxonomy' : Taxonomy.t)
    (st' : TaxonomyParser.state) : Prop :=
  adds P (TaxonomyParser.trace st) (TaxonomyParser.trace st')
  /\ (TaxonomyParser.yq_available st' = true -> TaxonomyParser.yq_available st = true)
  /\ Taxonomy.rel_path taxonomy' = rel
  /\ Taxonomy.message_format taxonomy' = format.

(** The number of [%s] directives of a message. *)
Fixpoint placeholders (message : string) : nat :=
  match message with
  | EmptyString => 0
  | String c r =>
      if Ascii.eqb c "%" then
        match r with
        | String d r' => (if Ascii.eqb d "s" then 1 else 0) + placeholders r'
        | EmptyString => 0
        end
      else placeholders r
  end.

(** * Properties *)

(** ** The built-ins *)

Lemma digit_is_not_sign (c : ascii) :
  Py.is_digit c = true -> Ascii.eqb c "-" = false /\ Ascii.eqb c "+" = false.
Proof.
  destruct c as [[] [] [] [] [] [] [] []]; vm_compute; split; congruence.
Qed.

Lemma digit_is_not_c_space (c : ascii) : Py.is_digit c = true -> Py.is_c_space c = false.
Proof.
  destruct c as [[] [] [] [] [] [] [] []]; vm_compute; congruence.
Qed.

Lemma rstrip_digits (s : string) :
  Py.all_digits s = true -> Py.rstrip_with Py.is_c_space s = s.
Proof.
  induction s as [|c r IH]; simpl; [reflexivity|].
  intros H. apply andb_prop in H. destruct H as [Hc Hr].
  rewrite (IH Hr). destruct r; [|reflexivity].
  now rewrite (digit_is_not_c_space c Hc).
Qed.

Lemma strip_digits (s : string) :
  Py.all_digits s = true ->
  Py.rstrip_with Py.is_c_space (Py.lstrip_with Py.is_c_space s) = s.
Proof.
  intros H.
  assert (Hl : Py.lstrip_with Py.is_c_space s = s).
  { destruct s as [|c r]; [reflexivity|]. simpl in *.
    apply andb_prop in H. destruct H as [Hc _].
    now rewrite (digit_is_not_c_space c Hc). }
  rewrite Hl. now apply rstrip_digits.
Qed.

Lemma count_digits_length (s : string) : Py.count_digits s <= String.length s.
Proof.
  induction s as [|c r IH]; simpl; [lia|]. destruct (Py.is_digit c); lia.
Qed.

(** A literal that is no longer than the limit has no more digits than it. *)
Lemma within_digit_limit (s : string) :
  String.length s <= Py.int_max_str_digits ->
  Nat.ltb Py.int_max_str_digits (Py.count_digits s) = false.
Proof.
  intros H. apply Nat.ltb_ge. pose proof (count_digits_length s). lia.
Qed.

Lemma name_max_within_limit : NAME_MAX <= Py.int_max_str_digits.
Proof. apply Nat.leb_le. vm_compute. reflexivity. Qed.

Lemma int_digits_all (s : string) :
  Py.all_digits s = true ->
  forall acc, Py.int_digits true acc s = Some (Py.digits_value acc s).
Proof.
  induction s as [|c r IH]; simpl; intros H acc; [reflexivity|].
  apply andb_prop in H. destruct H as [Hc Hr].
  rewrite Hc. now apply IH.
Qed.

(** On a run of digits within the limit [int] gives its decimal value. *)
Lemma int_of_str_digits (s : string) :
  Py.isdigit s = true -> String.length s <= Py.int_max_str_digits ->
  Py.int_of_str s = Some (Py.digits_value 0 s).
Proof.
  intros H Hlen. destruct s as [|c r]; [discriminate|].
  unfold Py.isdigit in H. unfold Py.int_of_str, Py.int_literal.
  rewrite (within_digit_limit _ Hlen), (strip_digits _ H).
  simpl in H. apply andb_prop in H. destruct H as [Hc Hr].
  destruct (digit_is_not_sign c Hc) as [Hm Hp]. rewrite Hm, Hp.
  simpl. rewrite Hc. now apply int_digits_all.
Qed.

Lemma drop_length (n : nat) (s : string) :
  String.length (Py.drop n s) = String.length s - n.
Proof.
  revert s. induction n as [|n IH]; intros s; simpl.
  - now rewrite Nat.sub_0_r.
  - destruct s as [|c r]; simpl; [reflexivity|]. apply IH.
Qed.



Lemma mem_In (x : string) (xs : list string) : Py.mem x xs = true <-> In x xs.
Proof.
  unfold Py.mem. rewrite existsb_exists. split.
  - intros [y [Hin Heq]]. apply String.eqb_eq in Heq. now subst.
  - intros Hin. exists x. split; [assumption | apply String.eqb_refl].
Qed.

(** ** Schema versions *)


(** The names under the schema base are short enough for [int]. *)
Lemma entry_is_name (w : World) (name : string) :
  In name (schema_entries w) -> String.length name <= NAME_MAX.
Proof.
  intros Hin. pose proof (entries_are_names w) as H.
  rewrite forallb_forall in H. apply Nat.leb_le. now apply H.
Qed.

Lemma version_key_number (name : string) :
  Schema.is_version name = true -> String.length name <= NAME_MAX ->
  Schema.version_key name = Some (version_number name).
Proof.
  intros H Hlen. unfold Schema.version_key, version_number.
  apply int_of_str_digits.
  - unfold Schema.is_version in H. destruct name; [discriminate|].
    apply andb_prop in H. apply H.
  - unfold Py.tail. rewrite drop_length. pose proof name_max_within_limit. lia.
Qed.

Lemma with_keys_versions (names : list string) :
  Forall (fun n => Schema.is_version n = true /\ String.length n <= NAME_MAX) names ->
  Schema.with_keys names = Ok (map (fun n => (version_number n, n)) names).
Proof.
  induction 1 as [|n l [Hn Hlen] _ IH]; simpl; [reflexivity|].
  now rewrite (version_key_number n Hn Hlen), IH.
Qed.

Lemma insert_by_key_perm (x : Z * string) (l : list (Z * string)) :
  Permutation (Schema.insert_by_key x l) (x :: l).
Proof.
  induction l as [|y l IH]; simpl; [apply Permutation_refl|].
  destruct (fst x <=? fst y)%Z; [apply Permutation_refl|].
  apply Permutation_trans with (y :: x :: l); [now apply perm_skip | apply perm_swap].
Qed.

Lemma sort_by_key_perm (l : list (Z * string)) : Permutation (Schema.sort_by_key l) l.
Proof.
  induction l as [|x l IH]; simpl; [apply Permutation_refl|].
  apply Permutation_trans with (x :: Schema.sort_by_key l);
    [apply insert_by_key_perm | now apply perm_skip].
Qed.

Lemma insert_by_key_sorted (x : Z * string) (l : list (Z * string)) :
  StronglySorted key_le l -> StronglySorted key_le (Schema.insert_by_key x l).
Proof.
  induction 1 as [|y l Hs IH Hall]; simpl.
  - constructor; constructor.
  - destruct (fst x <=? fst y)%Z eqn:Hxy.
    + apply Z.leb_le in Hxy. constructor.
      * now constructor.
      * constructor; [exact Hxy|].
        eapply Forall_impl; [|exact Hall]. unfold key_le. intros; lia.
    + apply Z.leb_gt in Hxy. constructor; [exact IH|].
      apply (Permutation_Forall (Permutation_sym (insert_by_key_perm x l))).
      constructor; [unfold key_le; lia | exact Hall].
Qed.

Lemma sort_by_key_sorted (l : list (Z * string)) : StronglySorted key_le (Schema.sort_by_key l).
Proof.
  induction l as [|x l IH]; simpl; [constructor | now apply insert_by_key_sorted].
Qed.

Lemma sorted_names (l : list (Z * string)) :
  Forall (fun x => fst x = version_number (snd x)) l ->
  StronglySorted key_le l ->
  StronglySorted (fun a b => (version_number a <= version_number b)%Z) (map snd l).
Proof.
  intros Hkeys Hs. induction Hs as [|x l Hs IH Hall]; simpl; constructor.
  - apply IH. now inversion Hkeys.
  - inversion Hkeys as [|? ? Hx Hl]; subst.
    rewrite Forall_forall in *. intros n Hn.
    apply in_map_iff in Hn. destruct Hn as [y [<- Hy]].
    rewrite <- Hx, <- (Hl y Hy). now apply Hall.
Qed.

(** What [schema_versions] returns, in terms of the names it is given. *)
Lemma schema_versions_sorted (w : World) :
  let candidates := filter Schema.is_version (schema_entries w) in
  exists versions,
    Schema.schema_versions w = Ok versions
    /\ Permutation versions candidates
    /\ StronglySorted (fun a b => (version_number a <= version_number b)%Z) versions.
Proof.
  intros candidates. unfold Schema.schema_versions. fold candidates.
  assert (Hall : Forall (fun n => Schema.is_version n = true
                                  /\ String.length n <= NAME_MAX) candidates).
  { apply Forall_forall. intros n Hn. apply filter_In in Hn.
    split; [apply Hn | apply (entry_is_name w), Hn]. }
  rewrite (with_keys_versions _ Hall).
  set (keyed := map (fun n => (version_number n, n)) candidates).
  exists (map snd (Schema.sort_by_key keyed)). split; [reflexivity|]. split.
  - assert (Hnames : map snd keyed = candidates).
    { unfold keyed. rewrite map_map. simpl. apply map_id. }
    apply Permutation_trans with (map snd keyed).
    + apply Permutation_map, sort_by_key_perm.
    + rewrite Hnames. apply Permutation_refl.
  - apply sorted_names; [|apply sort_by_key_sorted].
    apply (Permutation_Forall (Permutation_sym (sort_by_key_perm keyed))).
    unfold keyed. apply Forall_forall. intros x Hx.
    apply in_map_iff in Hx. destruct Hx as [n [<- _]]. reflexivity.
Qed.

Lemma last_In {A : Type} (l : list A) (d : A) : l <> [] -> In (last l d) l.
Proof.
  induction l as [|x l IH]; [congruence|]. intros _.
  destruct l as [|y l]; [now left|].
  right. apply IH. discriminate.
Qed.


(** The order is numeric, not lexicographic: [v10] comes after [v2] and [v3]. *)
Example schema_versions_example :
  Schema.schema_versions Example.world = Ok ["v1"; "v2"; "v3"; "v10"].
Proof. reflexivity. Qed.

(** ** Reporting on an entry *)

Lemma error_after (w : World) (self : Taxonomy.t) (message : string) (args : list string)
    (line col yaml_path : string) :
  snd (Taxonomy.error w self message args line col yaml_path) = Taxonomy.add_error self.
Proof.
  unfold Taxonomy.error. simpl Taxonomy.message_format.
  destruct (Taxonomy.message_format self);
    try destruct (Taxonomy.interpolate w message args);
    try destruct (nonempty yaml_path); reflexivity.
Qed.

Lemma warning_after (w : World) (self : Taxonomy.t) (message : string) (args : list string)
    (line col yaml_path : string) :
  snd (Taxonomy.warning w self message args line col yaml_path) = Taxonomy.add_warning self.
Proof.
  unfold Taxonomy.warning. simpl Taxonomy.message_format.
  destruct (Taxonomy.message_format self);
    try destruct (Taxonomy.interpolate w message args);
    try destruct (nonempty yaml_path); reflexivity.
Qed.

Lemma error_returns_iff (w : World) (self : Taxonomy.t) (message : string) (args : list string)
    (line col yaml_path : string) :
  (exists e, fst (Taxonomy.error w self message args line col yaml_path) = Ok e) <->
  (Taxonomy.message_format self = LOGGING
   \/ exists text, Taxonomy.interpolate w message args = Ok text).
Proof.
  unfold Taxonomy.error. simpl Taxonomy.message_format.
  destruct (Taxonomy.message_format self);
    destruct (Taxonomy.interpolate w message args) as [text|x];
    destruct (nonempty yaml_path); simpl; split;
    try (intros _; eexists; reflexivity);
    try (intros _; right; eexists; reflexivity);
    try (intros _; now left);
    try (intros [e He]; discriminate);
    try (intros [He|[e He]]; discriminate).
Qed.

Lemma warning_returns_iff (w : World) (self : Taxonomy.t) (message : string) (args : list string)
    (line col yaml_path : string) :
  (exists e, fst (Taxonomy.warning w self message args line col yaml_path) = Ok e) <->
  (Taxonomy.message_format self = LOGGING
   \/ exists text, Taxonomy.interpolate w message args = Ok text).
Proof.
  unfold Taxonomy.warning. simpl Taxonomy.message_format.
  destruct (Taxonomy.message_format self);
    destruct (Taxonomy.interpolate w message args) as [text|x];
    destruct (nonempty yaml_path); simpl; split;
    try (intros _; eexists; reflexivity);
    try (intros _; right; eexists; reflexivity);
    try (intros _; now left);
    try (intros [e He]; discriminate);
    try (intros [He|[e He]]; discriminate).
Qed.

(** A call whose message needs no interpolation returns. *)
Lemma error_returns (w : World) (self : Taxonomy.t) (message text : string) (args : list string)
    (line col yaml_path : string) :
  Taxonomy.interpolate w message args = Ok text ->
  exists e, Taxonomy.error w self message args line col yaml_path = (Ok e, Taxonomy.add_error self).
Proof.
  intros Hi.
  destruct (proj2 (error_returns_iff w self message args line col yaml_path)) as [e He].
  { right. now exists text. }
  exists e. rewrite <- He, <- (error_after w self message args line col yaml_path).
  apply surjective_pairing.
Qed.

Lemma warning_returns (w : World) (self : Taxonomy.t) (message text : string) (args : list string)
    (line col yaml_path : string) :
  Taxonomy.interpolate w message args = Ok text ->
  exists e, Taxonomy.warning w self message args line col yaml_path = (Ok e, Taxonomy.add_warning self).
Proof.
  intros Hi.
  destruct (proj2 (warning_returns_iff w self message args line col yaml_path)) as [e He].
  { right. now exists text. }
  exists e. rewrite <- He, <- (warning_after w self message args line col yaml_path).
  apply surjective_pairing.
Qed.

(** For a message whose directives are [%s] and [%%], the operator returns
    exactly when there are as many arguments as [%s]. *)
Lemma percent_format_plain (message : string) (args : list string) :
  Py.plain_format message = true ->
  (exists text, Py.percent_format message args = Some text)
  <-> placeholders message = List.length args.
Proof.
  assert (Hsome : forall (f : string -> string) (o : option string),
            (exists text, option_map f o = Some text) <-> (exists text, o = Some text)).
  { intros f [t|]; simpl; split; intros [text H]; try discriminate; eexists; reflexivity. }
  remember (String.length message) as n eqn:Hn.
  assert (Hle : String.length message <= n) by lia. clear Hn.
  revert message args Hle.
  induction n as [|n IH]; intros message args Hle Hplain.
  - destruct message; [|simpl in Hle; lia]. simpl.
    destruct args; simpl; split; try (intros [text H]); try discriminate;
      try (intros _; eexists; reflexivity); reflexivity.
  - destruct message as [|c r].
    + simpl. destruct args; simpl; split; try (intros [text H]); try discriminate;
        try (intros _; eexists; reflexivity); reflexivity.
    + simpl in Hle. simpl in Hplain |- *.
      destruct (Ascii.eqb c "%").
      * destruct r as [|d r']; [discriminate|]. simpl in Hle.
        apply andb_prop in Hplain. destruct Hplain as [Hd Hplain].
        assert (Hlen : String.length r' <= n) by lia.
        destruct (Ascii.eqb d "s").
        -- destruct args as [|a args].
           ++ simpl. split; [intros [text H]; discriminate | discriminate].
           ++ rewrite Hsome, (IH r' args Hlen Hplain). simpl. split; lia.
        -- simpl in Hd. rewrite Hd. rewrite Hsome. apply (IH r' args Hlen Hplain).
      * rewrite Hsome. apply IH; [lia | exact Hplain].
Qed.

(** C9 (amended).  [error()] adds exactly 1 to the error counter and
    [warning()] exactly 1 to the warning counter of the entry, and leave the
    other counter, [path], [rel_path], [message_format], [parsed] and
    [version] as they were; this is the state of the entry after the call,
    also when the call raises.  The call returns (and then it returns the
    entry itself) exactly when the format is LOGGING or the interpolation
    [message % message_args] does not raise.  There is no interpolation
    without [message_args]; and for a message whose directives are [%s] and
    [%%], as those of the module are, the interpolation returns exactly when
    there are as many [message_args] as [%s]. *)
Theorem report_changes_one_counter (w : World) (self : Taxonomy.t) (message : string)
    (message_args : list string) (line col yaml_path : string) :
  let error := Taxonomy.error w self message message_args line col yaml_path in
  let warning := Taxonomy.warning w self message message_args line col yaml_path in
  (Taxonomy.errors (snd error) = S (Taxonomy.errors self)
   /\ Taxonomy.warnings (snd error) = Taxonomy.warnings self
   /\ Taxonomy.path (snd error) = Taxonomy.path self
   /\ Taxonomy.rel_path (snd error) = Taxonomy.rel_path self
   /\ Taxonomy.message_format (snd error) = Taxonomy.message_format self
   /\ Taxonomy.parsed (snd error) = Taxonomy.parsed self
   /\ Taxonomy.version (snd error) = Taxonomy.version self)
  /\ (Taxonomy.warnings (snd warning) = S (Taxonomy.warnings self)
      /\ Taxonomy.errors (snd warning) = Taxonomy.errors self
      /\ Taxonomy.path (snd warning) = Taxonomy.path self
      /\ Taxonomy.rel_path (snd warning) = Taxonomy.rel_path self
      /\ Taxonomy.message_format (snd warning) = Taxonomy.message_format self
      /\ Taxonomy.parsed (snd warning) = Taxonomy.parsed self
      /\ Taxonomy.version (snd warning) = Taxonomy.version self)
  /\ ((exists e, fst error = Ok e) <->
      (Taxonomy.message_format self = LOGGING
       \/ exists text, Taxonomy.interpolate w message message_args = Ok text))
  /\ ((exists e, fst warning = Ok e) <->
      (Taxonomy.message_format self = LOGGING
       \/ exists text, Taxonomy.interpolate w message message_args = Ok text))
  /\ Taxonomy.interpolate w message [] = Ok message
  /\ (Py.plain_format message = true -> message_args <> [] ->
      ((exists text, Taxonomy.interpolate w message message_args = Ok text)
       <-> placeholders message = List.length message_args)).
Proof.
  cbv zeta. rewrite error_after, warning_after.
  split; [repeat split|]. split; [repeat split|].
  split; [apply error_returns_iff|]. split; [apply warning_returns_iff|].
  split; [reflexivity|]. intros Hplain Hargs.
  destruct message_args as [|a args]; [contradiction|].
  unfold Taxonomy.interpolate. rewrite Hplain.
  rewrite <- (percent_format_plain message (a :: args) Hplain).
  destruct (Py.percent_format message (a :: args)) as [t|]; split;
    intros [text H]; try discriminate; eexists; reflexivity.
Qed.

(** C9, as stated, fails: in the STANDARD format a message without a
    placeholder for its argument makes [error()] raise instead of returning
    the entry (after it has counted the error). *)
Example error_raises_on_unused_argument :
  Taxonomy.error Example.world
    (Taxonomy.init Example.world ["knowledge"; "qna.yaml"]
       ["/"; "work"; "knowledge"; "qna.yaml"] STANDARD)
    "no placeholder" ["argument"] "1" "1" EmptyString
  = (Raise TypeError,
     {| Taxonomy.path := ["knowledge"; "qna.yaml"];
        Taxonomy.rel_path := ["knowledge"; "qna.yaml"];
        Taxonomy.message_format := STANDARD;
        Taxonomy.errors := 1; Taxonomy.warnings := 0;
        Taxonomy.parsed := []; Taxonomy.version := PInt 0 |}).
Proof. reflexivity. Qed.

(** A message with another directive is handed to the operator as well:
    ['%r' % ('x',)] shows the argument between quotes, and the call returns. *)
Example error_with_another_directive :
  Taxonomy.error Example.world
    (Taxonomy.init Example.world ["knowledge"; "qna.yaml"]
       ["/"; "work"; "knowledge"; "qna.yaml"] STANDARD)
    "%r" ["x"] "1" "1" EmptyString
  = (Ok (Print "ERROR: knowledge/qna.yaml:1:1 'x'"),
     Taxonomy.add_error
       (Taxonomy.init Example.world ["knowledge"; "qna.yaml"]
          ["/"; "work"; "knowledge"; "qna.yaml"] STANDARD)).
Proof. reflexivity. Qed.

(** ** What the stages of [parse] leave unchanged *)

Lemma same_document_refl (a : Taxonomy.t) : same_document a a.
Proof. repeat split. Qed.

Lemma same_document_trans (a b c : Taxonomy.t) :
  same_document a b -> same_document b c -> same_document a c.
Proof.
  unfold same_document. intros [H1 [H2 [H3 [H4 H5]]]] [K1 [K2 [K3 [K4 K5]]]].
  repeat split; congruence.
Qed.

Lemma same_document_add_error (a : Taxonomy.t) : same_document a (Taxonomy.add_error a).
Proof. repeat split. Qed.

Lemma same_document_add_warning (a : Taxonomy.t) : same_document a (Taxonomy.add_warning a).
Proof. repeat split. Qed.

Lemma lint_runs_record (e : event) (st : TaxonomyParser.state) :
  lint_runs (TaxonomyParser.trace (TaxonomyParser.record e st)) =
  (lint_runs (TaxonomyParser.trace st) ++ lint_runs [e])%list.
Proof. unfold lint_runs. simpl. now rewrite flat_map_app. Qed.

Lemma lint_runs_report (e : event) (st : TaxonomyParser.state) :
  is_report e ->
  lint_runs (TaxonomyParser.trace (TaxonomyParser.record e st)) =
  lint_runs (TaxonomyParser.trace st).
Proof.
  intros H. rewrite lint_runs_record.
  destruct e; try contradiction; simpl; apply app_nil_r.
Qed.

Lemma error_is_report (w : World) (self : Taxonomy.t) (message : string) (args : list string)
    (line col yaml_path : string) (e : event) (after : Taxonomy.t) :
  Taxonomy.error w self message args line col yaml_path = (Ok e, after) ->
  is_report e /\ after = Taxonomy.add_error self.
Proof.
  intros H. split.
  - revert H. unfold Taxonomy.error. simpl Taxonomy.message_format.
    destruct (Taxonomy.message_format self);
      try destruct (Taxonomy.interpolate w message args);
      try destruct (nonempty yaml_path); intros H; inversion H; exact I.
  - rewrite <- (error_after w self message args line col yaml_path). now rewrite H.
Qed.

Lemma warning_is_report (w : World) (self : Taxonomy.t) (message : string) (args : list string)
    (line col yaml_path : string) (e : event) (after : Taxonomy.t) :
  Taxonomy.warning w self message args line col yaml_path = (Ok e, after) ->
  is_report e /\ after = Taxonomy.add_warning self.
Proof.
  intros H. split.
  - revert H. unfold Taxonomy.warning. simpl Taxonomy.message_format.
    destruct (Taxonomy.message_format self);
      try destruct (Taxonomy.interpolate w message args);
      try destruct (nonempty yaml_path); intros H; inversion H; exact I.
  - rewrite <- (warning_after w self message args line col yaml_path). now rewrite H.
Qed.

(** The loop of [_yamllint] never raises; it counts every finding, and
    touches nothing else. *)
Lemma lint_lines_spec (w : World) (self : TaxonomyParser.t) (lines : list string) :
  forall (taxonomy : Taxonomy.t) (st : TaxonomyParser.state),
  exists taxonomy' st',
    TaxonomyParser.lint_lines w self lines taxonomy st = (Ok tt, taxonomy', st')
    /\ same_document taxonomy taxonomy'
    /\ Taxonomy.errors taxonomy' = Taxonomy.errors taxonomy + lint_errors self lines
    /\ Taxonomy.warnings taxonomy' = Taxonomy.warnings taxonomy + lint_warnings self lines
    /\ TaxonomyParser.cache st' = TaxonomyParser.cache st
    /\ TaxonomyParser.created st' = TaxonomyParser.created st
    /\ TaxonomyParser.yq_available st' = TaxonomyParser.yq_available st
    /\ lint_runs (TaxonomyParser.trace st') = lint_runs (TaxonomyParser.trace st).
Proof.
  induction lines as [|l rest IH]; intros taxonomy st.
  - exists taxonomy, st. unfold lint_errors, lint_warnings. simpl.
    rewrite !Nat.add_0_r. repeat split.
  - unfold lint_errors, lint_warnings in *. simpl.
    destruct (TaxonomyParser.pattern_match l) as [[[[line col] severity] message]|].
    2:{ destruct (IH taxonomy st) as [t' [st' H]]. exists t', st'. exact H. }
    destruct (TaxonomyParser.yamllint_strict self || String.eqb severity "error") eqn:Hsev.
    + destruct (error_returns w taxonomy message message [] line col EmptyString eq_refl)
        as [e He].
      rewrite He. destruct (error_is_report w _ _ _ _ _ _ _ _ He) as [Hrep _].
      destruct (IH (Taxonomy.add_error taxonomy) (TaxonomyParser.record e st))
        as [t' [st' [Hrun [Hsame [Herr [Hwarn [Hc [Hn [Hy Hl]]]]]]]]].
      exists t', st'. split; [exact Hrun|].
      rewrite Herr, Hwarn, Hc, Hn, Hy, Hl, (lint_runs_report e st Hrep).
      split; [eapply same_document_trans; [apply same_document_add_error | exact Hsame]|].
      simpl. repeat split; lia.
    + destruct (warning_returns w taxonomy message message [] line col EmptyString eq_refl)
        as [e He].
      rewrite He. destruct (warning_is_report w _ _ _ _ _ _ _ _ He) as [Hrep _].
      destruct (IH (Taxonomy.add_warning taxonomy) (TaxonomyParser.record e st))
        as [t' [st' [Hrun [Hsame [Herr [Hwarn [Hc [Hn [Hy Hl]]]]]]]]].
      exists t', st'. split; [exact Hrun|].
      rewrite Herr, Hwarn, Hc, Hn, Hy, Hl, (lint_runs_report e st Hrep).
      split; [eapply same_document_trans; [apply same_document_add_warning | exact Hsame]|].
      simpl. repeat split; lia.
Qed.

(** [_yamllint] never raises: it runs yamllint once, on the content it is
    given, and reports what [lint_lines] finds in the output. *)
Lemma yamllint_spec (w : World) (self : TaxonomyParser.t) (content : string)
    (taxonomy : Taxonomy.t) (st : TaxonomyParser.state) :
  exists taxonomy' st',
    TaxonomyParser._yamllint w self content taxonomy st = (Ok tt, taxonomy', st')
    /\ same_document taxonomy taxonomy'
    /\ (let lines :=
          match run_yamllint w (TaxonomyParser.yamllint_config self) content with
          | Some lines => lines
          | None => []
          end in
        Taxonomy.errors taxonomy' = Taxonomy.errors taxonomy + lint_errors self lines
        /\ Taxonomy.warnings taxonomy' = Taxonomy.warnings taxonomy + lint_warnings self lines)
    /\ TaxonomyParser.cache st' = TaxonomyParser.cache st
    /\ TaxonomyParser.created st' = TaxonomyParser.created st
    /\ TaxonomyParser.yq_available st' = TaxonomyParser.yq_available st
    /\ lint_runs (TaxonomyParser.trace st') =
       (lint_runs (TaxonomyParser.trace st)
          ++ [(TaxonomyParser.yamllint_config self, content)])%list.
Proof.
  unfold TaxonomyParser._yamllint.
  set (st0 := TaxonomyParser.record
                (RunYamllint (TaxonomyParser.yamllint_config self) content) st).
  assert (Hrun : lint_runs (TaxonomyParser.trace st0) =
                 (lint_runs (TaxonomyParser.trace st)
                    ++ [(TaxonomyParser.yamllint_config self, content)])%list)
    by apply lint_runs_record.
  destruct (run_yamllint w (TaxonomyParser.yamllint_config self) content) as [lines|].
  - destruct (lint_lines_spec w self lines taxonomy st0)
      as [t' [st' [H [Hsame [Herr [Hwarn [Hc [Hn [Hy Hl]]]]]]]]].
    exists t', st'. rewrite H, Hl, Hrun, Hc, Hn, Hy. repeat split; assumption || apply Hsame.
  - exists taxonomy, (TaxonomyParser.record (Log Warning "could not run yamllint command" []) st0).
    rewrite lint_runs_report by exact I. rewrite Hrun.
    unfold lint_errors, lint_warnings. simpl. rewrite !Nat.add_0_r. repeat split.
Qed.

Lemma load_schema_frame (w : World) (path : string) (st : TaxonomyParser.state) :
  let st' := snd (TaxonomyParser._load_schema w path st) in
  TaxonomyParser.yq_available st' = TaxonomyParser.yq_available st
  /\ lint_runs (TaxonomyParser.trace st') = lint_runs (TaxonomyParser.trace st).
Proof.
  unfold TaxonomyParser._load_schema, TaxonomyParser.load_schema_as.
  destruct (TaxonomyParser.cache_find (TaxonomyParser.Self, path) (TaxonomyParser.cache st)); simpl.
  - split; reflexivity.
  - destruct (read_schema w path); simpl; split; try reflexivity;
      unfold lint_runs; rewrite flat_map_app; apply app_nil_r.
Qed.

Lemma interpolate_min_items (w : World) (n : string) :
  Taxonomy.interpolate w "Value must have at least %s items" [n]
  = Ok ("Value must have at least " ++ n ++ " items").
Proof. reflexivity. Qed.

(** What one turn of the validation loop does with an error of the engine:
    it never raises, and reports one error through [Taxonomy.error]. *)
Lemma report_validation_error_spec (w : World) (self : TaxonomyParser.t)
    (content : string) (e : ValidationError) (taxonomy : Taxonomy.t)
    (st : TaxonomyParser.state) :
  let yaml_path :=
    if nonempty (Py.tail (json_path e)) then Py.tail (json_path e) else "." in
  exists line st1 ev,
    TaxonomyParser.report_validation_error w self content e taxonomy st
    = (Ok tt, Taxonomy.add_error taxonomy, TaxonomyParser.record ev st1)
    /\ (if String.eqb (validator e) "minItems"
        then Taxonomy.error w taxonomy "Value must have at least %s items"
               [validator_value e] line "1" yaml_path
        else Taxonomy.error w taxonomy (Py.last_chars 200 (message e)) []
               line "1" yaml_path)
       = (Ok ev, Taxonomy.add_error taxonomy)
    /\ TaxonomyParser.cache st1 = TaxonomyParser.cache st
    /\ TaxonomyParser.created st1 = TaxonomyParser.created st
    /\ lint_runs (TaxonomyParser.trace st1) = lint_runs (TaxonomyParser.trace st).
Proof.
  intros yaml_path. unfold TaxonomyParser.report_validation_error. fold yaml_path.
  set (located :=
         if TaxonomyParser.yq_available st
         then
           let yq_expression := yaml_path ++ " | line" in
           let st0 := TaxonomyParser.record (RunYq yq_expression content) st in
           match run_yq w yq_expression content with
           | YqOutput out => (if nonempty out then Py.strip out else "1", st0)
           | YqSubprocessError =>
               ("1", TaxonomyParser.record (Log Warning "could not run yq command" []) st0)
           | YqFileNotFound =>
               ("1", TaxonomyParser.record (Log Warning "could not run yq command" [])
                       (TaxonomyParser.set_yq_available false st0))
           end
         else ("1", st)).
  assert (Hloc : TaxonomyParser.cache (snd located) = TaxonomyParser.cache st
                 /\ TaxonomyParser.created (snd located) = TaxonomyParser.created st
                 /\ lint_runs (TaxonomyParser.trace (snd located))
                    = lint_runs (TaxonomyParser.trace st)).
  { unfold located. destruct (TaxonomyParser.yq_available st); [|repeat split].
    cbv zeta. destruct (run_yq w (yaml_path ++ " | line") content); simpl;
      repeat split; unfold lint_runs; rewrite ?flat_map_app; simpl;
      rewrite ?app_nil_r; reflexivity. }
  destruct located as [line st1]. simpl in Hloc.
  set (reported :=
         if String.eqb (validator e) "minItems"
         then Taxonomy.error w taxonomy "Value must have at least %s items"
                [validator_value e] line "1" yaml_path
         else Taxonomy.error w taxonomy (Py.last_chars 200 (message e)) []
                line "1" yaml_path).
  assert (Hrep : exists ev, reported = (Ok ev, Taxonomy.add_error taxonomy)).
  { unfold reported. destruct (String.eqb (validator e) "minItems").
    - eapply error_returns. apply interpolate_min_items.
    - eapply error_returns. reflexivity. }
  destruct Hrep as [ev Hev]. exists line, st1, ev. fold reported. rewrite Hev.
  split; [reflexivity|]. split; [reflexivity|]. exact Hloc.
Qed.

Lemma validation_frame_refl (taxonomy : Taxonomy.t) (st : TaxonomyParser.state) :
  validation_frame taxonomy st taxonomy st.
Proof. repeat split. apply Nat.le_refl. Qed.

Lemma validation_frame_trans (t1 t2 t3 : Taxonomy.t) (s1 s2 s3 : TaxonomyParser.state) :
  validation_frame t1 s1 t2 s2 -> validation_frame t2 s2 t3 s3 ->
  validation_frame t1 s1 t3 s3.
Proof.
  intros [Hd [Hw [He Hl]]] [Kd [Kw [Ke Kl]]]. split; [|split; [|split]].
  - eapply same_document_trans; eassumption.
  - congruence.
  - lia.
  - congruence.
Qed.

Lemma validation_frame_error (taxonomy : Taxonomy.t) (st st1 : TaxonomyParser.state)
    (ev : event) :
  is_report ev ->
  lint_runs (TaxonomyParser.trace st1) = lint_runs (TaxonomyParser.trace st) ->
  validation_frame taxonomy st (Taxonomy.add_error taxonomy) (TaxonomyParser.record ev st1).
Proof.
  intros Hrep Hl. split; [apply same_document_add_error|].
  split; [reflexivity|]. split; [simpl; lia|].
  now rewrite (lint_runs_report ev st1 Hrep).
Qed.

Lemma validation_loop_frame (w : World) (self : TaxonomyParser.t)
    (version_base content : string) (steps : list engine_step) :
  forall taxonomy st outcome taxonomy' st',
    TaxonomyParser.validation_loop w self version_base content steps taxonomy st
    = (outcome, taxonomy', st') ->
    validation_frame taxonomy st taxonomy' st'
    /\ forall ref, outcome <> Raise (NoSuchResource ref).
Proof.
  induction steps as [|step rest IH]; intros taxonomy st outcome taxonomy' st' H.
  - inversion H; subst. split; [apply validation_frame_refl | discriminate].
  - destruct step as [e|ref|]; simpl in H.
    + destruct (report_validation_error_spec w self content e taxonomy st)
        as [line [st1 [ev [Hrun [Herr [_ [_ Hl]]]]]]].
      rewrite Hrun in H. apply IH in H. destruct H as [H Hno]. split; [|exact Hno].
      eapply validation_frame_trans; [|exact H].
      apply validation_frame_error; [|exact Hl].
      destruct (String.eqb (validator e) "minItems");
        apply error_is_report in Herr; apply Herr.
    + unfold TaxonomyParser._retrieve in H.
      destruct (load_schema_frame w (version_base ++ "/" ++ ref) st) as [_ Hl].
      destruct (TaxonomyParser._load_schema w (version_base ++ "/" ++ ref) st)
        as [[r|x] st1]; simpl in Hl.
      * apply IH in H. destruct H as [[Hd [Hw [He Hl']]] Hno]. split; [|exact Hno].
        repeat split; try apply Hd; try assumption. congruence.
      * inversion H; subst. split; [|discriminate].
        repeat split; [apply Nat.le_refl | exact Hl].
    + inversion H; subst. split; [apply validation_frame_refl | discriminate].
Qed.

Lemma schema_validate_frame (w : World) (self : TaxonomyParser.t) (content : string)
    (taxonomy : Taxonomy.t) (st : TaxonomyParser.state) :
  forall outcome taxonomy' st',
    TaxonomyParser._schema_validate w self content taxonomy st = (outcome, taxonomy', st') ->
    validation_frame taxonomy st taxonomy' st'.
Proof.
  intros outcome taxonomy' st'. unfold TaxonomyParser._schema_validate.
  destruct (Taxonomy.path taxonomy) as [|first rest].
  { intros H; inversion H; subst. apply validation_frame_refl. }
  set (version_base := "v" ++ pyint_str (Taxonomy.version taxonomy)).
  set (name := TaxonomyParser.schema_name self taxonomy first ++ ".json").
  cbv zeta. unfold TaxonomyParser._retrieve.
  destruct (load_schema_frame w (version_base ++ "/" ++ name) st) as [_ Hl].
  destruct (TaxonomyParser._load_schema w (version_base ++ "/" ++ name) st)
    as [[r|x] st1] eqn:Hload; simpl in Hl.
  - destruct (TaxonomyParser.validation_loop w self version_base content
                (iter_errors w (contents r) version_base (Taxonomy.parsed taxonomy))
                taxonomy st1) as [[o t2] st2] eqn:Hloop.
    apply validation_loop_frame in Hloop. destruct Hloop as [[Hd [Hw [He Hl2]]] Hno].
    assert (Hframe : validation_frame taxonomy st t2 st2).
    { repeat split; try apply Hd; try assumption. congruence. }
    destruct o as [u|x].
    + intros H; inversion H; subst. exact Hframe.
    + destruct x; try (intros H; inversion H; subst; exact Hframe).
      exfalso. eapply Hno. reflexivity.
  - assert (Hframe : validation_frame taxonomy st taxonomy st1).
    { repeat split; [apply Nat.le_refl | exact Hl]. }
    destruct x; try (intros H; inversion H; subst; exact Hframe).
    destruct (Taxonomy.error w taxonomy "Cannot load schema file %s. %s"
                [ref; str_NoSuchResource w ref] "1" "1" EmptyString)
      as [[ev|x] t2] eqn:Herr.
    + apply error_is_report in Herr. destruct Herr as [Hrep ->].
      intros H; inversion H; subst.
      apply validation_frame_error; assumption.
    + pose proof (error_after w taxonomy "Cannot load schema file %s. %s"
                    [ref; str_NoSuchResource w ref] "1" "1" EmptyString) as Ha.
      rewrite Herr in Ha. simpl in Ha. subst t2.
      intros H; inversion H; subst.
      repeat split; [simpl; lia | exact Hl].
Qed.

(** ** The stages of [parse] *)

Lemma new_taxonomy_unset (w : World) (self : TaxonomyParser.t) (abs_path : Path) :
  let taxonomy := TaxonomyParser.new_taxonomy w self abs_path in
  Taxonomy.errors taxonomy = 0 /\ Taxonomy.warnings taxonomy = 0
  /\ Taxonomy.parsed taxonomy = [] /\ Taxonomy.version taxonomy = PInt 0.
Proof.
  unfold TaxonomyParser.new_taxonomy.
  destruct (TaxonomyParser.find_folder (TaxonomyParser.taxonomy_folders self) abs_path);
    repeat split.
Qed.

Lemma find_folder_nonempty (folders : list string) (parts p : Path) :
  TaxonomyParser.find_folder folders parts = Some p -> p <> [].
Proof.
  revert p. induction parts as [|part rest IH]; simpl; intros p H; [discriminate|].
  destruct (TaxonomyParser.find_folder folders rest) as [q|].
  - inversion H; subst. now apply IH.
  - destruct (Py.mem part folders); [|discriminate]. inversion H. discriminate.
Qed.

Lemma new_taxonomy_path (w : World) (self : TaxonomyParser.t) (abs_path : Path) :
  abs_path <> [] -> Taxonomy.path (TaxonomyParser.new_taxonomy w self abs_path) <> [].
Proof.
  intros Hne. unfold TaxonomyParser.new_taxonomy.
  destruct (TaxonomyParser.find_folder (TaxonomyParser.taxonomy_folders self) abs_path)
    as [p|] eqn:Hf; simpl; [|exact Hne].
  eapply find_folder_nonempty; eassumption.
Qed.

Lemma wrapped_returned (outcome : result Taxonomy.t * TaxonomyParser.state)
    (taxonomy : Taxonomy.t) (st : TaxonomyParser.state) :
  TaxonomyParser.wrapped outcome = (Ok taxonomy, st) <-> outcome = (Ok taxonomy, st).
Proof.
  destruct outcome as [[t|x] s]; simpl; split; intros H; try exact H; discriminate.
Qed.

Lemma wrapped_state (outcome : result Taxonomy.t * TaxonomyParser.state) :
  snd (TaxonomyParser.wrapped outcome) = snd outcome.
Proof. destruct outcome as [[t|x] s]; reflexivity. Qed.

(** The four ways in which [parse] returns before it sets [parsed] and
    [version]. *)
Lemma parse_not_a_file (w : World) (self : TaxonomyParser.t) (abs_path : Path)
    (st : TaxonomyParser.state) :
  isfile w abs_path = false ->
  let taxonomy := TaxonomyParser.new_taxonomy w self abs_path in
  exists ev,
    Taxonomy.error w taxonomy
      ("The file " ++ dquote ++ "%s" ++ dquote ++ " does not exist or is not a file")
      [path_str abs_path] "1" "1" EmptyString = (Ok ev, Taxonomy.add_error taxonomy)
    /\ TaxonomyParser.parse w self abs_path st
       = (Ok (Taxonomy.add_error taxonomy), TaxonomyParser.record ev st).
Proof.
  intros Hf taxonomy. unfold TaxonomyParser.parse. rewrite Hf. simpl negb. cbv iota.
  fold taxonomy.
  destruct (error_returns w taxonomy
              ("The file " ++ dquote ++ "%s" ++ dquote ++ " does not exist or is not a file")
              _ [path_str abs_path] "1" "1" EmptyString eq_refl) as [ev Hev].
  exists ev. split; [exact Hev|]. now rewrite Hev.
Qed.

Lemma parse_wrong_name (w : World) (self : TaxonomyParser.t) (abs_path : Path)
    (st : TaxonomyParser.state) :
  isfile w abs_path = true ->
  path_name abs_path <> "qna.yaml" ->
  let taxonomy := TaxonomyParser.new_taxonomy w self abs_path in
  exists ev,
    Taxonomy.error w taxonomy
      ("Taxonomy file must be named " ++ dquote ++ "qna.yaml" ++ dquote ++ "; "
       ++ dquote ++ "%s" ++ dquote ++ " is not a valid name")
      [path_name abs_path] "1" "1" EmptyString = (Ok ev, Taxonomy.add_error taxonomy)
    /\ TaxonomyParser.parse w self abs_path st
       = (Ok (Taxonomy.add_error taxonomy), TaxonomyParser.record ev st).
Proof.
  intros Hf Hn taxonomy. unfold TaxonomyParser.parse. rewrite Hf.
  apply String.eqb_neq in Hn. rewrite Hn. simpl negb. cbv iota. fold taxonomy.
  destruct (error_returns w taxonomy
              ("Taxonomy file must be named " ++ dquote ++ "qna.yaml" ++ dquote ++ "; "
               ++ dquote ++ "%s" ++ dquote ++ " is not a valid name")
              _ [path_name abs_path] "1" "1" EmptyString eq_refl) as [ev Hev].
  exists ev. split; [exact Hev|]. now rewrite Hev.
Qed.

Lemma parse_decoded (w : World) (self : TaxonomyParser.t) (abs_path : Path)
    (st : TaxonomyParser.state) (content : string) (v : yaml) :
  isfile w abs_path = true ->
  path_name abs_path = "qna.yaml" ->
  read_text w abs_path = Some content ->
  safe_load w content = Some v ->
  let taxonomy := TaxonomyParser.new_taxonomy w self abs_path in
  TaxonomyParser.parse w self abs_path st =
  TaxonomyParser.wrapped
    (if negb (truthy v) then
       TaxonomyParser.returning
         (Taxonomy.warning w taxonomy "The file is empty" [] "1" "1" EmptyString) st
     else
       match v with
       | YMap parsed =>
           match TaxonomyParser.resolve_version self parsed with
           | Raise e => (Raise e, st)
           | Ok version =>
               TaxonomyParser.lint_and_validate w self content
                 (Taxonomy.set_parsed taxonomy version parsed) st
           end
       | _ =>
           TaxonomyParser.returning
             (Taxonomy.error w taxonomy
                "The file is not valid. The top-level element is not an object with key-value pairs."
                [] "1" "1" EmptyString) st
       end).
Proof.
  intros Hf Hn Hr Hl taxonomy. unfold TaxonomyParser.parse.
  rewrite Hf, Hn, Hr, Hl. reflexivity.
Qed.

Lemma parse_empty (w : World) (self : TaxonomyParser.t) (abs_path : Path)
    (st : TaxonomyParser.state) (content : string) (v : yaml) :
  isfile w abs_path = true ->
  path_name abs_path = "qna.yaml" ->
  read_text w abs_path = Some content ->
  safe_load w content = Some v ->
  truthy v = false ->
  let taxonomy := TaxonomyParser.new_taxonomy w self abs_path in
  exists ev,
    Taxonomy.warning w taxonomy "The file is empty" [] "1" "1" EmptyString
    = (Ok ev, Taxonomy.add_warning taxonomy)
    /\ TaxonomyParser.parse w self abs_path st
       = (Ok (Taxonomy.add_warning taxonomy), TaxonomyParser.record ev st).
Proof.
  intros Hf Hn Hr Hl Ht taxonomy.
  rewrite (parse_decoded w self abs_path st content v Hf Hn Hr Hl). rewrite Ht.
  fold taxonomy. simpl negb. cbv iota.
  destruct (warning_returns w taxonomy "The file is empty" _ [] "1" "1" EmptyString eq_refl)
    as [ev Hev].
  exists ev. split; [exact Hev|]. now rewrite Hev.
Qed.

Lemma parse_not_a_mapping (w : World) (self : TaxonomyParser.t) (abs_path : Path)
    (st : TaxonomyParser.state) (content : string) (v : yaml) :
  isfile w abs_path = true ->
  path_name abs_path = "qna.yaml" ->
  read_text w abs_path = Some content ->
  safe_load w content = Some v ->
  truthy v = true ->
  (forall items, v <> YMap items) ->
  let taxonomy := TaxonomyParser.new_taxonomy w self abs_path in
  exists ev,
    Taxonomy.error w taxonomy
      "The file is not valid. The top-level element is not an object with key-value pairs."
      [] "1" "1" EmptyString = (Ok ev, Taxonomy.add_error taxonomy)
    /\ TaxonomyParser.parse w self abs_path st
       = (Ok (Taxonomy.add_error taxonomy), TaxonomyParser.record ev st).
Proof.
  intros Hf Hn Hr Hl Ht Hm taxonomy.
  rewrite (parse_decoded w self abs_path st content v Hf Hn Hr Hl). rewrite Ht.
  fold taxonomy. simpl negb. cbv iota.
  destruct (error_returns w taxonomy
              "The file is not valid. The top-level element is not an object with key-value pairs."
              _ [] "1" "1" EmptyString eq_refl) as [ev Hev].
  exists ev. split; [exact Hev|].
  destruct v; try (now rewrite Hev). exfalso. now apply (Hm items).
Qed.

(** A document that decodes to a non-empty mapping goes through version
    resolution, lint and schema validation. *)
Lemma parse_mapping (w : World) (self : TaxonomyParser.t) (abs_path : Path)
    (st : TaxonomyParser.state) (content : string) (parsed : list (yaml * yaml)) :
  isfile w abs_path = true ->
  path_name abs_path = "qna.yaml" ->
  read_text w abs_path = Some content ->
  safe_load w content = Some (YMap parsed) ->
  parsed <> [] ->
  TaxonomyParser.parse w self abs_path st =
  TaxonomyParser.wrapped
    match TaxonomyParser.resolve_version self parsed with
    | Raise e => (Raise e, st)
    | Ok version =>
        TaxonomyParser.lint_and_validate w self content
          (Taxonomy.set_parsed (TaxonomyParser.new_taxonomy w self abs_path) version parsed) st
    end.
Proof.
  intros Hf Hn Hr Hl Hne.
  rewrite (parse_decoded w self abs_path st content _ Hf Hn Hr Hl).
  destruct parsed; [contradiction | reflexivity].
Qed.

(** The lint stage: it runs for a version above 1 only, and never raises. *)
Lemma lint_stage (w : World) (self : TaxonomyParser.t) (content : string)
    (document : Taxonomy.t) (st : TaxonomyParser.state) :
  let above_1 := (int_value (Taxonomy.version document) >? 1)%Z in
  exists linted st1,
    (if above_1 then TaxonomyParser._yamllint w self content document st
     else (Ok tt, document, st)) = (Ok tt, linted, st1)
    /\ same_document document linted
    /\ TaxonomyParser.cache st1 = TaxonomyParser.cache st
    /\ lint_runs (TaxonomyParser.trace st1) =
       (lint_runs (TaxonomyParser.trace st)
          ++ if above_1 then [(TaxonomyParser.yamllint_config self, content)] else [])%list
    /\ TaxonomyParser.lint_and_validate w self content document st =
       match TaxonomyParser._schema_validate w self content linted st1 with
       | (Raise e, _, st2) => (Raise e, st2)
       | (Ok _, taxonomy, st2) => (Ok taxonomy, st2)
       end.
Proof.
  intros above_1. unfold TaxonomyParser.lint_and_validate. fold above_1.
  destruct above_1.
  - destruct (yamllint_spec w self content document st)
      as [linted [st1 [Hrun [Hsame [_ [Hc [_ [_ Hl]]]]]]]].
    exists linted, st1. rewrite Hrun. repeat split; assumption || apply Hsame.
  - exists document, st. rewrite app_nil_r. repeat split.
Qed.

Lemma lint_and_validate_runs (w : World) (self : TaxonomyParser.t) (content : string)
    (document : Taxonomy.t) (st : TaxonomyParser.state) :
  lint_runs (TaxonomyParser.trace
               (snd (TaxonomyParser.lint_and_validate w self content document st))) =
  (lint_runs (TaxonomyParser.trace st)
     ++ if (int_value (Taxonomy.version document) >? 1)%Z
        then [(TaxonomyParser.yamllint_config self, content)] else [])%list.
Proof.
  destruct (lint_stage w self content document st)
    as [linted [st1 [_ [_ [_ [Hl Heq]]]]]].
  rewrite Heq, <- Hl.
  destruct (TaxonomyParser._schema_validate w self content linted st1)
    as [[o t2] st2] eqn:Hv.
  apply schema_validate_frame in Hv. destruct Hv as [_ [_ [_ Hl2]]].
  destruct o; simpl; exact Hl2.
Qed.

Lemma lint_and_validate_document (w : World) (self : TaxonomyParser.t) (content : string)
    (document : Taxonomy.t) (st : TaxonomyParser.state) (taxonomy : Taxonomy.t)
    (st' : TaxonomyParser.state) :
  TaxonomyParser.lint_and_validate w self content document st = (Ok taxonomy, st') ->
  same_document document taxonomy.
Proof.
  destruct (lint_stage w self content document st)
    as [linted [st1 [_ [Hsame [_ [_ Heq]]]]]].
  rewrite Heq.
  destruct (TaxonomyParser._schema_validate w self content linted st1)
    as [[o t2] st2] eqn:Hv.
  apply schema_validate_frame in Hv. destruct Hv as [Hsame2 _].
  destruct o; intros H; inversion H; subst.
  eapply same_document_trans; eassumption.
Qed.

(** ** Version resolution and lint *)

(** C2 (amended).  For a parse that reaches the lint stage (an existing
    qna.yaml file whose top level is a non-empty mapping, with the version
    resolved), yamllint is skipped if and only if the resolved version is at
    most 1: it is skipped for version 1 and also for a version below 1.  For
    a version above 1 it runs once, on the raw text with the parser's
    configuration, never raises, and every finding in its output is counted
    as an error or a warning before schema validation starts. *)
Theorem lint_runs_iff_version_above_1 (w : World) (self : TaxonomyParser.t)
    (abs_path : Path) (st : TaxonomyParser.state) (content : string)
    (parsed : list (yaml * yaml)) (version : pyint) :
  isfile w abs_path = true ->
  path_name abs_path = "qna.yaml" ->
  read_text w abs_path = Some content ->
  safe_load w content = Some (YMap parsed) ->
  parsed <> [] ->
  TaxonomyParser.resolve_version self parsed = Ok version ->
  let document :=
    Taxonomy.set_parsed (TaxonomyParser.new_taxonomy w self abs_path) version parsed in
  lint_runs (TaxonomyParser.trace (snd (TaxonomyParser.parse w self abs_path st)))
  = (lint_runs (TaxonomyParser.trace st) ++ lint_stage_runs self content version)%list
  /\ (lint_stage_runs self content version = [] <-> (int_value version <= 1)%Z)
  /\ exists linted st1,
       (if (int_value version >? 1)%Z
        then TaxonomyParser._yamllint w self content document st
             = (Ok tt, linted, st1)
             /\ (let lines :=
                   match run_yamllint w (TaxonomyParser.yamllint_config self) content with
                   | Some lines => lines
                   | None => []
                   end in
                 Taxonomy.errors linted = lint_errors self lines
                 /\ Taxonomy.warnings linted = lint_warnings self lines)
        else linted = document /\ st1 = st)
       /\ TaxonomyParser.parse w self abs_path st =
          TaxonomyParser.wrapped
            match TaxonomyParser._schema_validate w self content linted st1 with
            | (Raise e, _, st2) => (Raise e, st2)
            | (Ok _, taxonomy, st2) => (Ok taxonomy, st2)
            end.
Proof.
  intros Hf Hn Hr Hl Hne Hv document.
  rewrite (parse_mapping w self abs_path st content parsed Hf Hn Hr Hl Hne), Hv.
  fold document. rewrite wrapped_state. split; [|split].
  - apply (lint_and_validate_runs w self content document st).
  - unfold lint_stage_runs. destruct (int_value version >? 1)%Z eqn:Hgt.
    + apply Z.gtb_lt in Hgt. split; [discriminate | lia].
    + split; [intros _|reflexivity].
      rewrite Z.gtb_ltb in Hgt. apply Z.ltb_ge in Hgt. exact Hgt.
  - unfold TaxonomyParser.lint_and_validate.
    change (Taxonomy.version document) with version.
    destruct (int_value version >? 1)%Z.
    + destruct (yamllint_spec w self content document st)
        as [linted [st1 [Hrun [_ [Hcount _]]]]].
      exists linted, st1. rewrite Hrun. split; [|reflexivity].
      split; [reflexivity|].
      destruct (new_taxonomy_unset w self abs_path) as [He [Hw _]].
      unfold document in Hcount. simpl in Hcount. rewrite He, Hw in Hcount.
      exact Hcount.
    + exists document, st. repeat split.
Qed.

Lemma lint_runs_witness :
  lint_runs
    (TaxonomyParser.trace
       (snd (TaxonomyParser.parse Example.world (Example.parser 0 STANDARD)
               (Example.qna "version_2") TaxonomyParser.initial_state)))
  = [(DEFAULT_YAMLLINT_CONFIG, "version_2")].
Proof.
  exact (proj1 (lint_runs_iff_version_above_1 Example.world (Example.parser 0 STANDARD)
                  (Example.qna "version_2") TaxonomyParser.initial_state "version_2"
                  [(YStr "version", YInt 2); (YStr "created_by", YStr "me")] (PInt 2)
                  eq_refl eq_refl eq_refl eq_refl ltac:(discriminate) eq_refl)).
Defined.

(** C2, as stated, fails: a document that declares version 0, parsed with
    [schema_version=0], resolves to version 0, which is not 1, and yamllint
    does not run (the trace holds the schema file read and the report of the
    missing schema only). *)
Example no_lint_below_version_1 :
  TaxonomyParser.parse Example.world (Example.parser 0 STANDARD)
    (Example.qna "version_0") TaxonomyParser.initial_state
  = (Ok {| Taxonomy.path := ["compositional_skills"; "version_0"; "qna.yaml"];
           Taxonomy.rel_path := ["taxonomy"; "compositional_skills"; "version_0"; "qna.yaml"];
           Taxonomy.message_format := STANDARD;
           Taxonomy.errors := 1; Taxonomy.warnings := 0;
           Taxonomy.parsed := [(YStr "version", YInt 0); (YStr "created_by", YStr "me")];
           Taxonomy.version := PInt 0 |},
     {| TaxonomyParser.cache := []; TaxonomyParser.created := 0;
        TaxonomyParser.yq_available := true;
        TaxonomyParser.trace :=
          [ReadSchema "v0/compositional_skills.json";
           Print "ERROR: taxonomy/compositional_skills/version_0/qna.yaml:1:1 Cannot load schema file v0/compositional_skills.json. 'v0/compositional_skills.json'"] |})
  /\ lint_runs
       (TaxonomyParser.trace
          (snd (TaxonomyParser.parse Example.world (Example.parser 0 STANDARD)
                  (Example.qna "version_0") TaxonomyParser.initial_state))) = [].
Proof. split; reflexivity. Qed.

Lemma resolves_to_intro (w : World) (self : TaxonomyParser.t) (abs_path : Path)
    (st : TaxonomyParser.state) (content : string) (parsed : list (yaml * yaml))
    (version : pyint) :
  isfile w abs_path = true ->
  path_name abs_path = "qna.yaml" ->
  read_text w abs_path = Some content ->
  safe_load w content = Some (YMap parsed) ->
  parsed <> [] ->
  TaxonomyParser.resolve_version self parsed = Ok version ->
  resolves_to w self abs_path st content parsed version.
Proof.
  intros Hf Hn Hr Hl Hne Hv.
  pose proof (parse_mapping w self abs_path st content parsed Hf Hn Hr Hl Hne) as Hp.
  rewrite Hv in Hp. split; [exact Hv|]. split; [exact Hp|].
  intros taxonomy st' H. rewrite Hp in H. apply (proj1 (wrapped_returned _ _ _)) in H.
  apply lint_and_validate_document in H. destruct H as [_ [_ [_ [_ H]]]]. exact H.
Qed.

(** C1 (amended).  For an existing qna.yaml file whose top level decodes to a
    non-empty mapping, parsed with [schema_version < 1], the resolved version
    is the document's [version] when that is an integer (a boolean is one),
    1 when the key is absent, and for a string the integer that [int()]
    reads in it ([Py.int_of_str]: a decimal literal of at most 4300 digits,
    with white space of the C library around it), or 1 when [int()] refuses
    it; any other value for which [int()] returns resolves to what it
    returns, and one for which [int()] raises [ValueError] resolves to 1.
    (What happens when [int()] raises another exception is left open
    here.) *)
Theorem version_from_document (w : World) (self : TaxonomyParser.t) (abs_path : Path)
    (st : TaxonomyParser.state) (content : string) (parsed : list (yaml * yaml)) :
  isfile w abs_path = true ->
  path_name abs_path = "qna.yaml" ->
  read_text w abs_path = Some content ->
  safe_load w content = Some (YMap parsed) ->
  parsed <> [] ->
  (TaxonomyParser.schema_version self < 1)%Z ->
  let resolved := resolves_to w self abs_path st content parsed in
  (dict_get "version" parsed = None -> resolved (PInt 1))
  /\ (forall z, dict_get "version" parsed = Some (YInt z) -> resolved (PInt z))
  /\ (forall b, dict_get "version" parsed = Some (YBool b) -> resolved (PBool b))
  /\ (forall s, dict_get "version" parsed = Some (YStr s) ->
        resolved (PInt match Py.int_of_str s with Some z => z | None => 1%Z end))
  /\ (forall v, dict_get "version" parsed = Some v ->
        match py_int v with
        | Ok z => (forall b, v <> YBool b) -> resolved (PInt z)
        | Raise ValueError => resolved (PInt 1)
        | Raise _ => True
        end).
Proof.
  intros Hf Hn Hr Hl Hne Hlt resolved.
  assert (Hintro : forall version,
            TaxonomyParser.resolve_version self parsed = Ok version -> resolved version).
  { intros version. now apply resolves_to_intro. }
  apply Z.ltb_lt in Hlt.
  split; [|split; [|split; [|split]]].
  - intros Hg. apply Hintro. unfold TaxonomyParser.resolve_version. now rewrite Hlt, Hg.
  - intros z Hg. apply Hintro. unfold TaxonomyParser.resolve_version. now rewrite Hlt, Hg.
  - intros b Hg. apply Hintro. unfold TaxonomyParser.resolve_version. now rewrite Hlt, Hg.
  - intros s Hg. apply Hintro. unfold TaxonomyParser.resolve_version. rewrite Hlt, Hg.
    simpl. now destruct (Py.int_of_str s).
  - intros v Hg. destruct (py_int v) as [z|x] eqn:Hi.
    + intros Hb. apply Hintro. unfold TaxonomyParser.resolve_version. rewrite Hlt, Hg.
      destruct v; try (now rewrite Hi); try discriminate.
      * exfalso. now apply (Hb b).
      * simpl in Hi. now inversion Hi.
    + destruct x; try exact I. apply Hintro.
      unfold TaxonomyParser.resolve_version. rewrite Hlt, Hg.
      destruct v; try (now rewrite Hi); discriminate.
Qed.

Lemma version_from_document_witness :
  resolves_to Example.world (Example.parser 0 STANDARD) (Example.qna "version_str")
    TaxonomyParser.initial_state "version_str"
    [(YStr "version", YStr " 2 "); (YStr "created_by", YStr "me")] (PInt 2).
Proof.
  exact (proj1 (proj2 (proj2 (proj2
           (version_from_document Example.world (Example.parser 0 STANDARD)
              (Example.qna "version_str") TaxonomyParser.initial_state "version_str"
              [(YStr "version", YStr " 2 "); (YStr "created_by", YStr "me")]
              eq_refl eq_refl eq_refl eq_refl ltac:(discriminate) eq_refl))))
           " 2 " eq_refl).
Defined.

(** C1, as stated, fails, with [schema_version=0] in both cases: a top level
    that decodes to the empty mapping has no [version] key, yet the entry
    comes back with version 0 (and the "file is empty" warning), not 1; and a
    [version] that is a sequence makes [parse] raise
    [TaxonomyReadingException], because [int()] raises [TypeError] for it and
    only [ValueError] falls back to 1. *)
Example version_not_resolved :
  TaxonomyParser.parse Example.world (Example.parser 0 STANDARD)
    (Example.qna "empty_map") TaxonomyParser.initial_state
  = (Ok {| Taxonomy.path := ["compositional_skills"; "empty_map"; "qna.yaml"];
           Taxonomy.rel_path := ["taxonomy"; "compositional_skills"; "empty_map"; "qna.yaml"];
           Taxonomy.message_format := STANDARD;
           Taxonomy.errors := 0; Taxonomy.warnings := 1;
           Taxonomy.parsed := []; Taxonomy.version := PInt 0 |},
     {| TaxonomyParser.cache := []; TaxonomyParser.created := 0;
        TaxonomyParser.yq_available := true;
        TaxonomyParser.trace :=
          [Print "WARN: taxonomy/compositional_skills/empty_map/qna.yaml:1:1 The file is empty"] |})
  /\ TaxonomyParser.resolve_version (Example.parser 0 STANDARD)
       [(YStr "version", YSeq [YInt 1]); (YStr "created_by", YStr "me")]
     = Raise TypeError
  /\ TaxonomyParser.parse Example.world (Example.parser 0 STANDARD)
       (Example.qna "version_seq") TaxonomyParser.initial_state
     = (Raise TaxonomyReadingException, TaxonomyParser.initial_state).
Proof. repeat split. Qed.

(** How [int()] reads a [version] that is a string.  White space of the C
    library around the literal is skipped, and single underscores between
    digits are accepted; the separator FS is no white space for [int()], and
    a literal of more than 4300 digits is refused: both fall back to 1. *)
Example version_literals :
  let resolve s :=
    TaxonomyParser.resolve_version (Example.parser 0 STANDARD) [(YStr "version", YStr s)] in
  let zeros n := String.concat EmptyString (repeat "0" n) in
  resolve " 2 " = Ok (PInt 2)
  /\ resolve "1_0" = Ok (PInt 10)
  /\ resolve (String (ascii_of_nat 28) "2") = Ok (PInt 1)
  /\ resolve (zeros 4299 ++ "2") = Ok (PInt 2)
  /\ resolve (zeros 4300 ++ "2") = Ok (PInt 1).
Proof. vm_compute. repeat split. Qed.

(** ** Early exits *)

Lemma early_exit_returns (w : World) (self : TaxonomyParser.t) (abs_path : Path)
    (st : TaxonomyParser.state) :
  early_exit w abs_path ->
  exists taxonomy ev,
    TaxonomyParser.parse w self abs_path st = (Ok taxonomy, TaxonomyParser.record ev st)
    /\ Taxonomy.parsed taxonomy = [] /\ Taxonomy.version taxonomy = PInt 0
    /\ Taxonomy.errors taxonomy + Taxonomy.warnings taxonomy = 1.
Proof.
  intros Hexit.
  destruct (new_taxonomy_unset w self abs_path) as [He [Hw [Hp Hv]]].
  assert (Herror : forall ev,
            TaxonomyParser.parse w self abs_path st
            = (Ok (Taxonomy.add_error (TaxonomyParser.new_taxonomy w self abs_path)),
               TaxonomyParser.record ev st) ->
            exists taxonomy ev,
              TaxonomyParser.parse w self abs_path st
              = (Ok taxonomy, TaxonomyParser.record ev st)
              /\ Taxonomy.parsed taxonomy = [] /\ Taxonomy.version taxonomy = PInt 0
              /\ Taxonomy.errors taxonomy + Taxonomy.warnings taxonomy = 1).
  { intros ev H. eexists. exists ev. split; [exact H|]. simpl. rewrite He, Hw.
    repeat split; assumption. }
  assert (Hwarning : forall ev,
            TaxonomyParser.parse w self abs_path st
            = (Ok (Taxonomy.add_warning (TaxonomyParser.new_taxonomy w self abs_path)),
               TaxonomyParser.record ev st) ->
            exists taxonomy ev,
              TaxonomyParser.parse w self abs_path st
              = (Ok taxonomy, TaxonomyParser.record ev st)
              /\ Taxonomy.parsed taxonomy = [] /\ Taxonomy.version taxonomy = PInt 0
              /\ Taxonomy.errors taxonomy + Taxonomy.warnings taxonomy = 1).
  { intros ev H. eexists. exists ev. split; [exact H|]. simpl. rewrite He, Hw.
    repeat split; assumption. }
  destruct (isfile w abs_path) eqn:Hf.
  2:{ destruct (parse_not_a_file w self abs_path st Hf) as [ev [_ H]]. now apply (Herror ev). }
  destruct (String.eqb (path_name abs_path) "qna.yaml") eqn:Hn.
  2:{ apply String.eqb_neq in Hn.
      destruct (parse_wrong_name w self abs_path st Hf Hn) as [ev [_ H]].
      now apply (Herror ev). }
  apply String.eqb_eq in Hn.
  destruct Hexit as [H|H|content v Hr Hl Ht|content v Hr Hl Hm]; try congruence.
  - destruct (parse_empty w self abs_path st content v Hf Hn Hr Hl Ht) as [ev [_ H]].
    now apply (Hwarning ev).
  - destruct (truthy v) eqn:Ht.
    + destruct (parse_not_a_mapping w self abs_path st content v Hf Hn Hr Hl Ht Hm)
        as [ev [_ H]].
      now apply (Herror ev).
    + destruct (parse_empty w self abs_path st content v Hf Hn Hr Hl Ht) as [ev [_ H]].
      now apply (Hwarning ev).
Qed.

Lemma returned_unset_is_early_exit (w : World) (self : TaxonomyParser.t) (abs_path : Path)
    (st : TaxonomyParser.state) (taxonomy : Taxonomy.t) (st' : TaxonomyParser.state) :
  TaxonomyParser.parse w self abs_path st = (Ok taxonomy, st') ->
  Taxonomy.parsed taxonomy = [] ->
  early_exit w abs_path.
Proof.
  intros Hparse Hunset.
  destruct (isfile w abs_path) eqn:Hf; [|now apply NotAFile].
  destruct (String.eqb (path_name abs_path) "qna.yaml") eqn:Hn.
  2:{ apply String.eqb_neq in Hn. now apply WrongName. }
  apply String.eqb_eq in Hn.
  destruct (read_text w abs_path) as [content|] eqn:Hr.
  2:{ unfold TaxonomyParser.parse in Hparse. rewrite Hf, Hn, Hr in Hparse. discriminate. }
  destruct (safe_load w content) as [v|] eqn:Hl.
  2:{ unfold TaxonomyParser.parse in Hparse. rewrite Hf, Hn, Hr, Hl in Hparse. discriminate. }
  destruct (truthy v) eqn:Ht; [|now apply (EmptyDocument w abs_path content v)].
  apply (NotAMapping w abs_path content v Hr Hl).
  intros items ->.
  assert (Hne : items <> []) by (destruct items; [discriminate Ht | discriminate]).
  rewrite (parse_mapping w self abs_path st content items Hf Hn Hr Hl Hne) in Hparse.
  apply (proj1 (wrapped_returned _ _ _)) in Hparse.
  destruct (TaxonomyParser.resolve_version self items) as [version|x]; [|discriminate].
  apply lint_and_validate_document in Hparse.
  destruct Hparse as [_ [_ [_ [Hp _]]]]. simpl in Hp. congruence.
Qed.

(** C10 (amended).  A parse that exits early (the path is not a regular file,
    the file is not named qna.yaml, the document is empty, or its top level is
    not a mapping) returns, with one diagnostic, an entry whose [parsed] is
    the empty mapping and whose [version] is 0; and among the entries that
    [parse] returns, those of the early exits are exactly the ones whose
    [parsed] is empty: [parsed] and [version] are set only after a non-empty
    mapping was decoded.  (The version says less: a decoded document can
    resolve to version 0 as well.) *)
Theorem early_exit_iff_parsed_unset (w : World) (self : TaxonomyParser.t) (abs_path : Path)
    (st : TaxonomyParser.state) :
  (early_exit w abs_path ->
   exists taxonomy ev,
     TaxonomyParser.parse w self abs_path st = (Ok taxonomy, TaxonomyParser.record ev st)
     /\ Taxonomy.parsed taxonomy = [] /\ Taxonomy.version taxonomy = PInt 0
     /\ Taxonomy.errors taxonomy + Taxonomy.warnings taxonomy = 1)
  /\ (forall taxonomy st',
        TaxonomyParser.parse w self abs_path st = (Ok taxonomy, st') ->
        (early_exit w abs_path <-> Taxonomy.parsed taxonomy = [])).
Proof.
  split; [apply early_exit_returns|].
  intros taxonomy st' Hparse. split.
  - intros Hexit.
    destruct (early_exit_returns w self abs_path st Hexit) as [t [ev [H [Hp _]]]].
    rewrite H in Hparse. inversion Hparse; subst. exact Hp.
  - now apply (returned_unset_is_early_exit w self abs_path st taxonomy st').
Qed.

(** C10, as stated, fails: version 0 on the result does not tell that
    decoding never succeeded.  This document decodes to a mapping that
    declares version 0; with [schema_version=0] it is validated (the schema of
    version 0 is looked for) and comes back with [parsed] set and version 0. *)
Example version_0_after_decoding :
  TaxonomyParser.parse Example.world (Example.parser 0 LOGGING)
    (Example.qna "version_0") TaxonomyParser.initial_state
  = (Ok {| Taxonomy.path := ["compositional_skills"; "version_0"; "qna.yaml"];
           Taxonomy.rel_path := ["taxonomy"; "compositional_skills"; "version_0"; "qna.yaml"];
           Taxonomy.message_format := LOGGING;
           Taxonomy.errors := 1; Taxonomy.warnings := 0;
           Taxonomy.parsed := [(YStr "version", YInt 0); (YStr "created_by", YStr "me")];
           Taxonomy.version := PInt 0 |},
     {| TaxonomyParser.cache := []; TaxonomyParser.created := 0;
        TaxonomyParser.yq_available := true;
        TaxonomyParser.trace :=
          [ReadSchema "v0/compositional_skills.json";
           Log Error "%s:%s:%s Cannot load schema file %s. %s"
             ["taxonomy/compositional_skills/version_0/qna.yaml"; "1"; "1";
              "v0/compositional_skills.json"; "'v0/compositional_skills.json'"]] |}).
Proof. reflexivity. Qed.

(** C3 (amended).  For an existing file named qna.yaml whose content decodes
    to a non-empty top-level sequence, [parse] returns an entry with exactly
    one error, the "top-level element is not an object" diagnostic, and no
    warning.  A content that decodes to a value that counts as false gets the
    "file is empty" warning instead, and no error: that is the empty document,
    and also the empty sequence and the empty mapping. *)
Theorem sequence_is_one_error (w : World) (self : TaxonomyParser.t) (abs_path : Path)
    (st : TaxonomyParser.state) (content : string) (v : yaml) :
  isfile w abs_path = true ->
  path_name abs_path = "qna.yaml" ->
  read_text w abs_path = Some content ->
  safe_load w content = Some v ->
  let taxonomy := TaxonomyParser.new_taxonomy w self abs_path in
  (forall items, v = YSeq items -> items <> [] ->
   exists ev,
     Taxonomy.error w taxonomy
       "The file is not valid. The top-level element is not an object with key-value pairs."
       [] "1" "1" EmptyString = (Ok ev, Taxonomy.add_error taxonomy)
     /\ TaxonomyParser.parse w self abs_path st
        = (Ok (Taxonomy.add_error taxonomy), TaxonomyParser.record ev st)
     /\ Taxonomy.errors (Taxonomy.add_error taxonomy) = 1
     /\ Taxonomy.warnings (Taxonomy.add_error taxonomy) = 0)
  /\ (truthy v = false ->
      exists ev,
        Taxonomy.warning w taxonomy "The file is empty" [] "1" "1" EmptyString
        = (Ok ev, Taxonomy.add_warning taxonomy)
        /\ TaxonomyParser.parse w self abs_path st
           = (Ok (Taxonomy.add_warning taxonomy), TaxonomyParser.record ev st)
        /\ Taxonomy.errors (Taxonomy.add_warning taxonomy) = 0
        /\ Taxonomy.warnings (Taxonomy.add_warning taxonomy) = 1)
  /\ truthy YNull = false /\ truthy (YSeq []) = false /\ truthy (YMap []) = false.
Proof.
  intros Hf Hn Hr Hl taxonomy.
  destruct (new_taxonomy_unset w self abs_path) as [He [Hw _]]. fold taxonomy in He, Hw.
  split; [|split; [|repeat split]].
  - intros items -> Hne.
    assert (Ht : truthy (YSeq items) = true) by (destruct items; [contradiction | reflexivity]).
    destruct (parse_not_a_mapping w self abs_path st content (YSeq items) Hf Hn Hr Hl Ht)
      as [ev [Hev Hp]]; [discriminate|].
    exists ev. simpl. rewrite He, Hw. repeat split; assumption.
  - intros Ht.
    destruct (parse_empty w self abs_path st content v Hf Hn Hr Hl Ht) as [ev [Hev Hp]].
    exists ev. simpl. rewrite He, Hw. repeat split; assumption.
Qed.

Lemma sequence_is_one_error_witness :
  exists ev,
    Taxonomy.error Example.world
      (TaxonomyParser.new_taxonomy Example.world (Example.parser 0 STANDARD) (Example.qna "seq"))
      "The file is not valid. The top-level element is not an object with key-value pairs."
      [] "1" "1" EmptyString
    = (Ok ev,
       Taxonomy.add_error
         (TaxonomyParser.new_taxonomy Example.world (Example.parser 0 STANDARD)
            (Example.qna "seq")))
    /\ TaxonomyParser.parse Example.world (Example.parser 0 STANDARD) (Example.qna "seq")
         TaxonomyParser.initial_state
       = (Ok (Taxonomy.add_error
                (TaxonomyParser.new_taxonomy Example.world (Example.parser 0 STANDARD)
                   (Example.qna "seq"))),
          TaxonomyParser.record ev TaxonomyParser.initial_state)
    /\ Taxonomy.errors
         (Taxonomy.add_error
            (TaxonomyParser.new_taxonomy Example.world (Example.parser 0 STANDARD)
               (Example.qna "seq"))) = 1
    /\ Taxonomy.warnings
         (Taxonomy.add_error
            (TaxonomyParser.new_taxonomy Example.world (Example.parser 0 STANDARD)
               (Example.qna "seq"))) = 0.
Proof.
  exact (proj1 (sequence_is_one_error Example.world (Example.parser 0 STANDARD)
                  (Example.qna "seq") TaxonomyParser.initial_state "seq"
                  (YSeq [YStr "a"; YStr "b"]) eq_refl eq_refl eq_refl eq_refl)
           [YStr "a"; YStr "b"] eq_refl ltac:(discriminate)).
Defined.

(** C3, as stated, fails for the empty sequence: [[]] counts as false, so the
    entry comes back with the "file is empty" warning and no error. *)
Example empty_sequence_is_a_warning :
  TaxonomyParser.parse Example.world (Example.parser 0 GITHUB)
    (Example.qna "empty_seq") TaxonomyParser.initial_state
  = (Ok {| Taxonomy.path := ["compositional_skills"; "empty_seq"; "qna.yaml"];
           Taxonomy.rel_path := ["taxonomy"; "compositional_skills"; "empty_seq"; "qna.yaml"];
           Taxonomy.message_format := GITHUB;
           Taxonomy.errors := 0; Taxonomy.warnings := 1;
           Taxonomy.parsed := []; Taxonomy.version := PInt 0 |},
     {| TaxonomyParser.cache := []; TaxonomyParser.created := 0;
        TaxonomyParser.yq_available := true;
        TaxonomyParser.trace :=
          [Print "::warning file=taxonomy/compositional_skills/empty_seq/qna.yaml,line=1,col=1::1:1 The file is empty"] |}).
Proof. reflexivity. Qed.

(** ** Schema validation *)

Lemma cannot_load_raises (w : World) (path : string) (st : TaxonomyParser.state) :
  cannot_load w path st <->
  fst (TaxonomyParser._load_schema w path st) = Raise (NoSuchResource path).
Proof.
  unfold cannot_load, TaxonomyParser._load_schema, TaxonomyParser.load_schema_as.
  destruct (TaxonomyParser.cache_find (TaxonomyParser.Self, path) (TaxonomyParser.cache st)).
  - simpl. split; [intros [H _]|intros H]; discriminate.
  - destruct (read_schema w path); simpl; split;
      try (intros [_ H]; discriminate); try (intros H; discriminate);
      try (intros _; reflexivity); try (intros _; split; reflexivity).
Qed.




(** The same parse, run: two findings of yamllint, then the one error of
    schema validation. *)
Example missing_schema_example :
  TaxonomyParser.parse Example.world (Example.parser 0 STANDARD)
    (Example.qna "version_9") TaxonomyParser.initial_state
  = (Ok {| Taxonomy.path := ["compositional_skills"; "version_9"; "qna.yaml"];
           Taxonomy.rel_path := ["taxonomy"; "compositional_skills"; "version_9"; "qna.yaml"];
           Taxonomy.message_format := STANDARD;
           Taxonomy.errors := 2; Taxonomy.warnings := 1;
           Taxonomy.parsed := [(YStr "version", YInt 9); (YStr "created_by", YStr "me")];
           Taxonomy.version := PInt 9 |},
     {| TaxonomyParser.cache := []; TaxonomyParser.created := 0;
        TaxonomyParser.yq_available := true;
        TaxonomyParser.trace :=
          [RunYamllint DEFAULT_YAMLLINT_CONFIG "version_9";
           Print "WARN: taxonomy/compositional_skills/version_9/qna.yaml:3:121 line too long (130 > 120 characters) (line-length)";
           Print "ERROR: taxonomy/compositional_skills/version_9/qna.yaml:7:1 syntax error: mapping values are not allowed here";
           ReadSchema "v9/compositional_skills.json";
           Print "ERROR: taxonomy/compositional_skills/version_9/qna.yaml:1:1 Cannot load schema file v9/compositional_skills.json. 'v9/compositional_skills.json'"] |}).
Proof. reflexivity. Qed.

Lemma violation_path_nonempty (e : ValidationError) : nonempty (violation_path e) = true.
Proof.
  unfold violation_path. destruct (nonempty (Py.tail (json_path e))) eqn:H; [exact H | reflexivity].
Qed.

Lemma error_at_path (w : World) (taxonomy : Taxonomy.t) (message text : string) (args : list string)
    (line yaml_path : string) :
  nonempty yaml_path = true ->
  Taxonomy.interpolate w message args = Ok text ->
  Taxonomy.error w taxonomy message args line "1" yaml_path
  = (Ok (error_event taxonomy line yaml_path text message args), Taxonomy.add_error taxonomy).
Proof.
  intros Hp Hi. unfold Taxonomy.error, error_event. simpl Taxonomy.message_format.
  simpl Taxonomy.rel_path. rewrite Hp, Hi.
  destruct (Taxonomy.message_format taxonomy); reflexivity.
Qed.

(** C5.  A violation whose validator keyword is [minItems] is reported as the
    error "Value must have at least N items", [N] being the value of the
    keyword in the schema; the message of the engine plays no part.  In the
    LOGGING format the logger gets this text as the end of its format string,
    with [N] as the last argument. *)
Theorem min_items_message (w : World) (self : TaxonomyParser.t) (content : string)
    (e : ValidationError) (taxonomy : Taxonomy.t) (st : TaxonomyParser.state) :
  validator e = "minItems" ->
  let n := validator_value e in
  exists line st1,
    TaxonomyParser.report_validation_error w self content e taxonomy st
    = (Ok tt, Taxonomy.add_error taxonomy,
       TaxonomyParser.record
         (error_event taxonomy line (violation_path e)
            ("Value must have at least " ++ n ++ " items")
            "Value must have at least %s items" [n])
         st1)
    /\ Taxonomy.interpolate w "Value must have at least %s items" [n]
       = Ok ("Value must have at least " ++ n ++ " items")
    /\ Py.percent_format "%s:%s:%s [%s] Value must have at least %s items"
         [path_str (Taxonomy.rel_path taxonomy); line; "1"; violation_path e; n]
       = Some (path_str (Taxonomy.rel_path taxonomy) ++ ":" ++ line ++ ":" ++ "1"
               ++ " [" ++ violation_path e ++ "] "
               ++ "Value must have at least " ++ n ++ " items").
Proof.
  intros Hmin n. subst n.
  destruct (report_validation_error_spec w self content e taxonomy st)
    as [line [st1 [ev [Hrun [Herr _]]]]].
  fold (violation_path e) in Herr.
  rewrite Hmin in Herr. simpl String.eqb in Herr. cbv iota in Herr.
  rewrite (error_at_path w taxonomy _ _ _ line (violation_path e)
             (violation_path_nonempty e) (interpolate_min_items w (validator_value e))) in Herr.
  inversion Herr as [Hev]. exists line, st1. rewrite Hrun, <- Hev.
  split; [reflexivity|]. split; reflexivity.
Qed.

Lemma min_items_witness :
  exists line st1,
    TaxonomyParser.report_validation_error Example.world (Example.parser 0 STANDARD)
      "version_2" Example.too_few
      (TaxonomyParser.new_taxonomy Example.world (Example.parser 0 STANDARD)
         (Example.qna "version_2"))
      TaxonomyParser.initial_state
    = (Ok tt,
       Taxonomy.add_error
         (TaxonomyParser.new_taxonomy Example.world (Example.parser 0 STANDARD)
            (Example.qna "version_2")),
       TaxonomyParser.record
         (Print
            ("ERROR: taxonomy/compositional_skills/version_2/qna.yaml:" ++ line ++ ":1"
             ++ " [.seed_examples] Value must have at least 5 items"))
         st1).
Proof.
  destruct (min_items_message Example.world (Example.parser 0 STANDARD) "version_2"
              Example.too_few
              (TaxonomyParser.new_taxonomy Example.world (Example.parser 0 STANDARD)
                 (Example.qna "version_2"))
              TaxonomyParser.initial_state eq_refl) as [line [st1 [H _]]].
  exists line, st1. exact H.
Defined.



(** ** The cache of [_load_schema] *)

Lemma key_eqb_eq (a b : TaxonomyParser.key) : TaxonomyParser.key_eqb a b = true <-> a = b.
Proof.
  destruct a as [[|n] p], b as [[|m] q]; unfold TaxonomyParser.key_eqb; simpl.
  - rewrite String.eqb_eq. split; congruence.
  - split; discriminate.
  - split; discriminate.
  - rewrite andb_true_iff, Nat.eqb_eq, String.eqb_eq. split; [intros [-> ->]|intros H; inversion H]; auto.
Qed.

Lemma key_eqb_refl (a : TaxonomyParser.key) : TaxonomyParser.key_eqb a a = true.
Proof. now apply key_eqb_eq. Qed.

Lemma key_eqb_neq (a b : TaxonomyParser.key) : TaxonomyParser.key_eqb a b = false <-> a <> b.
Proof.
  rewrite <- key_eqb_eq. destruct (TaxonomyParser.key_eqb a b); split; congruence.
Qed.

Lemma key_dec (a b : TaxonomyParser.key) : {a = b} + {a <> b}.
Proof.
  destruct (TaxonomyParser.key_eqb a b) eqn:H;
    [left; now apply key_eqb_eq | right; now apply key_eqb_neq].
Defined.

Lemma cache_find_app (k : TaxonomyParser.key)
    (before after : list (TaxonomyParser.key * Resource)) :
  ~ In k (keys before) ->
  TaxonomyParser.cache_find k (before ++ after)%list = TaxonomyParser.cache_find k after.
Proof.
  induction before as [|[k' r] before IH]; simpl; intros Hnot; [reflexivity|].
  destruct (TaxonomyParser.key_eqb k' k) eqn:Hk.
  - apply key_eqb_eq in Hk. exfalso. apply Hnot. now left.
  - apply IH. intros Hin. apply Hnot. now right.
Qed.

Lemma cache_find_none (k : TaxonomyParser.key) (c : list (TaxonomyParser.key * Resource)) :
  TaxonomyParser.cache_find k c = None -> ~ In k (keys c).
Proof.
  induction c as [|[k' r] c IH]; simpl; intros H; [tauto|].
  destruct (TaxonomyParser.key_eqb k' k) eqn:Hk; [discriminate|].
  apply key_eqb_neq in Hk. intros [Heq|Hin]; [contradiction | now apply IH].
Qed.

Lemma cache_remove_app (k : TaxonomyParser.key) (a b : list (TaxonomyParser.key * Resource)) :
  TaxonomyParser.cache_remove k (a ++ b)%list
  = (TaxonomyParser.cache_remove k a ++ TaxonomyParser.cache_remove k b)%list.
Proof.
  induction a as [|[k' r] a IH]; simpl; [reflexivity|].
  destruct (TaxonomyParser.key_eqb k' k); [exact IH | simpl; now rewrite IH].
Qed.

Lemma cache_remove_keys (k : TaxonomyParser.key) (c : list (TaxonomyParser.key * Resource)) :
  incl (keys (TaxonomyParser.cache_remove k c)) (keys c)
  /\ ~ In k (keys (TaxonomyParser.cache_remove k c))
  /\ (NoDup (keys c) -> NoDup (keys (TaxonomyParser.cache_remove k c))).
Proof.
  induction c as [|[k' r] c [Hincl [Hnot Hnodup]]]; simpl.
  - split; [apply incl_refl|]. split; [tauto | trivial].
  - destruct (TaxonomyParser.key_eqb k' k) eqn:Hk.
    + split; [now apply incl_tl|]. split; [exact Hnot|].
      intros Hd. apply Hnodup. now inversion Hd.
    + apply key_eqb_neq in Hk. simpl. split; [|split].
      * intros x [Hx|Hx]; [now left | right; now apply Hincl].
      * intros [Heq|Hin]; [contradiction | now apply Hnot].
      * intros Hd. inversion Hd as [|? ? Hk' Hd']; subst. constructor.
        -- intros Hin. apply Hk'. now apply Hincl.
        -- now apply Hnodup.
Qed.

Lemma cached_behind_found (k : TaxonomyParser.key) (r : Resource)
    (others : list TaxonomyParser.key) (st : TaxonomyParser.state) :
  cached_behind k r others st ->
  TaxonomyParser.cache_find k (TaxonomyParser.cache st) = Some r.
Proof.
  intros [before [after [Hc [_ [_ Hnot]]]]]. rewrite Hc, (cache_find_app _ _ _ Hnot).
  simpl. now rewrite key_eqb_refl.
Qed.

(** One more load, on whatever parser object, keeps [k] cached, as long as
    fewer than [maxsize] other keys are in use. *)
Lemma load_keeps_cached (w : World) (k : TaxonomyParser.key) (r : Resource)
    (others : list TaxonomyParser.key) (who : TaxonomyParser.caller) (path : string)
    (st : TaxonomyParser.state) :
  List.length others < TaxonomyParser.maxsize ->
  (who, path) = k \/ In (who, path) others ->
  cached_behind k r others st ->
  cached_behind k r others (snd (TaxonomyParser.load_schema_as w who path st)).
Proof.
  intros Hsize Hq Hcached. set (q := (who, path)) in *.
  pose proof (cached_behind_found _ _ _ _ Hcached) as Hfound.
  destruct Hcached as [before [after [Hc [Hnodup [Hincl Hnot]]]]].
  unfold TaxonomyParser.load_schema_as. fold q.
  destruct (key_dec q k) as [Hqk|Hqk].
  - rewrite Hqk in *. rewrite Hfound. simpl.
    exists [], (TaxonomyParser.cache_remove k (TaxonomyParser.cache st)).
    split; [reflexivity|]. split; [constructor|]. split; [intros x []|]. tauto.
  - destruct Hq as [Hq|Hq]; [contradiction|].
    destruct (TaxonomyParser.cache_find q (TaxonomyParser.cache st)) as [r'|] eqn:Hfind.
    + simpl. rewrite Hc, cache_remove_app. simpl.
      assert (Hkq : TaxonomyParser.key_eqb k q = false)
        by (apply key_eqb_neq; congruence).
      rewrite Hkq.
      destruct (cache_remove_keys q before) as [Hsub [Hq' Hnd]].
      exists ((q, r') :: TaxonomyParser.cache_remove q before),
        (TaxonomyParser.cache_remove q after).
      split; [reflexivity|]. split; [|split].
      * simpl. constructor; [exact Hq' | now apply Hnd].
      * intros x [Hx|Hx]; [now subst | apply Hincl, Hsub, Hx].
      * intros [Hx|Hx]; [simpl in Hx; congruence | apply Hnot, Hsub, Hx].
    + destruct (read_schema w path) as [contents|]; cbn [snd].
      * assert (Hfresh : ~ In q (keys before)).
        { apply cache_find_none in Hfind. rewrite Hc in Hfind.
          intros Hin. apply Hfind. unfold keys. rewrite map_app. apply in_or_app. now left. }
        set (r' := {| rid := TaxonomyParser.created st; contents := contents |}).
        assert (Hnd : NoDup (keys ((q, r') :: before))) by (simpl; now constructor).
        assert (Hin : incl (keys ((q, r') :: before)) others).
        { intros x [Hx|Hx]; [now subst | now apply Hincl]. }
        pose proof (NoDup_incl_length Hnd Hin) as Hlen.
        unfold keys in Hlen. rewrite length_map in Hlen. simpl in Hlen.
        destruct (TaxonomyParser.maxsize - S (List.length before)) as [|n] eqn:Hn;
          [lia|].
        exists ((q, r') :: before), (firstn n after).
        split; [|split; [exact Hnd|split; [exact Hin|]]].
        -- cbn [TaxonomyParser.cache TaxonomyParser.set_cache TaxonomyParser.record].
           rewrite Hc.
           change (firstn TaxonomyParser.maxsize
                     (((q, r') :: before) ++ (k, r) :: after)%list
                   = (((q, r') :: before) ++ (k, r) :: firstn n after)%list).
           unfold TaxonomyParser.key in *.
           rewrite firstn_app, firstn_all2 by (simpl List.length; lia).
           f_equal. simpl List.length. rewrite Hn. reflexivity.
        -- intros [Hx|Hx]; [simpl in Hx; congruence | contradiction].
      * exists before, after. repeat split; assumption.
Qed.

Lemma load_each_keeps_cached (w : World) (k : TaxonomyParser.key) (r : Resource)
    (others : list TaxonomyParser.key) (calls : list TaxonomyParser.key) :
  List.length others < TaxonomyParser.maxsize ->
  (forall q, In q calls -> q = k \/ In q others) ->
  forall st,
    cached_behind k r others st ->
    cached_behind k r others (snd (TaxonomyParser.load_each w calls st)).
Proof.
  intros Hsize. induction calls as [|[who path] calls IH]; intros Hqs st Hcached;
    [exact Hcached|].
  simpl.
  pose proof (load_keeps_cached w k r others who path st Hsize
                (Hqs (who, path) (or_introl eq_refl)) Hcached) as Hstep.
  destruct (TaxonomyParser.load_schema_as w who path st) as [o st1]. simpl in Hstep.
  assert (Hrest : forall q', In q' calls -> q' = k \/ In q' others).
  { intros q' Hin. apply Hqs. now right. }
  specialize (IH Hrest st1 Hstep).
  destruct (TaxonomyParser.load_each w calls st1) as [os st2]. exact IH.
Qed.

Lemma loaded_is_cached (w : World) (path : string) (st st1 : TaxonomyParser.state)
    (r : Resource) (others : list TaxonomyParser.key) :
  TaxonomyParser._load_schema w path st = (Ok r, st1) ->
  cached_behind (TaxonomyParser.Self, path) r others st1.
Proof.
  unfold TaxonomyParser._load_schema, TaxonomyParser.load_schema_as.
  destruct (TaxonomyParser.cache_find (TaxonomyParser.Self, path) (TaxonomyParser.cache st))
    as [r0|].
  - intros H. inversion H; subst. simpl.
    exists [], (TaxonomyParser.cache_remove (TaxonomyParser.Self, path)
                  (TaxonomyParser.cache st)).
    split; [reflexivity|]. split; [constructor|]. split; [intros x []|]. tauto.
  - destruct (read_schema w path) as [contents|]; [|discriminate].
    intros H. inversion H; subst.
    exists [], (firstn 127 (TaxonomyParser.cache st)).
    split; [reflexivity|]. split; [constructor|]. split; [intros x []|]. tauto.
Qed.

(** C7 (amended).  Once [_load_schema] has returned the resource of a schema
    document to a parser, loading the same document again on the same parser
    returns that very resource (same object, same contents) without reading
    the file, and changes nothing but the order of the cache.  This holds
    after any sequence of other loads, on this parser or on other parser
    objects, that involves fewer than 128 other keys, a key being a parser
    object with a path: 128 is the number of results that the one cache of
    all parser objects keeps. *)
Theorem cached_schema_is_reused (w : World) (path : string) (st st1 : TaxonomyParser.state)
    (r : Resource) (between : list TaxonomyParser.key) :
  TaxonomyParser._load_schema w path st = (Ok r, st1) ->
  List.length (nodup key_dec (remove key_dec (TaxonomyParser.Self, path) between))
  < TaxonomyParser.maxsize ->
  let st2 := snd (TaxonomyParser.load_each w between st1) in
  let again := TaxonomyParser._load_schema w path st2 in
  fst again = Ok r
  /\ TaxonomyParser.trace (snd again) = TaxonomyParser.trace st2
  /\ TaxonomyParser.created (snd again) = TaxonomyParser.created st2
  /\ TaxonomyParser.yq_available (snd again) = TaxonomyParser.yq_available st2.
Proof.
  intros Hload Hsize st2 again.
  set (k := (TaxonomyParser.Self, path)) in *.
  set (others := nodup key_dec (remove key_dec k between)) in *.
  assert (Hcached : cached_behind k r others st2).
  { apply load_each_keeps_cached; [exact Hsize| |].
    - intros q Hq. destruct (key_dec q k) as [Heq|Hne]; [now left|].
      right. apply nodup_In. now apply in_in_remove.
    - now apply (loaded_is_cached w path st st1 r others). }
  apply cached_behind_found in Hcached.
  unfold again, TaxonomyParser._load_schema, TaxonomyParser.load_schema_as.
  fold k. rewrite Hcached.
  repeat split.
Qed.

Lemma cached_schema_witness :
  let path := "v1/compositional_skills.json" in
  let between :=
    [(TaxonomyParser.Self, "v2/compositional_skills.json");
     (TaxonomyParser.Other 1, path);
     (TaxonomyParser.Self, "v9/knowledge.json");
     (TaxonomyParser.Self, path);
     (TaxonomyParser.Other 2, "v2/version.json")] in
  let st2 :=
    snd (TaxonomyParser.load_each Example.world ((TaxonomyParser.Self, path) :: between)
           TaxonomyParser.initial_state) in
  let again := TaxonomyParser._load_schema Example.world path st2 in
  fst again = Ok {| rid := 0; contents := JObject [("title", JString "skill v1")] |}
  /\ TaxonomyParser.trace (snd again) = TaxonomyParser.trace st2
  /\ TaxonomyParser.created (snd again) = TaxonomyParser.created st2
  /\ TaxonomyParser.yq_available (snd again) = TaxonomyParser.yq_available st2.
Proof.
  exact (cached_schema_is_reused Example.world "v1/compositional_skills.json"
           TaxonomyParser.initial_state _ _
           [(TaxonomyParser.Self, "v2/compositional_skills.json");
            (TaxonomyParser.Other 1, "v1/compositional_skills.json");
            (TaxonomyParser.Self, "v9/knowledge.json");
            (TaxonomyParser.Self, "v1/compositional_skills.json");
            (TaxonomyParser.Other 2, "v2/version.json")]
           eq_refl ltac:(vm_compute; lia)).
Defined.

(** C7, as stated, fails in three ways.  A schema document that cannot be
    read is not cached: the second load reads the file again, and raises
    again.  The cache keeps 128 results: after 128 other documents were
    loaded, the first one is read again and comes back as another resource.
    And the cache tells the parser objects apart: a document that one parser
    has loaded is read again, and comes back as another resource, when
    another parser loads it. *)
Example schema_is_read_again :
  TaxonomyParser.load_each Example.world
    (own_calls ["v9/knowledge.json"; "v9/knowledge.json"])
    TaxonomyParser.initial_state
  = ([Raise (NoSuchResource "v9/knowledge.json"); Raise (NoSuchResource "v9/knowledge.json")],
     {| TaxonomyParser.cache := []; TaxonomyParser.created := 0;
        TaxonomyParser.yq_available := true;
        TaxonomyParser.trace := [ReadSchema "v9/knowledge.json"; ReadSchema "v9/knowledge.json"] |})
  /\ (let run :=
        TaxonomyParser.load_each Example.library
          (own_calls ("v1/knowledge.json" :: Example.many_schemas ++ ["v1/knowledge.json"]))%list
          TaxonomyParser.initial_state in
      hd (Raise KeyError) (fst run)
      = Ok {| rid := 0; contents := JString "v1/knowledge.json" |}
      /\ last (fst run) (Raise KeyError)
         = Ok {| rid := 129; contents := JString "v1/knowledge.json" |}
      /\ List.length (fst run) = 130
      /\ List.length (TaxonomyParser.trace (snd run)) = 130)
  /\ (let run :=
        TaxonomyParser.load_each Example.library
          [(TaxonomyParser.Self, "v1/knowledge.json");
           (TaxonomyParser.Other 1, "v1/knowledge.json")]
          TaxonomyParser.initial_state in
      fst run = [Ok {| rid := 0; contents := JString "v1/knowledge.json" |};
                 Ok {| rid := 1; contents := JString "v1/knowledge.json" |}]
      /\ TaxonomyParser.trace (snd run)
         = [ReadSchema "v1/knowledge.json"; ReadSchema "v1/knowledge.json"]).
Proof. split; [reflexivity | split; [vm_compute; repeat split | split; reflexivity]]. Qed.

(** * Further properties *)

(** ** The entry that [parse] creates *)

Lemma strip_prefix_spec (prefix p rest : Path) :
  strip_prefix prefix p = Some rest <-> p = (prefix ++ rest)%list.
Proof.
  revert p. induction prefix as [|a prefix IH]; intros p; simpl.
  - split; [intros H; now inversion H | intros ->; reflexivity].
  - destruct p as [|b p]; [split; discriminate|].
    destruct (String.eqb a b) eqn:Hab.
    + apply String.eqb_eq in Hab. subst b. rewrite IH.
      split; [intros ->; reflexivity | intros H; now inversion H].
    + apply String.eqb_neq in Hab. split; [discriminate|].
      intros H. injection H as H1 H2. congruence.
Qed.

Lemma find_folder_some (folders : list string) (parts p : Path) :
  TaxonomyParser.find_folder folders parts = Some p ->
  exists before folder rest,
    parts = (before ++ folder :: rest)%list /\ p = folder :: rest
    /\ In folder folders /\ (forall x, In x rest -> ~ In x folders).
Proof.
  revert p. induction parts as [|part parts IH]; simpl; intros p H; [discriminate|].
  destruct (TaxonomyParser.find_folder folders parts) as [q|] eqn:Hrest.
  - inversion H; subst q.
    destruct (IH p eq_refl) as [before [folder [rest [Hp [Hq [Hin Hnone]]]]]].
    exists (part :: before), folder, rest. rewrite Hp. repeat split; assumption.
  - destruct (Py.mem part folders) eqn:Hmem; [|discriminate].
    inversion H; subst p. exists [], part, parts.
    split; [reflexivity|]. split; [reflexivity|]. split; [now apply mem_In|].
    clear H IH Hmem. induction parts as [|y parts IH]; [intros x []|].
    simpl in Hrest.
    destruct (TaxonomyParser.find_folder folders parts); [discriminate|].
    destruct (Py.mem y folders) eqn:Hy; [discriminate|].
    intros x [<-|Hx] Hin; [|now apply (IH eq_refl x)].
    apply mem_In in Hin. congruence.
Qed.

Lemma find_folder_none (folders : list string) (parts : Path) :
  TaxonomyParser.find_folder folders parts = None ->
  forall x, In x parts -> ~ In x folders.
Proof.
  induction parts as [|y parts IH]; [intros _ x []|]. simpl.
  destruct (TaxonomyParser.find_folder folders parts); [discriminate|].
  destruct (Py.mem y folders) eqn:Hy; [discriminate|].
  intros _ x [<-|Hx] Hin; [|now apply (IH eq_refl x)].
  apply mem_In in Hin. congruence.
Qed.

(** The ways in which [parse] ends: an early exit with one error or one
    warning on the entry it created, [TaxonomyReadingException], or lint and
    validation of a non-empty mapping under the resolved version. *)
Lemma parse_cases (w : World) (self : TaxonomyParser.t) (abs_path : Path)
    (st : TaxonomyParser.state) :
  let created := TaxonomyParser.new_taxonomy w self abs_path in
  (exists ev message args,
     (Taxonomy.error w created message args "1" "1" EmptyString
      = (Ok ev, Taxonomy.add_error created)
      /\ TaxonomyParser.parse w self abs_path st
         = (Ok (Taxonomy.add_error created), TaxonomyParser.record ev st))
     \/ (Taxonomy.warning w created message args "1" "1" EmptyString
         = (Ok ev, Taxonomy.add_warning created)
         /\ TaxonomyParser.parse w self abs_path st
            = (Ok (Taxonomy.add_warning created), TaxonomyParser.record ev st)))
  \/ TaxonomyParser.parse w self abs_path st = (Raise TaxonomyReadingException, st)
  \/ (exists content parsed version,
        isfile w abs_path = true /\ path_name abs_path = "qna.yaml"
        /\ read_text w abs_path = Some content
        /\ safe_load w content = Some (YMap parsed) /\ parsed <> []
        /\ TaxonomyParser.resolve_version self parsed = Ok version
        /\ TaxonomyParser.parse w self abs_path st
           = TaxonomyParser.wrapped
               (TaxonomyParser.lint_and_validate w self content
                  (Taxonomy.set_parsed created version parsed) st)).
Proof.
  intros created.
  destruct (isfile w abs_path) eqn:Hf.
  2:{ left. destruct (parse_not_a_file w self abs_path st Hf) as [ev [Hev H]].
      exists ev. eexists. eexists. left. split; [exact Hev | exact H]. }
  destruct (String.eqb (path_name abs_path) "qna.yaml") eqn:Hn.
  2:{ left. apply String.eqb_neq in Hn.
      destruct (parse_wrong_name w self abs_path st Hf Hn) as [ev [Hev H]].
      exists ev. eexists. eexists. left. split; [exact Hev | exact H]. }
  apply String.eqb_eq in Hn.
  destruct (read_text w abs_path) as [content|] eqn:Hr.
  2:{ right. left. unfold TaxonomyParser.parse. now rewrite Hf, Hn, Hr. }
  destruct (safe_load w content) as [v|] eqn:Hl.
  2:{ right. left. unfold TaxonomyParser.parse. now rewrite Hf, Hn, Hr, Hl. }
  destruct (truthy v) eqn:Ht.
  2:{ left. destruct (parse_empty w self abs_path st content v Hf Hn Hr Hl Ht) as [ev [Hev H]].
      exists ev. eexists. eexists. right. split; [exact Hev | exact H]. }
  assert (Hmap : (exists parsed, v = YMap parsed) \/ forall items, v <> YMap items).
  { destruct v; try (right; discriminate). left. now exists items. }
  destruct Hmap as [[parsed ->]|Hm].
  - assert (Hne : parsed <> []) by (destruct parsed; [discriminate Ht | discriminate]).
    pose proof (parse_mapping w self abs_path st content parsed Hf Hn Hr Hl Hne) as Hp.
    destruct (TaxonomyParser.resolve_version self parsed) as [version|x] eqn:Hv.
    + right. right. exists content, parsed, version. repeat split; assumption.
    + right. left. exact Hp.
  - left.
    destruct (parse_not_a_mapping w self abs_path st content v Hf Hn Hr Hl Ht Hm)
      as [ev [Hev H]].
    exists ev. eexists. eexists. left. split; [exact Hev | exact H].
Qed.

(** An entry that [parse] returns is the one it created, up to the
    counters and to [parsed] and [version]. *)
Lemma parse_returned_entry (w : World) (self : TaxonomyParser.t) (abs_path : Path)
    (st : TaxonomyParser.state) (taxonomy : Taxonomy.t) (st' : TaxonomyParser.state) :
  TaxonomyParser.parse w self abs_path st = (Ok taxonomy, st') ->
  let created := TaxonomyParser.new_taxonomy w self abs_path in
  Taxonomy.path taxonomy = Taxonomy.path created
  /\ Taxonomy.rel_path taxonomy = Taxonomy.rel_path created
  /\ Taxonomy.message_format taxonomy = Taxonomy.message_format created.
Proof.
  intros Hparse created.
  destruct (parse_cases w self abs_path st)
    as [[ev [m [a [[_ H]|[_ H]]]]]|[H|[content [parsed [version [_ [_ [_ [_ [_ [_ H]]]]]]]]]]];
    fold created in H; rewrite H in Hparse.
  - inversion Hparse; subst. repeat split.
  - inversion Hparse; subst. repeat split.
  - discriminate.
  - apply (proj1 (wrapped_returned _ _ _)) in Hparse.
    apply lint_and_validate_document in Hparse.
    destruct Hparse as [Hp [Hr [Hm _]]]. repeat split; assumption.
Qed.

(** X1.  The message format of an entry is never AUTO: [Taxonomy.__init__]
    resolves AUTO to GITHUB when both GITHUB_ACTIONS and GITHUB_WORKFLOW are
    set in the environment and to STANDARD otherwise, and keeps any other
    format; the entry that [parse] returns has the format so resolved. *)
Theorem entry_format_is_resolved (w : World) (self : TaxonomyParser.t) (abs_path : Path)
    (st : TaxonomyParser.state) :
  let format := Taxonomy.message_format (TaxonomyParser.new_taxonomy w self abs_path) in
  let in_ci := In "GITHUB_ACTIONS" (environ w) /\ In "GITHUB_WORKFLOW" (environ w) in
  (format = GITHUB <->
   TaxonomyParser.message_format self = GITHUB
   \/ (TaxonomyParser.message_format self = AUTO /\ in_ci))
  /\ (format = STANDARD <->
      TaxonomyParser.message_format self = STANDARD
      \/ (TaxonomyParser.message_format self = AUTO /\ ~ in_ci))
  /\ (format = LOGGING <-> TaxonomyParser.message_format self = LOGGING)
  /\ (format = AUTO -> False)
  /\ (forall taxonomy st',
        TaxonomyParser.parse w self abs_path st = (Ok taxonomy, st') ->
        Taxonomy.message_format taxonomy = format).
Proof.
  intros format in_ci.
  assert (Hformat : format =
            match TaxonomyParser.message_format self with
            | AUTO =>
                if Py.mem "GITHUB_ACTIONS" (environ w) && Py.mem "GITHUB_WORKFLOW" (environ w)
                then GITHUB else STANDARD
            | f => f
            end).
  { unfold format, TaxonomyParser.new_taxonomy.
    destruct (TaxonomyParser.find_folder (TaxonomyParser.taxonomy_folders self) abs_path);
      simpl; destruct (TaxonomyParser.message_format self); reflexivity. }
  assert (Hci : Py.mem "GITHUB_ACTIONS" (environ w) && Py.mem "GITHUB_WORKFLOW" (environ w)
                = true <-> in_ci).
  { unfold in_ci. rewrite andb_true_iff, !mem_In. reflexivity. }
  split; [|split; [|split; [|split]]].
  - rewrite Hformat. destruct (TaxonomyParser.message_format self);
      try (split; [discriminate | intros [H|[H _]]; discriminate]).
    + destruct (Py.mem "GITHUB_ACTIONS" (environ w) && Py.mem "GITHUB_WORKFLOW" (environ w)).
      * split; [intros _; right; split; [reflexivity | now apply Hci] | reflexivity].
      * split; [discriminate|]. intros [H|[_ H]]; [discriminate|].
        apply Hci in H. discriminate.
    + split; [intros _; now left | reflexivity].
  - rewrite Hformat. destruct (TaxonomyParser.message_format self);
      try (split; [discriminate | intros [H|[H _]]; discriminate]).
    + destruct (Py.mem "GITHUB_ACTIONS" (environ w) && Py.mem "GITHUB_WORKFLOW" (environ w)).
      * split; [discriminate|]. intros [H|[_ H]]; [discriminate|].
        exfalso. apply H. now apply Hci.
      * split; [|reflexivity]. intros _. right. split; [reflexivity|].
        intros H. apply Hci in H. discriminate.
    + split; [intros _; now left | reflexivity].
  - rewrite Hformat. destruct (TaxonomyParser.message_format self);
      try (split; [discriminate | discriminate]); [|split; reflexivity].
    destruct (Py.mem "GITHUB_ACTIONS" (environ w) && Py.mem "GITHUB_WORKFLOW" (environ w));
      split; discriminate.
  - rewrite Hformat. destruct (TaxonomyParser.message_format self); try discriminate.
    destruct (Py.mem "GITHUB_ACTIONS" (environ w) && Py.mem "GITHUB_WORKFLOW" (environ w));
      discriminate.
  - intros taxonomy st' H. apply parse_returned_entry in H. apply H.
Qed.

(** X2.  The [rel_path] of an entry is the path relative to the current
    directory when the file lies under it, and the absolute path otherwise;
    [parse] returns the entry with that [rel_path]. *)
Theorem entry_rel_path (w : World) (self : TaxonomyParser.t) (abs_path : Path)
    (st : TaxonomyParser.state) :
  let rel := Taxonomy.rel_path (TaxonomyParser.new_taxonomy w self abs_path) in
  ((exists r, abs_path = (cwd w ++ r)%list) -> abs_path = (cwd w ++ rel)%list)
  /\ ((forall r, abs_path <> (cwd w ++ r)%list) -> rel = abs_path)
  /\ (forall taxonomy st',
        TaxonomyParser.parse w self abs_path st = (Ok taxonomy, st') ->
        Taxonomy.rel_path taxonomy = rel).
Proof.
  intros rel.
  assert (Hrel : rel = match strip_prefix (cwd w) abs_path with
                       | Some r => r
                       | None => abs_path
                       end).
  { unfold rel, TaxonomyParser.new_taxonomy.
    destruct (TaxonomyParser.find_folder (TaxonomyParser.taxonomy_folders self) abs_path);
      reflexivity. }
  split; [|split].
  - intros [r Hr]. rewrite Hrel.
    rewrite (proj2 (strip_prefix_spec (cwd w) abs_path r) Hr). exact Hr.
  - intros Hnot. rewrite Hrel.
    destruct (strip_prefix (cwd w) abs_path) as [r|] eqn:Hs; [|reflexivity].
    apply strip_prefix_spec in Hs. exfalso. now apply (Hnot r).
  - intros taxonomy st' H. apply parse_returned_entry in H. apply H.
Qed.

(** X3.  The [path] of an entry starts at the last component of the absolute
    path that is a taxonomy folder, and is the whole absolute path when no
    component is one; [parse] returns the entry with that [path]. *)
Theorem entry_path_is_anchored (w : World) (self : TaxonomyParser.t) (abs_path : Path)
    (st : TaxonomyParser.state) :
  let folders := TaxonomyParser.taxonomy_folders self in
  let anchored := Taxonomy.path (TaxonomyParser.new_taxonomy w self abs_path) in
  ((exists x, In x abs_path /\ In x folders) ->
   exists before folder rest,
     abs_path = (before ++ folder :: rest)%list /\ anchored = folder :: rest
     /\ In folder folders /\ (forall x, In x rest -> ~ In x folders))
  /\ ((forall x, In x abs_path -> ~ In x folders) -> anchored = abs_path)
  /\ (forall taxonomy st',
        TaxonomyParser.parse w self abs_path st = (Ok taxonomy, st') ->
        Taxonomy.path taxonomy = anchored).
Proof.
  intros folders anchored.
  assert (Hanchored : anchored = match TaxonomyParser.find_folder folders abs_path with
                                 | Some p => p
                                 | None => abs_path
                                 end).
  { unfold anchored, TaxonomyParser.new_taxonomy. fold folders.
    destruct (TaxonomyParser.find_folder folders abs_path); reflexivity. }
  split; [|split].
  - intros [x [Hx Hf]]. rewrite Hanchored.
    destruct (TaxonomyParser.find_folder folders abs_path) as [p|] eqn:Hfind.
    + destruct (find_folder_some folders abs_path p Hfind)
        as [before [folder [rest [H1 [H2 [H3 H4]]]]]].
      exists before, folder, rest. repeat split; assumption.
    + exfalso. now apply (find_folder_none folders abs_path Hfind x).
  - intros Hnone. rewrite Hanchored.
    destruct (TaxonomyParser.find_folder folders abs_path) as [p|] eqn:Hfind; [|reflexivity].
    destruct (find_folder_some folders abs_path p Hfind)
      as [before [folder [rest [H1 [_ [H3 _]]]]]].
    exfalso. apply (Hnone folder); [|exact H3].
    rewrite H1. apply in_or_app. right. now left.
  - intros taxonomy st' H. apply parse_returned_entry in H. apply H.
Qed.

(** ** Lint *)

Lemma lint_counts_strict (self : TaxonomyParser.t) (lines : list string) :
  TaxonomyParser.yamllint_strict self = true ->
  lint_errors self lines = lint_matches lines /\ lint_warnings self lines = 0.
Proof.
  intros Hs. unfold lint_errors, lint_warnings, lint_matches. rewrite Hs.
  induction lines as [|l lines IH]; [split; reflexivity|]. simpl in *.
  destruct (TaxonomyParser.pattern_match l) as [[[[a b] c] d]|]; simpl; [|exact IH].
  destruct IH as [IHe IHw]. split; [now f_equal | exact IHw].
Qed.

Lemma lint_counts_by_severity (self : TaxonomyParser.t) (lines : list string) :
  TaxonomyParser.yamllint_strict self = false ->
  lint_errors self lines = List.length (filter is_error_line lines)
  /\ lint_warnings self lines = List.length (filter is_other_line lines).
Proof.
  intros Hs. unfold lint_errors, lint_warnings. rewrite Hs.
  induction lines as [|l lines IH]; [split; reflexivity|]. simpl in *.
  unfold is_error_line at 1, is_other_line at 1, severity_of.
  destruct (TaxonomyParser.pattern_match l) as [[[[a b] c] d]|]; [|exact IH].
  destruct IH as [IHe IHw]. destruct (String.eqb c "error"); simpl; split; congruence.
Qed.

Lemma lint_counts_total (self : TaxonomyParser.t) (lines : list string) :
  lint_errors self lines + lint_warnings self lines = lint_matches lines.
Proof.
  unfold lint_errors, lint_warnings, lint_matches.
  induction lines as [|l lines IH]; [reflexivity|]. simpl.
  destruct (TaxonomyParser.pattern_match l) as [[[[a b] c] d]|]; simpl; [|exact IH].
  destruct (TaxonomyParser.yamllint_strict self || String.eqb c "error"); simpl; lia.
Qed.

(** X4.  What [_yamllint] does with the two outcomes of starting yamllint
    that it provides for.  When the start raises [FileNotFoundError],
    [_yamllint] returns, having left the entry as it is and logged one
    warning.  When yamllint has run, [_yamllint] returns, every output line
    that matches the pattern is counted once and the other lines are
    ignored; in strict mode every finding is an error, and without it the
    findings of severity "error" are errors and all others are warnings.
    (A start that raises another exception is passed on by [_yamllint]; no
    world describes it, and nothing is said about it here.) *)
Theorem lint_findings_are_counted (w : World) (self : TaxonomyParser.t) (content : string)
    (taxonomy : Taxonomy.t) (st : TaxonomyParser.state) :
  let config := TaxonomyParser.yamllint_config self in
  (run_yamllint w config content = None ->
   exists st',
     TaxonomyParser._yamllint w self content taxonomy st = (Ok tt, taxonomy, st')
     /\ TaxonomyParser.trace st'
        = (TaxonomyParser.trace st
             ++ [RunYamllint config content;
                 Log Warning "could not run yamllint command" []])%list)
  /\ (forall lines,
        run_yamllint w config content = Some lines ->
        exists taxonomy' st',
          TaxonomyParser._yamllint w self content taxonomy st = (Ok tt, taxonomy', st')
          /\ Taxonomy.errors taxonomy' + Taxonomy.warnings taxonomy'
             = Taxonomy.errors taxonomy + Taxonomy.warnings taxonomy + lint_matches lines
          /\ (TaxonomyParser.yamllint_strict self = true ->
              Taxonomy.errors taxonomy' = Taxonomy.errors taxonomy + lint_matches lines
              /\ Taxonomy.warnings taxonomy' = Taxonomy.warnings taxonomy)
          /\ (TaxonomyParser.yamllint_strict self = false ->
              Taxonomy.errors taxonomy'
              = Taxonomy.errors taxonomy + List.length (filter is_error_line lines)
              /\ Taxonomy.warnings taxonomy'
                 = Taxonomy.warnings taxonomy + List.length (filter is_other_line lines))).
Proof.
  intros config. unfold TaxonomyParser._yamllint. fold config. split.
  - intros Hrun. rewrite Hrun. eexists. split; [reflexivity|].
    simpl. now rewrite <- app_assoc.
  - intros lines Hrun. rewrite Hrun.
    destruct (lint_lines_spec w self lines taxonomy
                (TaxonomyParser.record (RunYamllint config content) st))
      as [t' [st' [H [_ [He [Hw _]]]]]].
    exists t', st'. split; [exact H|]. rewrite He, Hw.
    pose proof (lint_counts_total self lines) as Htotal.
    split; [lia|]. split; intros Hs.
    + destruct (lint_counts_strict self lines Hs) as [-> ->]. lia.
    + destruct (lint_counts_by_severity self lines Hs) as [-> ->]. split; reflexivity.
Qed.

(** ** The pattern of [_yamllint] *)

Lemma split_at_app (c : ascii) (a b : string) :
  has_char c a = false ->
  TaxonomyParser.split_at c (a ++ String c b) = Some (a, b).
Proof.
  induction a as [|x a IH]; simpl; intros H.
  - now rewrite Ascii.eqb_refl.
  - apply orb_false_iff in H. destruct H as [Hx Ha]. rewrite Hx, (IH Ha). reflexivity.
Qed.

Lemma split_at_some (c : ascii) (s a b : string) :
  TaxonomyParser.split_at c s = Some (a, b) ->
  s = a ++ String c b /\ has_char c a = false.
Proof.
  revert a. induction s as [|x s IH]; simpl; intros a H; [discriminate|].
  destruct (Ascii.eqb x c) eqn:Hx.
  - apply Ascii.eqb_eq in Hx. inversion H; subst. split; reflexivity.
  - destruct (TaxonomyParser.split_at c s) as [[a' b']|]; [|discriminate].
    inversion H; subst. destruct (IH a' eq_refl) as [-> Ha].
    split; [reflexivity|]. simpl. now rewrite Hx.
Qed.

Lemma field_app (c : ascii) (a b : string) :
  nonempty a = true -> has_char c a = false ->
  TaxonomyParser.field c (a ++ String c b) = Some (a, b).
Proof.
  intros Hn Hc. unfold TaxonomyParser.field. now rewrite (split_at_app c a b Hc), Hn.
Qed.

Lemma field_some (c : ascii) (s a b : string) :
  TaxonomyParser.field c s = Some (a, b) ->
  s = a ++ String c b /\ has_char c a = false /\ nonempty a = true.
Proof.
  unfold TaxonomyParser.field.
  destruct (TaxonomyParser.split_at c s) as [[a' b']|] eqn:Hs; [|discriminate].
  destruct (nonempty a') eqn:Hn; [|discriminate].
  intros H. inversion H; subst. apply split_at_some in Hs.
  destruct Hs as [Hs Hc]. repeat split; assumption.
Qed.

Lemma rest_of_line_whole (s : string) :
  has_char newline s = false -> TaxonomyParser.rest_of_line s = s.
Proof.
  induction s as [|x s IH]; simpl; intros H; [reflexivity|].
  apply orb_false_iff in H. destruct H as [Hx Hs].
  unfold newline in Hx. rewrite Hx, (IH Hs). reflexivity.
Qed.

Lemma rest_of_line_no_newline (s : string) :
  has_char newline (TaxonomyParser.rest_of_line s) = false.
Proof.
  induction s as [|x s IH]; simpl; [reflexivity|].
  destruct (Ascii.eqb x (ascii_of_nat 10)) eqn:Hx; [reflexivity|].
  simpl. unfold newline at 1. now rewrite Hx, IH.
Qed.

(** X5.  A line in the parsable format of yamllint,
    [file:line:col: [severity] message], is matched, and the groups are the
    line, the column, the severity and the message as they stand: provided
    that file, line and column are non-empty and hold no colon, the severity
    is non-empty and holds no closing bracket, and the message does not start
    with white space and holds no newline. *)
Theorem pattern_match_finding (file line col severity message : string) :
  nonempty file = true -> has_char ":" file = false ->
  nonempty line = true -> has_char ":" line = false ->
  nonempty col = true -> has_char ":" col = false ->
  nonempty severity = true -> has_char "]" severity = false ->
  Py.lstrip message = message -> has_char newline message = false ->
  TaxonomyParser.pattern_match
    (file ++ ":" ++ line ++ ":" ++ col ++ ": [" ++ severity ++ "] " ++ message)
  = Some (line, col, severity, message).
Proof.
  intros Hf1 Hf2 Hl1 Hl2 Hc1 Hc2 Hs1 Hs2 Hm1 Hm2.
  unfold TaxonomyParser.pattern_match.
  change (file ++ ":" ++ line ++ ":" ++ col ++ ": [" ++ severity ++ "] " ++ message)
    with (file ++ String ":" (line ++ String ":" (col ++ String ":"
            (String " " (String "[" (severity ++ String "]" (String " " message))))))).
  rewrite (field_app ":" file _ Hf1 Hf2), (field_app ":" line _ Hl1 Hl2),
    (field_app ":" col _ Hc1 Hc2).
  change (Py.lstrip (String " " (String "[" (severity ++ String "]" (String " " message)))))
    with (String "[" (severity ++ String "]" (String " " message))).
  change (Ascii.eqb "[" "[") with true. cbv iota.
  rewrite (field_app "]" severity _ Hs1 Hs2).
  change (Py.lstrip (String " " message)) with (Py.lstrip message).
  now rewrite Hm1, (rest_of_line_whole message Hm2).
Qed.

Lemma pattern_match_finding_witness :
  TaxonomyParser.pattern_match
    "stdin:3:121: [warning] line too long (130 > 120 characters) (line-length)"
  = Some ("3", "121", "warning", "line too long (130 > 120 characters) (line-length)").
Proof.
  exact (pattern_match_finding "stdin" "3" "121" "warning"
           "line too long (130 > 120 characters) (line-length)"
           eq_refl eq_refl eq_refl eq_refl eq_refl eq_refl eq_refl eq_refl eq_refl eq_refl).
Defined.

(** X6.  What the pattern extracts from an output line of yamllint: the line
    starts with a non-empty field without colon, then come the line and the
    column, each non-empty and without colon, each followed by a colon; the
    severity is non-empty and holds no closing bracket; the message holds no
    newline. *)
Theorem pattern_match_groups (text line col severity message : string) :
  TaxonomyParser.pattern_match text = Some (line, col, severity, message) ->
  (exists file rest,
     text = file ++ ":" ++ line ++ ":" ++ col ++ ":" ++ rest
     /\ nonempty file = true /\ has_char ":" file = false
     /\ exists after, Py.lstrip rest = "[" ++ severity ++ "]" ++ after
                      /\ message = TaxonomyParser.rest_of_line (Py.lstrip after))
  /\ nonempty line = true /\ has_char ":" line = false
  /\ nonempty col = true /\ has_char ":" col = false
  /\ nonempty severity = true /\ has_char "]" severity = false
  /\ has_char newline message = false.
Proof.
  unfold TaxonomyParser.pattern_match.
  destruct (TaxonomyParser.field ":" text) as [[file r1]|] eqn:H1; [|discriminate].
  destruct (TaxonomyParser.field ":" r1) as [[l r2]|] eqn:H2; [|discriminate].
  destruct (TaxonomyParser.field ":" r2) as [[c r3]|] eqn:H3; [|discriminate].
  destruct (Py.lstrip r3) as [|bracket r4] eqn:H4; [discriminate|].
  destruct (Ascii.eqb bracket "[") eqn:Hb; [|discriminate].
  destruct (TaxonomyParser.field "]" r4) as [[s r5]|] eqn:H5; [|discriminate].
  intros H. inversion H; subst. apply Ascii.eqb_eq in Hb. subst bracket.
  apply field_some in H1, H2, H3, H5.
  destruct H1 as [-> [Hf2 Hf1]]. destruct H2 as [-> [Hl2 Hl1]].
  destruct H3 as [-> [Hc2 Hc1]]. destruct H5 as [-> [Hs2 Hs1]].
  split; [|repeat split; try assumption; apply rest_of_line_no_newline].
  exists file, r3. split; [reflexivity|]. split; [exact Hf1|]. split; [exact Hf2|].
  exists r5. split; [exact H4 | reflexivity].
Qed.

Lemma pattern_match_groups_witness :
  nonempty "7" = true /\ has_char ":" "7" = false
  /\ nonempty "1" = true /\ has_char ":" "1" = false
  /\ nonempty "error" = true /\ has_char "]" "error" = false
  /\ has_char newline "syntax error: mapping values are not allowed here" = false.
Proof.
  exact (proj2 (pattern_match_groups
                  "stdin:7:1: [error] syntax error: mapping values are not allowed here"
                  "7" "1" "error" "syntax error: mapping values are not allowed here"
                  eq_refl)).
Defined.

(** ** What [parse] raises *)




(** ** Counting the violations *)

Lemma load_schema_document (w : World) (path : string) (st : TaxonomyParser.state)
    (c : json) :
  schema_document w path st = Some c ->
  exists r st1,
    TaxonomyParser._load_schema w path st = (Ok r, st1) /\ contents r = c.
Proof.
  unfold schema_document, TaxonomyParser._load_schema, TaxonomyParser.load_schema_as.
  destruct (TaxonomyParser.cache_find (TaxonomyParser.Self, path) (TaxonomyParser.cache st)) as [r|].
  - intros H. inversion H. eexists. eexists. split; reflexivity.
  - intros H. cbn [TaxonomyParser.cache TaxonomyParser.record]. rewrite H.
    eexists. eexists. split; reflexivity.
Qed.

Lemma load_schema_readable (w : World) (path : string) (st : TaxonomyParser.state) :
  read_schema w path <> None ->
  exists r st1, TaxonomyParser._load_schema w path st = (Ok r, st1).
Proof.
  intros H. unfold TaxonomyParser._load_schema, TaxonomyParser.load_schema_as.
  destruct (TaxonomyParser.cache_find (TaxonomyParser.Self, path) (TaxonomyParser.cache st)) as [r|].
  - eexists. eexists. reflexivity.
  - destruct (read_schema w path); [|contradiction]. eexists. eexists. reflexivity.
Qed.

(** When no step of the engine fails, the loop of [_schema_validate] returns
    and has counted one error for each error that the engine yielded. *)
Lemma validation_loop_counts (w : World) (self : TaxonomyParser.t)
    (version_base content : string) (steps : list engine_step) :
  forallb (step_ok w version_base) steps = true ->
  forall taxonomy st,
  exists taxonomy' st',
    TaxonomyParser.validation_loop w self version_base content steps taxonomy st
    = (Ok tt, taxonomy', st')
    /\ Taxonomy.errors taxonomy' = Taxonomy.errors taxonomy + yields steps.
Proof.
  unfold yields.
  induction steps as [|step steps IH]; intros Hok taxonomy st.
  - exists taxonomy, st. simpl. split; [reflexivity | lia].
  - simpl in Hok. apply andb_prop in Hok. destruct Hok as [Hstep Hok].
    destruct step as [e|ref|]; simpl.
    + destruct (report_validation_error_spec w self content e taxonomy st)
        as [line [st1 [ev [Hrun _]]]].
      rewrite Hrun.
      destruct (IH Hok (Taxonomy.add_error taxonomy) (TaxonomyParser.record ev st1))
        as [t' [st' [H He]]].
      exists t', st'. split; [exact H|]. rewrite He. simpl. lia.
    + unfold TaxonomyParser._retrieve.
      destruct (load_schema_readable w (version_base ++ "/" ++ ref) st) as [r [st1 Hl]].
      { unfold step_ok in Hstep.
        destruct (read_schema w (version_base ++ "/" ++ ref)); [discriminate | discriminate Hstep]. }
      rewrite Hl. apply (IH Hok).
    + discriminate.
Qed.

Lemma schema_validate_returns (w : World) (self : TaxonomyParser.t) (content : string)
    (taxonomy : Taxonomy.t) (st : TaxonomyParser.state) (c : json) :
  Taxonomy.path taxonomy <> [] ->
  schema_document w (schema_path self taxonomy) st = Some c ->
  forallb (step_ok w ("v" ++ pyint_str (Taxonomy.version taxonomy)))
    (iter_errors w c ("v" ++ pyint_str (Taxonomy.version taxonomy))
       (Taxonomy.parsed taxonomy)) = true ->
  exists taxonomy' st',
    TaxonomyParser._schema_validate w self content taxonomy st = (Ok tt, taxonomy', st')
    /\ Taxonomy.errors taxonomy'
       = Taxonomy.errors taxonomy
         + yields (iter_errors w c ("v" ++ pyint_str (Taxonomy.version taxonomy))
                     (Taxonomy.parsed taxonomy)).
Proof.
  intros Hne Hdoc Hok.
  destruct (load_schema_document w _ st c Hdoc) as [r [st1 [Hload Hc]]].
  unfold TaxonomyParser._schema_validate, TaxonomyParser._retrieve.
  unfold schema_path in Hload.
  destruct (Taxonomy.path taxonomy) as [|first rest]; [contradiction|].
  simpl hd in Hload. cbv zeta.
  change (("v" ++ pyint_str (Taxonomy.version taxonomy)) ++ "/"
          ++ TaxonomyParser.schema_name self taxonomy first ++ ".json")
    with ("v" ++ pyint_str (Taxonomy.version taxonomy) ++ "/"
          ++ TaxonomyParser.schema_name self taxonomy first ++ ".json").
  rewrite Hload, Hc.
  destruct (validation_loop_counts w self ("v" ++ pyint_str (Taxonomy.version taxonomy))
              content _ Hok taxonomy st1) as [t' [st' [Hloop He]]].
  rewrite Hloop. exists t', st'. split; [reflexivity | exact He].
Qed.

(** X8.  When the schema document of an entry is available (cached, or
    readable) and the engine runs to its end (it does not raise, and every
    schema that it asks for can be read), [_schema_validate] returns, and it
    has reported every violation that the engine yielded as exactly one
    error: it does not stop at the first one, and adds no warning. *)
Theorem every_violation_is_one_error (w : World) (self : TaxonomyParser.t)
    (content : string) (taxonomy : Taxonomy.t) (st : TaxonomyParser.state) (c : json) :
  Taxonomy.path taxonomy <> [] ->
  schema_document w (schema_path self taxonomy) st = Some c ->
  let version_base := "v" ++ pyint_str (Taxonomy.version taxonomy) in
  let steps := iter_errors w c version_base (Taxonomy.parsed taxonomy) in
  forallb (step_ok w version_base) steps = true ->
  exists taxonomy' st',
    TaxonomyParser._schema_validate w self content taxonomy st = (Ok tt, taxonomy', st')
    /\ Taxonomy.errors taxonomy' = Taxonomy.errors taxonomy + yields steps
    /\ Taxonomy.warnings taxonomy' = Taxonomy.warnings taxonomy
    /\ same_document taxonomy taxonomy'.
Proof.
  intros Hne Hdoc version_base steps Hok.
  destruct (schema_validate_returns w self content taxonomy st c Hne Hdoc Hok)
    as [t' [st' [Hrun He]]].
  exists t', st'. split; [exact Hrun|]. split; [exact He|].
  apply schema_validate_frame in Hrun. destruct Hrun as [Hsame [Hw _]].
  split; assumption.
Qed.

Lemma every_violation_witness :
  let taxonomy :=
    Taxonomy.set_parsed
      (TaxonomyParser.new_taxonomy Example.world (Example.parser 0 STANDARD)
         (Example.qna "version_2"))
      (PInt 2) [(YStr "version", YInt 2); (YStr "created_by", YStr "me")] in
  exists taxonomy' st',
    TaxonomyParser._schema_validate Example.world (Example.parser 0 STANDARD) "version_2"
      taxonomy TaxonomyParser.initial_state = (Ok tt, taxonomy', st')
    /\ Taxonomy.errors taxonomy' = 0 + 2
    /\ Taxonomy.warnings taxonomy' = 0
    /\ same_document taxonomy taxonomy'.
Proof.
  exact (every_violation_is_one_error Example.world (Example.parser 0 STANDARD) "version_2"
           (Taxonomy.set_parsed
              (TaxonomyParser.new_taxonomy Example.world (Example.parser 0 STANDARD)
                 (Example.qna "version_2"))
              (PInt 2) [(YStr "version", YInt 2); (YStr "created_by", YStr "me")])
           TaxonomyParser.initial_state (JObject [("title", JString "skill v2")])
           ltac:(discriminate) eq_refl eq_refl).
Defined.

(** X9.  The counters of the entry that [parse] returns for a document are
    exactly the findings: when the document decodes to a non-empty mapping,
    its schema document is available and the engine runs to its end, [parse]
    returns; the errors are the lint findings counted as errors plus the
    violations that the engine yielded, the warnings are the other lint
    findings (lint findings there are only above version 1), and [parsed]
    and [version] are set.  In particular a document without findings comes
    back with no error and no warning. *)
Theorem parse_counts_findings (w : World) (self : TaxonomyParser.t) (abs_path : Path)
    (st : TaxonomyParser.state) (content : string) (parsed : list (yaml * yaml))
    (version : pyint) (c : json) :
  isfile w abs_path = true ->
  path_name abs_path = "qna.yaml" ->
  read_text w abs_path = Some content ->
  safe_load w content = Some (YMap parsed) ->
  parsed <> [] ->
  TaxonomyParser.resolve_version self parsed = Ok version ->
  let document :=
    Taxonomy.set_parsed (TaxonomyParser.new_taxonomy w self abs_path) version parsed in
  schema_document w (schema_path self document) st = Some c ->
  let version_base := "v" ++ pyint_str version in
  let steps := iter_errors w c version_base parsed in
  forallb (step_ok w version_base) steps = true ->
  let lines := lint_stage_lines w self content version in
  exists taxonomy st',
    TaxonomyParser.parse w self abs_path st = (Ok taxonomy, st')
    /\ Taxonomy.errors taxonomy = lint_errors self lines + yields steps
    /\ Taxonomy.warnings taxonomy = lint_warnings self lines
    /\ Taxonomy.parsed taxonomy = parsed
    /\ Taxonomy.version taxonomy = version.
Proof.
  intros Hf Hn Hr Hl Hne Hv document Hdoc version_base steps Hok lines.
  destruct (new_taxonomy_unset w self abs_path) as [He0 [Hw0 _]].
  assert (Hlint : exists linted st1,
            (if (int_value version >? 1)%Z
             then TaxonomyParser._yamllint w self content document st
             else (Ok tt, document, st)) = (Ok tt, linted, st1)
            /\ same_document document linted
            /\ Taxonomy.errors linted = lint_errors self lines
            /\ Taxonomy.warnings linted = lint_warnings self lines
            /\ TaxonomyParser.cache st1 = TaxonomyParser.cache st).
  { unfold lines, lint_stage_lines. destruct (int_value version >? 1)%Z.
    - destruct (yamllint_spec w self content document st)
        as [linted [st1 [Hrun [Hsame [[Hce Hcw] [Hc _]]]]]].
      exists linted, st1. unfold document in Hce, Hcw. simpl in Hce, Hcw.
      rewrite He0 in Hce. rewrite Hw0 in Hcw. repeat split; assumption || apply Hsame.
    - exists document, st. unfold lint_errors, lint_warnings, document. simpl.
      repeat split; assumption. }
  destruct Hlint as [linted [st1 [Hrun [Hsame [Hle [Hlw Hcache]]]]]].
  pose proof Hsame as [Hpath [_ [_ [Hparsed Hversion]]]].
  assert (Hschema : schema_path self linted = schema_path self document).
  { unfold schema_path, TaxonomyParser.schema_name. now rewrite Hpath, Hparsed, Hversion. }
  assert (Hnonempty : Taxonomy.path linted <> []).
  { rewrite Hpath. unfold document. simpl. apply new_taxonomy_path.
    intros ->. discriminate Hn. }
  destruct (schema_validate_returns w self content linted st1 c Hnonempty)
    as [t' [st' [Hval Hcount]]].
  { rewrite Hschema. unfold schema_document in *. now rewrite Hcache. }
  { rewrite Hparsed, Hversion. exact Hok. }
  rewrite Hparsed, Hversion in Hcount. fold version_base steps in Hcount.
  pose proof (schema_validate_frame _ _ _ _ _ _ _ _ Hval) as [Hsame2 [Hw2 _]].
  exists t', st'.
  rewrite (parse_mapping w self abs_path st content parsed Hf Hn Hr Hl Hne), Hv.
  fold document. unfold TaxonomyParser.lint_and_validate.
  change (Taxonomy.version document) with version. rewrite Hrun, Hval.
  split; [reflexivity|]. split; [now rewrite Hcount, Hle|]. split; [now rewrite Hw2|].
  destruct Hsame2 as [_ [_ [_ [Hp2 Hv2]]]].
  split; [now rewrite Hp2, Hparsed | now rewrite Hv2, Hversion].
Qed.

Lemma parse_counts_witness :
  exists taxonomy st',
    TaxonomyParser.parse Example.world (Example.parser 0 STANDARD)
      (Example.qna "version_2") TaxonomyParser.initial_state = (Ok taxonomy, st')
    /\ Taxonomy.errors taxonomy = 1 + 2
    /\ Taxonomy.warnings taxonomy = 1
    /\ Taxonomy.parsed taxonomy = [(YStr "version", YInt 2); (YStr "created_by", YStr "me")]
    /\ Taxonomy.version taxonomy = PInt 2.
Proof.
  exact (parse_counts_findings Example.world (Example.parser 0 STANDARD)
           (Example.qna "version_2") TaxonomyParser.initial_state "version_2"
           [(YStr "version", YInt 2); (YStr "created_by", YStr "me")] (PInt 2)
           (JObject [("title", JString "skill v2")])
           eq_refl eq_refl eq_refl eq_refl ltac:(discriminate) eq_refl eq_refl eq_refl).
Defined.

(** ** What [parse] puts on the trace *)

Lemma adds_refl (P : event -> Prop) (tr : list event) : adds P tr tr.
Proof. exists []. split; [now rewrite app_nil_r | constructor]. Qed.

Lemma adds_trans (P : event -> Prop) (tr1 tr2 tr3 : list event) :
  adds P tr1 tr2 -> adds P tr2 tr3 -> adds P tr1 tr3.
Proof.
  intros [a [-> Ha]] [b [-> Hb]]. exists (a ++ b)%list.
  split; [now rewrite app_assoc | now apply Forall_app].
Qed.

Lemma adds_one (P : event -> Prop) (tr : list event) (e : event) :
  P e -> adds P tr (tr ++ [e])%list.
Proof. intros H. exists [e]. split; [reflexivity | now constructor]. Qed.

Section TraceInvariant.

Variable w : World.
Variable self : TaxonomyParser.t.
Variable P : event -> Prop.
Variable rel : Path.
Variable format : TaxonomyMessageFormat.
Variable allow_yq : bool.

Hypothesis P_lint : forall config content, P (RunYamllint config content).
Hypothesis P_read : forall path, P (ReadSchema path).
Hypothesis P_no_lint : P (Log Warning "could not run yamllint command" []).
Hypothesis P_yq : allow_yq = true -> forall e, is_yq_event e -> P e.
Hypothesis P_error :
  forall t m a l c y e t',
    Taxonomy.rel_path t = rel -> Taxonomy.message_format t = format ->
    Taxonomy.error w t m a l c y = (Ok e, t') -> P e.
Hypothesis P_warning :
  forall t m a l c y e t',
    Taxonomy.rel_path t = rel -> Taxonomy.message_format t = format ->
    Taxonomy.warning w t m a l c y = (Ok e, t') -> P e.

(** Substitution that leaves the path and the format of the section alone. *)
Ltac subst_results :=
  repeat match goal with
  | H : ?x = _ |- _ =>
      is_var x; lazymatch x with rel => fail | format => fail | _ => subst x end
  | H : _ = ?x |- _ =>
      is_var x; lazymatch x with rel => fail | format => fail | _ => subst x end
  end.

Lemma stage_trans (st1 st2 st3 : TaxonomyParser.state) (t2 t3 : Taxonomy.t) :
  stage P rel format st1 t2 st2 -> stage P rel format st2 t3 st3 -> stage P rel format st1 t3 st3.
Proof.
  intros [Ha [Hy _]] [Hb [Hz [Hr Hf]]]. split; [eapply adds_trans; eassumption|].
  split; [auto|]. split; assumption.
Qed.

Lemma ready_next (taxonomy taxonomy' : Taxonomy.t) (st st' : TaxonomyParser.state) :
  ready rel format allow_yq taxonomy st -> stage P rel format st taxonomy' st' -> ready rel format allow_yq taxonomy' st'.
Proof.
  intros [_ [_ Hy]] [_ [Hz [Hr Hf]]]. split; [exact Hr|]. split; [exact Hf | auto].
Qed.

Lemma lint_lines_stage (lines : list string) :
  forall taxonomy st outcome taxonomy' st',
    ready rel format allow_yq taxonomy st ->
    TaxonomyParser.lint_lines w self lines taxonomy st = (outcome, taxonomy', st') ->
    stage P rel format st taxonomy' st'.
Proof.
  induction lines as [|l lines IH]; intros taxonomy st outcome taxonomy' st' Hready H.
  - inversion H; subst_results. destruct Hready as [Hr [Hf _]].
    split; [apply adds_refl|]. split; [auto|]. split; assumption.
  - simpl in H.
    destruct (TaxonomyParser.pattern_match l) as [[[[line col] severity] message]|];
      [|now apply (IH taxonomy st outcome)].
    pose proof Hready as [Hr [Hf Hy]].
    destruct (TaxonomyParser.yamllint_strict self || String.eqb severity "error").
    + destruct (Taxonomy.error w taxonomy message [] line col EmptyString)
        as [[e|x] t1] eqn:He.
      * pose proof (P_error _ _ _ _ _ _ _ _ Hr Hf He) as HP.
        apply error_is_report in He. destruct He as [_ ->].
        assert (Hstep : stage P rel format st (Taxonomy.add_error taxonomy) (TaxonomyParser.record e st)).
        { split; [now apply adds_one|]. split; [auto|]. split; assumption. }
        eapply stage_trans; [exact Hstep|].
        eapply IH; [|exact H]. eapply ready_next; eassumption.
      * inversion H; subst_results.
        pose proof (error_after w taxonomy message [] line col EmptyString) as Ha.
        rewrite He in Ha. simpl in Ha. subst taxonomy'.
        split; [apply adds_refl|]. split; [auto|]. split; assumption.
    + destruct (Taxonomy.warning w taxonomy message [] line col EmptyString)
        as [[e|x] t1] eqn:He.
      * pose proof (P_warning _ _ _ _ _ _ _ _ Hr Hf He) as HP.
        apply warning_is_report in He. destruct He as [_ ->].
        assert (Hstep : stage P rel format st (Taxonomy.add_warning taxonomy) (TaxonomyParser.record e st)).
        { split; [now apply adds_one|]. split; [auto|]. split; assumption. }
        eapply stage_trans; [exact Hstep|].
        eapply IH; [|exact H]. eapply ready_next; eassumption.
      * inversion H; subst_results.
        pose proof (warning_after w taxonomy message [] line col EmptyString) as Ha.
        rewrite He in Ha. simpl in Ha. subst taxonomy'.
        split; [apply adds_refl|]. split; [auto|]. split; assumption.
Qed.

Lemma yamllint_stage (content : string) (taxonomy : Taxonomy.t) (st : TaxonomyParser.state)
    (outcome : result unit) (taxonomy' : Taxonomy.t) (st' : TaxonomyParser.state) :
  ready rel format allow_yq taxonomy st ->
  TaxonomyParser._yamllint w self content taxonomy st = (outcome, taxonomy', st') ->
  stage P rel format st taxonomy' st'.
Proof.
  intros Hready. unfold TaxonomyParser._yamllint.
  set (st0 := TaxonomyParser.record
                (RunYamllint (TaxonomyParser.yamllint_config self) content) st).
  assert (Hstart : stage P rel format st taxonomy st0).
  { destruct Hready as [Hr [Hf _]]. split; [apply adds_one, P_lint|].
    split; [auto|]. split; assumption. }
  destruct (run_yamllint w (TaxonomyParser.yamllint_config self) content) as [lines|].
  - intros H. eapply stage_trans; [exact Hstart|].
    eapply lint_lines_stage; [|exact H]. eapply ready_next; eassumption.
  - intros H. inversion H; subst_results. eapply stage_trans; [exact Hstart|].
    destruct Hready as [Hr [Hf _]]. split; [now apply adds_one|].
    split; [auto|]. split; assumption.
Qed.

Lemma load_schema_stage (path : string) (taxonomy : Taxonomy.t) (st : TaxonomyParser.state) :
  ready rel format allow_yq taxonomy st ->
  stage P rel format st taxonomy (snd (TaxonomyParser._load_schema w path st)).
Proof.
  intros [Hr [Hf _]]. unfold TaxonomyParser._load_schema, TaxonomyParser.load_schema_as.
  destruct (TaxonomyParser.cache_find (TaxonomyParser.Self, path) (TaxonomyParser.cache st)); cbn [snd].
  - split; [apply adds_refl|]. split; [auto|]. split; assumption.
  - destruct (read_schema w path); cbn [snd];
      (split; [apply adds_one, P_read|]; split; [auto|]; split; assumption).
Qed.

Lemma report_validation_error_stage (content : string) (e : ValidationError)
    (taxonomy : Taxonomy.t) (st : TaxonomyParser.state) (outcome : result unit)
    (taxonomy' : Taxonomy.t) (st' : TaxonomyParser.state) :
  ready rel format allow_yq taxonomy st ->
  TaxonomyParser.report_validation_error w self content e taxonomy st
  = (outcome, taxonomy', st') ->
  stage P rel format st taxonomy' st'.
Proof.
  intros Hready. pose proof Hready as [Hr [Hf Hy]].
  unfold TaxonomyParser.report_validation_error.
  set (yaml_path := if nonempty (Py.tail (json_path e)) then Py.tail (json_path e) else ".").
  set (located :=
         if TaxonomyParser.yq_available st
         then
           let yq_expression := yaml_path ++ " | line" in
           let st0 := TaxonomyParser.record (RunYq yq_expression content) st in
           match run_yq w yq_expression content with
           | YqOutput out => (if nonempty out then Py.strip out else "1", st0)
           | YqSubprocessError =>
               ("1", TaxonomyParser.record (Log Warning "could not run yq command" []) st0)
           | YqFileNotFound =>
               ("1", TaxonomyParser.record (Log Warning "could not run yq command" [])
                       (TaxonomyParser.set_yq_available false st0))
           end
         else ("1", st)).
  assert (Hloc : stage P rel format st taxonomy (snd located)).
  { unfold located. destruct (TaxonomyParser.yq_available st) eqn:Hq.
    - specialize (Hy eq_refl). cbv zeta.
      assert (Hrun : forall x c, P (RunYq x c)).
      { intros x c. apply (P_yq Hy). left. now exists x, c. }
      assert (Hwarn : P (Log Warning "could not run yq command" [])).
      { apply (P_yq Hy). now right. }
      destruct (run_yq w (yaml_path ++ " | line") content); cbn [snd].
      + split; [apply adds_one, Hrun|]. split; [auto|]. split; assumption.
      + split; [|split; [auto|split; assumption]].
        eapply adds_trans; [apply adds_one, Hrun | now apply adds_one].
      + split; [|split; [discriminate|split; assumption]].
        eapply adds_trans; [apply adds_one, Hrun | now apply adds_one].
    - cbn [snd]. split; [apply adds_refl|]. split; [auto|]. split; assumption. }
  destruct located as [line st1]. cbn [snd] in Hloc.
  set (reported :=
         if String.eqb (validator e) "minItems"
         then Taxonomy.error w taxonomy "Value must have at least %s items"
                [validator_value e] line "1" yaml_path
         else Taxonomy.error w taxonomy (Py.last_chars 200 (message e)) []
                line "1" yaml_path).
  assert (Hrep : forall ev t1, reported = (Ok ev, t1) -> P ev /\ t1 = Taxonomy.add_error taxonomy).
  { unfold reported. intros ev t1 H.
    destruct (String.eqb (validator e) "minItems");
      (split; [apply (P_error _ _ _ _ _ _ _ _ Hr Hf H) | apply (error_is_report w _ _ _ _ _ _ _ _ H)]). }
  assert (Hafter : snd reported = Taxonomy.add_error taxonomy).
  { unfold reported. destruct (String.eqb (validator e) "minItems"); apply error_after. }
  destruct reported as [[ev|x] t1].
  - destruct (Hrep ev t1 eq_refl) as [HP ->]. intros H. inversion H; subst_results.
    eapply stage_trans; [exact Hloc|].
    split; [now apply adds_one|]. split; [auto|]. split; assumption.
  - simpl in Hafter. subst t1. intros H. inversion H; subst_results.
    destruct Hloc as [Ha [Hb _]]. split; [exact Ha|]. split; [exact Hb|]. split; assumption.
Qed.

Lemma validation_loop_stage (version_base content : string) (steps : list engine_step) :
  forall taxonomy st outcome taxonomy' st',
    ready rel format allow_yq taxonomy st ->
    TaxonomyParser.validation_loop w self version_base content steps taxonomy st
    = (outcome, taxonomy', st') ->
    stage P rel format st taxonomy' st'.
Proof.
  induction steps as [|step steps IH]; intros taxonomy st outcome taxonomy' st' Hready H.
  - inversion H; subst_results. destruct Hready as [Hr [Hf _]].
    split; [apply adds_refl|]. split; [auto|]. split; assumption.
  - destruct step as [e|ref|]; simpl in H.
    + destruct (TaxonomyParser.report_validation_error w self content e taxonomy st)
        as [[o t1] st1] eqn:Hrep.
      pose proof (report_validation_error_stage _ _ _ _ _ _ _ Hready Hrep) as Hstep.
      destruct o as [u|x].
      * eapply stage_trans; [exact Hstep|].
        eapply IH; [|exact H]. eapply ready_next; eassumption.
      * inversion H; subst_results. exact Hstep.
    + unfold TaxonomyParser._retrieve in H.
      pose proof (load_schema_stage (version_base ++ "/" ++ ref) taxonomy st Hready) as Hstep.
      destruct (TaxonomyParser._load_schema w (version_base ++ "/" ++ ref) st)
        as [[r|x] st1]; cbn [snd] in Hstep.
      * eapply stage_trans; [exact Hstep|].
        eapply IH; [|exact H]. eapply ready_next; eassumption.
      * inversion H; subst_results. exact Hstep.
    + inversion H; subst_results. destruct Hready as [Hr [Hf _]].
      split; [apply adds_refl|]. split; [auto|]. split; assumption.
Qed.

Lemma schema_validate_stage (content : string) (taxonomy : Taxonomy.t)
    (st : TaxonomyParser.state) (outcome : result unit) (taxonomy' : Taxonomy.t)
    (st' : TaxonomyParser.state) :
  ready rel format allow_yq taxonomy st ->
  TaxonomyParser._schema_validate w self content taxonomy st = (outcome, taxonomy', st') ->
  stage P rel format st taxonomy' st'.
Proof.
  intros Hready. pose proof Hready as [Hr [Hf Hy]].
  assert (Hself : stage P rel format st taxonomy st).
  { split; [apply adds_refl|]. split; [auto|]. split; assumption. }
  unfold TaxonomyParser._schema_validate.
  destruct (Taxonomy.path taxonomy) as [|first rest].
  { intros H; inversion H; subst_results. exact Hself. }
  set (version_base := "v" ++ pyint_str (Taxonomy.version taxonomy)).
  set (name := TaxonomyParser.schema_name self taxonomy first ++ ".json").
  cbv zeta. unfold TaxonomyParser._retrieve.
  pose proof (load_schema_stage (version_base ++ "/" ++ name) taxonomy st Hready) as Hstep.
  destruct (TaxonomyParser._load_schema w (version_base ++ "/" ++ name) st)
    as [[r|x] st1]; cbn [snd] in Hstep.
  - destruct (TaxonomyParser.validation_loop w self version_base content
                (iter_errors w (contents r) version_base (Taxonomy.parsed taxonomy))
                taxonomy st1) as [[o t2] st2] eqn:Hloop.
    pose proof (validation_loop_frame _ _ _ _ _ _ _ _ _ _ Hloop) as [_ Hno].
    apply validation_loop_stage in Hloop; [|eapply ready_next; eassumption].
    pose proof (stage_trans _ _ _ _ _ Hstep Hloop) as Hall.
    destruct o as [u|x].
    + intros H; inversion H; subst_results. exact Hall.
    + destruct x; try (intros H; inversion H; subst_results; exact Hall).
      exfalso. eapply Hno. reflexivity.
  - destruct x; try (intros H; inversion H; subst_results; exact Hstep).
    destruct (Taxonomy.error w taxonomy "Cannot load schema file %s. %s"
                [ref; str_NoSuchResource w ref] "1" "1" EmptyString)
      as [[ev|x] t2] eqn:Herr.
    + pose proof (P_error _ _ _ _ _ _ _ _ Hr Hf Herr) as HP.
      apply error_is_report in Herr. destruct Herr as [_ ->].
      intros H; inversion H; subst_results. eapply stage_trans; [exact Hstep|].
      split; [now apply adds_one|]. split; [auto|]. split; assumption.
    + pose proof (error_after w taxonomy "Cannot load schema file %s. %s"
                    [ref; str_NoSuchResource w ref] "1" "1" EmptyString) as Ha.
      rewrite Herr in Ha. simpl in Ha. subst t2.
      intros H; inversion H; subst_results.
      destruct Hstep as [Ha [Hb _]]. split; [exact Ha|]. split; [exact Hb|]. split; assumption.
Qed.

Lemma lint_and_validate_stage (content : string) (taxonomy : Taxonomy.t)
    (st : TaxonomyParser.state) :
  ready rel format allow_yq taxonomy st ->
  let st' := snd (TaxonomyParser.lint_and_validate w self content taxonomy st) in
  adds P (TaxonomyParser.trace st) (TaxonomyParser.trace st')
  /\ (TaxonomyParser.yq_available st' = true -> TaxonomyParser.yq_available st = true).
Proof.
  intros Hready. unfold TaxonomyParser.lint_and_validate.
  set (linted := if (int_value (Taxonomy.version taxonomy) >? 1)%Z
                 then TaxonomyParser._yamllint w self content taxonomy st
                 else (Ok tt, taxonomy, st)).
  assert (Hlint : stage P rel format st (snd (fst linted)) (snd linted)).
  { unfold linted. destruct (int_value (Taxonomy.version taxonomy) >? 1)%Z.
    - destruct (TaxonomyParser._yamllint w self content taxonomy st) as [[o t1] st1] eqn:H.
      now apply yamllint_stage in H.
    - destruct Hready as [Hr [Hf _]]. split; [apply adds_refl|].
      split; [auto|]. split; assumption. }
  destruct linted as [[o t1] st1]. cbn [fst snd] in Hlint.
  destruct o as [u|x]; [|cbn [snd]; destruct Hlint as [Ha [Hb _]]; now split].
  destruct (TaxonomyParser._schema_validate w self content t1 st1) as [[o2 t2] st2] eqn:Hv.
  apply schema_validate_stage in Hv; [|eapply ready_next; eassumption].
  pose proof (stage_trans _ _ _ _ _ Hlint Hv) as [Ha [Hb _]].
  destruct o2; cbn [snd]; now split.
Qed.

Lemma parse_stage (abs_path : Path) (st : TaxonomyParser.state) :
  Taxonomy.rel_path (TaxonomyParser.new_taxonomy w self abs_path) = rel ->
  Taxonomy.message_format (TaxonomyParser.new_taxonomy w self abs_path) = format ->
  (TaxonomyParser.yq_available st = true -> allow_yq = true) ->
  let st' := snd (TaxonomyParser.parse w self abs_path st) in
  adds P (TaxonomyParser.trace st) (TaxonomyParser.trace st')
  /\ (TaxonomyParser.yq_available st' = true -> TaxonomyParser.yq_available st = true).
Proof.
  intros Hr Hf Hy.
  destruct (parse_cases w self abs_path st)
    as [[ev [m [a [[Hev H]|[Hev H]]]]]|[H|[content [parsed [version [_ [_ [_ [_ [_ [_ H]]]]]]]]]]];
    rewrite H; cbn [snd].
  - split; [|auto]. apply adds_one. eapply P_error; eassumption.
  - split; [|auto]. apply adds_one. eapply P_warning; eassumption.
  - split; [apply adds_refl | auto].
  - rewrite wrapped_state. apply lint_and_validate_stage.
    split; [exact Hr|]. split; [exact Hf | exact Hy].
Qed.

End TraceInvariant.

Lemma error_event_shape (w : World) (self : Taxonomy.t) (message : string) (args : list string)
    (line col yaml_path : string) (e : event) (after : Taxonomy.t) :
  Taxonomy.error w self message args line col yaml_path = (Ok e, after) ->
  match Taxonomy.message_format self with
  | LOGGING => exists fmt rest,
      e = Log Error fmt (path_str (Taxonomy.rel_path self) :: rest)
  | GITHUB => exists rest,
      e = Print ("::error file=" ++ path_str (Taxonomy.rel_path self) ++ ",line=" ++ rest)
  | STANDARD | AUTO => exists rest,
      e = Print ("ERROR: " ++ path_str (Taxonomy.rel_path self) ++ ":" ++ rest)
  end.
Proof.
  unfold Taxonomy.error. simpl Taxonomy.message_format. simpl Taxonomy.rel_path.
  destruct (Taxonomy.message_format self);
    try destruct (Taxonomy.interpolate w message args);
    destruct (nonempty yaml_path); intros H; inversion H; eexists; try eexists; reflexivity.
Qed.

Lemma warning_event_shape (w : World) (self : Taxonomy.t) (message : string) (args : list string)
    (line col yaml_path : string) (e : event) (after : Taxonomy.t) :
  Taxonomy.warning w self message args line col yaml_path = (Ok e, after) ->
  match Taxonomy.message_format self with
  | LOGGING => exists fmt rest,
      e = Log Warning fmt (path_str (Taxonomy.rel_path self) :: rest)
  | GITHUB => exists rest,
      e = Print ("::warning file=" ++ path_str (Taxonomy.rel_path self) ++ ",line=" ++ rest)
  | STANDARD | AUTO => exists rest,
      e = Print ("WARN: " ++ path_str (Taxonomy.rel_path self) ++ ":" ++ rest)
  end.
Proof.
  unfold Taxonomy.warning. simpl Taxonomy.message_format. simpl Taxonomy.rel_path.
  destruct (Taxonomy.message_format self);
    try destruct (Taxonomy.interpolate w message args);
    destruct (nonempty yaml_path); intros H; inversion H; eexists; try eexists; reflexivity.
Qed.

Lemma prefix_common (a b c : string) :
  String.prefix (a ++ b) (a ++ c) = String.prefix b c.
Proof.
  induction a as [|x a IH]; simpl; [reflexivity|].
  destruct (ascii_dec x x) as [_|Hne]; [exact IH | contradiction].
Qed.

(** X10.  [yq_available] only ever goes from true to false: if it is true
    after a parse, it was true before.  And once it is false, [parse] does
    not start [yq] any more, and logs no warning about it: the events that
    it adds to the trace hold none of [yq]. *)
Theorem yq_is_not_tried_again (w : World) (self : TaxonomyParser.t) (abs_path : Path)
    (st : TaxonomyParser.state) :
  let st' := snd (TaxonomyParser.parse w self abs_path st) in
  (TaxonomyParser.yq_available st' = true -> TaxonomyParser.yq_available st = true)
  /\ (TaxonomyParser.yq_available st = false ->
      TaxonomyParser.yq_available st' = false
      /\ adds (fun e => ~ is_yq_event e)
           (TaxonomyParser.trace st) (TaxonomyParser.trace st')).
Proof.
  intros st'.
  assert (Herror : forall t m a l c y e t',
            Taxonomy.error w t m a l c y = (Ok e, t') -> ~ is_yq_event e).
  { intros t m a l c y e t' H. apply error_event_shape in H.
    destruct (Taxonomy.message_format t);
      try (destruct H as [rest ->]; intros [[x [c' H]]|H]; discriminate).
    destruct H as [fmt [rest ->]]. intros [[x [c' H]]|H]; discriminate. }
  assert (Hwarning : forall t m a l c y e t',
            Taxonomy.warning w t m a l c y = (Ok e, t') -> ~ is_yq_event e).
  { intros t m a l c y e t' H. apply warning_event_shape in H.
    destruct (Taxonomy.message_format t);
      try (destruct H as [rest ->]; intros [[x [c' H]]|H]; discriminate).
    destruct H as [fmt [rest ->]]. intros [[x [c' H]]|H]; discriminate. }
  split.
  - apply (parse_stage w self (fun _ => True)
             (Taxonomy.rel_path (TaxonomyParser.new_taxonomy w self abs_path))
             (Taxonomy.message_format (TaxonomyParser.new_taxonomy w self abs_path))
             true); try reflexivity; trivial.
  - intros Hoff.
    destruct (parse_stage w self (fun e => ~ is_yq_event e)
                (Taxonomy.rel_path (TaxonomyParser.new_taxonomy w self abs_path))
                (Taxonomy.message_format (TaxonomyParser.new_taxonomy w self abs_path))
                false) with (abs_path := abs_path) (st := st) as [Hadds Hmono];
      try reflexivity.
    + intros config content [[x [c H]]|H]; discriminate.
    + intros path [[x [c H]]|H]; discriminate.
    + intros [[x [c H]]|H]; discriminate.
    + discriminate.
    + intros t m a l c y e t' _ _. apply Herror.
    + intros t m a l c y e t' _ _. apply Hwarning.
    + rewrite Hoff. discriminate.
    + split; [|exact Hadds].
      fold st' in Hmono. destruct (TaxonomyParser.yq_available st'); [|reflexivity].
      rewrite Hoff in Hmono. symmetry. now apply Hmono.
Qed.

(** X11.  The output of a parse conforms to the format of the entry.  In the
    LOGGING format nothing is printed.  In the GITHUB format every printed
    line starts with [::error file=<rel_path>,] or
    [::warning file=<rel_path>,], and in the STANDARD format with
    [ERROR: <rel_path>:] or [WARN: <rel_path>:]; in these two formats the
    only records handed to the logger are the warnings about a tool that
    could not be run. *)
Theorem output_conforms_to_format (w : World) (self : TaxonomyParser.t) (abs_path : Path)
    (st : TaxonomyParser.state) :
  let created := TaxonomyParser.new_taxonomy w self abs_path in
  let rel := path_str (Taxonomy.rel_path created) in
  let before := TaxonomyParser.trace st in
  let after := TaxonomyParser.trace (snd (TaxonomyParser.parse w self abs_path st)) in
  (Taxonomy.message_format created = LOGGING -> adds logging_event before after)
  /\ (Taxonomy.message_format created = GITHUB ->
      adds (printing_event ("::error file=" ++ rel ++ ",") ("::warning file=" ++ rel ++ ","))
        before after)
  /\ (Taxonomy.message_format created = STANDARD ->
      adds (printing_event ("ERROR: " ++ rel ++ ":") ("WARN: " ++ rel ++ ":")) before after).
Proof.
  intros created rel before after.
  assert (Htool : forall a b e, is_tool_event e -> printing_event a b e).
  { intros a b e H. destruct e; try exact I; [|exact H].
    destruct H as [[[x [c H]]|H]|[[x [c H]]|[H|[x H]]]]; discriminate. }
  split; [|split]; intros Hformat.
  - apply (parse_stage w self logging_event (Taxonomy.rel_path created) LOGGING true);
      try exact I; try reflexivity; try assumption.
    + intros _ e [[x [c ->]]| ->]; exact I.
    + intros t m a l c y e t' _ Hf H. apply error_event_shape in H. rewrite Hf in H.
      destruct H as [fmt [rest ->]]. exact I.
    + intros t m a l c y e t' _ Hf H. apply warning_event_shape in H. rewrite Hf in H.
      destruct H as [fmt [rest ->]]. exact I.
  - apply (parse_stage w self _ (Taxonomy.rel_path created) GITHUB true);
      try exact I; try reflexivity; try assumption.
    + apply Htool. right. right. now left.
    + intros _ e H. apply Htool. now left.
    + intros t m a l c y e t' Hr Hf H. apply error_event_shape in H.
      rewrite Hf, Hr in H. destruct H as [rest ->]. left. fold rel.
      rewrite (prefix_common "::error file="), (prefix_common rel). reflexivity.
    + intros t m a l c y e t' Hr Hf H. apply warning_event_shape in H.
      rewrite Hf, Hr in H. destruct H as [rest ->]. right. fold rel.
      rewrite (prefix_common "::warning file="), (prefix_common rel). reflexivity.
  - apply (parse_stage w self _ (Taxonomy.rel_path created) STANDARD true);
      try exact I; try reflexivity; try assumption.
    + apply Htool. right. right. now left.
    + intros _ e H. apply Htool. now left.
    + intros t m a l c y e t' Hr Hf H. apply error_event_shape in H.
      rewrite Hf, Hr in H. destruct H as [rest ->]. left. fold rel.
      rewrite (prefix_common "ERROR: "), (prefix_common rel). now destruct rest.
    + intros t m a l c y e t' Hr Hf H. apply warning_event_shape in H.
      rewrite Hf, Hr in H. destruct H as [rest ->]. right. fold rel.
      rewrite (prefix_common "WARN: "), (prefix_common rel). now destruct rest.
Qed.

(** ** A file that cannot be read or decoded *)

(** X12.  When the file exists and is named qna.yaml, but reading it fails or
    its content cannot be decoded as YAML, [parse] raises
    [TaxonomyReadingException]: no entry is returned, nothing is reported and
    no tool is run. *)
Theorem unreadable_file_raises (w : World) (self : TaxonomyParser.t) (abs_path : Path)
    (st : TaxonomyParser.state) :
  isfile w abs_path = true ->
  path_name abs_path = "qna.yaml" ->
  read_text w abs_path = None
  \/ (exists content, read_text w abs_path = Some content /\ safe_load w content = None) ->
  TaxonomyParser.parse w self abs_path st = (Raise TaxonomyReadingException, st).
Proof.
  intros Hf Hn H. unfold TaxonomyParser.parse. rewrite Hf, Hn. simpl.
  destruct H as [Hr|[content [Hr Hl]]]; rewrite Hr; [reflexivity|].
  rewrite Hl. reflexivity.
Qed.

Lemma unreadable_file_witness :
  TaxonomyParser.parse undecodable (Example.parser 0 STANDARD) (Example.qna "version_2")
    TaxonomyParser.initial_state
  = (Raise TaxonomyReadingException, TaxonomyParser.initial_state).
Proof.
  apply unreadable_file_raises; [reflexivity | reflexivity |].
  right. exists "version_2". split; reflexivity.
Defined.

(** ** A parser with a fixed version *)

(** X13.  A parser whose [schema_version] is 1 or more does not look at the
    [version] key of the document: whatever the document says, version
    resolution returns the version of the parser and does not raise, the
    document is linted and validated under it, and the entry that [parse]
    returns carries it. *)
Theorem fixed_version_overrides_document (w : World) (self : TaxonomyParser.t)
    (abs_path : Path) (st : TaxonomyParser.state) (content : string)
    (parsed : list (yaml * yaml)) :
  (1 <= TaxonomyParser.schema_version self)%Z ->
  isfile w abs_path = true ->
  path_name abs_path = "qna.yaml" ->
  read_text w abs_path = Some content ->
  safe_load w content = Some (YMap parsed) ->
  parsed <> [] ->
  resolves_to w self abs_path st content parsed (PInt (TaxonomyParser.schema_version self)).
Proof.
  intros Hv Hf Hn Hr Hl Hne. apply resolves_to_intro; try assumption.
  unfold TaxonomyParser.resolve_version.
  destruct (TaxonomyParser.schema_version self <? 1)%Z eqn:Hlt; [|reflexivity].
  apply Z.ltb_lt in Hlt. lia.
Qed.

Lemma fixed_version_witness :
  resolves_to Example.world (Example.parser 2 STANDARD) (Example.qna "version_9")
    TaxonomyParser.initial_state "version_9"
    [(YStr "version", YInt 9); (YStr "created_by", YStr "me")] (PInt 2).
Proof.
  apply (fixed_version_overrides_document Example.world (Example.parser 2 STANDARD));
    try reflexivity; [simpl; lia | discriminate].
Defined.

(** ** Creating a parser *)

Lemma sorted_last_max {A : Type} (f : A -> Z) (l : list A) (d x : A) :
  StronglySorted (fun a b => (f a <= f b)%Z) l -> In x l -> (f x <= f (last l d))%Z.
Proof.
  induction 1 as [|y l Hs IH Hall]; [intros []|].
  intros Hin. destruct l as [|z l].
  - destruct Hin as [<-|[]]. simpl. lia.
  - change (last (y :: z :: l) d) with (last (z :: l) d).
    destruct Hin as [<-|Hin]; [|now apply IH].
    rewrite Forall_forall in Hall. apply Hall. apply last_In. discriminate.
Qed.

Lemma version_entries_spec (w : World) (name : string) :
  In name (version_entries w) <-> In name (schema_entries w) /\ Schema.is_version name = true.
Proof. unfold version_entries. apply filter_In. Qed.

(** What [__init__] takes as the version when none is given. *)
Lemma init_default_version (w : World) :
  match version_entries w with
  | [] => Schema.schema_versions w = Ok []
  | _ :: _ =>
      exists versions name,
        Schema.schema_versions w = Ok versions /\ versions <> []
        /\ name = last versions EmptyString
        /\ In name (version_entries w)
        /\ Py.int_of_str (Py.tail name) = Some (version_number name)
        /\ forall other, In other (version_entries w) ->
             (version_number other <= version_number name)%Z
  end.
Proof.
  destruct (schema_versions_sorted w) as [versions [Hsv [Hperm Hsorted]]].
  fold (version_entries w) in Hperm.
  destruct (version_entries w) as [|c cs] eqn:Hc.
  - apply Permutation_sym, Permutation_nil in Hperm. now subst versions.
  - assert (Hne : versions <> []).
    { intros ->. apply Permutation_nil in Hperm. discriminate. }
    exists versions, (last versions EmptyString).
    split; [exact Hsv|]. split; [exact Hne|]. split; [reflexivity|].
    assert (Hin : In (last versions EmptyString) (c :: cs)).
    { apply (Permutation_in _ Hperm). now apply last_In. }
    split; [exact Hin|]. split.
    + rewrite <- Hc in Hin. apply version_entries_spec in Hin.
      apply (version_key_number _ (proj2 Hin)). apply (entry_is_name w), Hin.
    + intros other Ho. apply sorted_last_max; [exact Hsorted|].
      apply (Permutation_in _ (Permutation_sym Hperm)). exact Ho.
Qed.


(** X14.  A parser created without [schema_version] uses the highest schema
    version: its version is the number of one of the version entries under
    the schema base, and no version entry has a greater number, in whatever
    order the entries are listed. *)
Theorem default_version_is_highest (w : World) (folders : option (list string))
    (config : option string) (strict : bool)
    (format : option (TaxonomyMessageFormat + string)) (parser : TaxonomyParser.t) :
  TaxonomyParser.init w folders None config strict format = Ok parser ->
  (exists name,
     In name (schema_entries w) /\ Schema.is_version name = true
     /\ TaxonomyParser.schema_version parser = version_number name)
  /\ (forall name,
        In name (schema_entries w) -> Schema.is_version name = true ->
        (version_number name <= TaxonomyParser.schema_version parser)%Z).
Proof.
  intros H. pose proof (init_default_version w) as Hd.
  unfold TaxonomyParser.init in H.
  destruct (version_entries w) as [|c cs] eqn:Hc.
  - rewrite Hd in H. discriminate.
  - destruct Hd as [versions [name [Hsv [Hne [Hname [Hin [Hint Hmax]]]]]]].
    rewrite Hsv in H. destruct versions as [|v vs]; [contradiction|].
    rewrite <- Hname, Hint in H.
    assert (Hp : TaxonomyParser.schema_version parser = version_number name).
    { destruct format as [[f|s]|];
        [|destruct (TaxonomyParser.format_of_name (Py.upper s)); [|discriminate]|];
        inversion H; reflexivity. }
    rewrite <- Hc in Hin, Hmax. split.
    + exists name. apply version_entries_spec in Hin. tauto.
    + intros other Ho Hv. rewrite Hp. apply Hmax. apply version_entries_spec. tauto.
Qed.

Lemma default_version_witness :
  (exists name,
     In name (schema_entries Example.world) /\ Schema.is_version name = true
     /\ 10%Z = version_number name)
  /\ (forall name,
        In name (schema_entries Example.world) -> Schema.is_version name = true ->
        (version_number name <= 10)%Z).
Proof.
  exact (default_version_is_highest Example.world None None false (Some (inr "github"))
           (Example.parser 10 GITHUB) eq_refl).
Defined.


(** ** The schema of a document *)

(** X16.  The schema that a document is validated against follows from where
    the file lies: when a component of its absolute path is a taxonomy
    folder, the schema is named after the last such component; when none is,
    the schema is [knowledge] for a document with a [document] key and
    [compositional_skills] for any other (a resolved path has at least one
    component).  The schema file is [v<version>/<name>.json]. *)
Theorem schema_follows_folder (w : World) (self : TaxonomyParser.t) (abs_path : Path)
    (version : pyint) (parsed : list (yaml * yaml)) :
  let folders := TaxonomyParser.taxonomy_folders self in
  let document :=
    Taxonomy.set_parsed (TaxonomyParser.new_taxonomy w self abs_path) version parsed in
  let name :=
    TaxonomyParser.schema_name self document (hd EmptyString (Taxonomy.path document)) in
  schema_path self document = "v" ++ pyint_str version ++ "/" ++ name ++ ".json"
  /\ ((exists x, In x abs_path /\ In x folders) ->
      In name folders
      /\ exists before rest,
           abs_path = (before ++ name :: rest)%list
           /\ forall x, In x rest -> ~ In x folders)
  /\ (abs_path <> [] -> (forall x, In x abs_path -> ~ In x folders) ->
      name = fallback_schema parsed).
Proof.
  intros folders document name.
  assert (Hpath : Taxonomy.path document
                  = match TaxonomyParser.find_folder folders abs_path with
                    | Some p => p
                    | None => abs_path
                    end).
  { unfold document, TaxonomyParser.new_taxonomy. fold folders.
    destruct (TaxonomyParser.find_folder folders abs_path); reflexivity. }
  assert (Hname : forall first,
            TaxonomyParser.schema_name self document first
            = if Py.mem first folders then first else fallback_schema parsed).
  { intros first. unfold TaxonomyParser.schema_name, fallback_schema. reflexivity. }
  split; [reflexivity|]. unfold name. rewrite Hname, Hpath. clear Hpath. split.
  - intros [x [Hx Hf]].
    destruct (TaxonomyParser.find_folder folders abs_path) as [p|] eqn:Hfind.
    + destruct (find_folder_some folders abs_path p Hfind)
        as [before [folder [rest [H1 [H2 [H3 H4]]]]]].
      subst p. simpl hd. rewrite (proj2 (mem_In folder folders) H3).
      split; [exact H3|]. now exists before, rest.
    + exfalso. now apply (find_folder_none folders abs_path Hfind x).
  - intros Hne Hnone.
    destruct (TaxonomyParser.find_folder folders abs_path) as [p|] eqn:Hfind.
    + destruct (find_folder_some folders abs_path p Hfind)
        as [before [folder [rest [H1 [_ [H3 _]]]]]].
      exfalso. apply (Hnone folder); [|exact H3].
      rewrite H1. apply in_or_app. right. now left.
    + destruct abs_path as [|first rest]; [contradiction|]. simpl hd.
      destruct (Py.mem first folders) eqn:Hm; [|reflexivity].
      apply mem_In in Hm. exfalso. apply (Hnone first); [now left | exact Hm].
Qed.

(** ** The order in which the schema base lists its entries *)

Lemma filter_permutation {A : Type} (f : A -> bool) (l l' : list A) :
  Permutation l l' -> Permutation (filter f l) (filter f l').
Proof.
  induction 1 as [|x l l' _ IH|x y l|l l' l'' _ IH1 _ IH2]; simpl.
  - apply Permutation_refl.
  - destruct (f x); [now apply perm_skip | exact IH].
  - destruct (f x), (f y); try apply Permutation_refl. apply perm_swap.
  - now apply Permutation_trans with (filter f l').
Qed.

Lemma sorted_distinct_is_strict (l : list string) :
  StronglySorted (fun a b => (version_number a <= version_number b)%Z) l ->
  NoDup (map version_number l) ->
  StronglySorted (fun a b => (version_number a < version_number b)%Z) l.
Proof.
  induction 1 as [|x l Hs IH Hall]; intros Hnd; constructor.
  - apply IH. now inversion Hnd.
  - inversion Hnd as [|n ns Hnotin _]; subst.
    rewrite Forall_forall in *. intros y Hy.
    assert (version_number x <> version_number y).
    { intros Heq. apply Hnotin. rewrite Heq. now apply in_map. }
    specialize (Hall y Hy). lia.
Qed.

Lemma strictly_sorted_unique (l1 l2 : list string) :
  StronglySorted (fun a b => (version_number a < version_number b)%Z) l1 ->
  StronglySorted (fun a b => (version_number a < version_number b)%Z) l2 ->
  Permutation l1 l2 -> l1 = l2.
Proof.
  intros H1. revert l2. induction H1 as [|x l1 Hs1 IH Hall1]; intros l2 H2 Hp.
  - now apply Permutation_nil in Hp.
  - destruct H2 as [|y l2 Hs2 Hall2].
    + apply Permutation_sym, Permutation_nil in Hp. discriminate.
    + rewrite Forall_forall in Hall1, Hall2.
      destruct (string_dec x y) as [->|Hne].
      * f_equal. apply IH; [exact Hs2|]. now apply Permutation_cons_inv in Hp.
      * exfalso.
        assert (Hx : In x l2).
        { destruct (Permutation_in x Hp (or_introl eq_refl)) as [Heq|Hin];
            [congruence | exact Hin]. }
        assert (Hy : In y l1).
        { destruct (Permutation_in y (Permutation_sym Hp) (or_introl eq_refl)) as [Heq|Hin];
            [congruence | exact Hin]. }
        specialize (Hall1 y Hy). specialize (Hall2 x Hx). lia.
Qed.

(** X17.  When the version entries under the schema base have distinct
    numbers, what [schema_versions] returns does not depend on the order in
    which the directory lists its entries. *)
Theorem schema_versions_order_independent (w w' : World) :
  Permutation (schema_entries w) (schema_entries w') ->
  NoDup (map version_number (version_entries w)) ->
  Schema.schema_versions w = Schema.schema_versions w'.
Proof.
  intros Hperm Hnd.
  destruct (schema_versions_sorted w) as [l [Hl [Hpl Hsl]]].
  destruct (schema_versions_sorted w') as [l' [Hl' [Hpl' Hsl']]].
  fold (version_entries w) in Hpl. fold (version_entries w') in Hpl'.
  rewrite Hl, Hl'. f_equal.
  assert (Hentries : Permutation (version_entries w) (version_entries w'))
    by now apply filter_permutation.
  assert (Hll' : Permutation l l').
  { apply Permutation_trans with (version_entries w); [exact Hpl|].
    apply Permutation_trans with (version_entries w'); [exact Hentries|].
    now apply Permutation_sym. }
  apply strictly_sorted_unique; [| |exact Hll'].
  - apply sorted_distinct_is_strict; [exact Hsl|].
    apply (Permutation_NoDup (l := map version_number (version_entries w))); [|exact Hnd].
    apply Permutation_map. now apply Permutation_sym.
  - apply sorted_distinct_is_strict; [exact Hsl'|].
    apply (Permutation_NoDup (l := map version_number (version_entries w))); [|exact Hnd].
    apply Permutation_map.
    apply Permutation_trans with l; [now apply Permutation_sym | exact Hll'].
Qed.

Lemma schema_versions_order_witness :
  Schema.schema_versions Example.world = Schema.schema_versions relisted.
Proof.
  apply schema_versions_order_independent.
  - apply Permutation_rev.
  - vm_compute. repeat constructor; simpl; intuition discriminate.
Defined.
